(** * M2M OAuth credential rotation: the notebook and its two services

    A shallow embedding of
      - [notebook/services/databricks_service.py]  (class DatabricksService)
      - [notebook/services/powerbi_service.py]     (class PowerbiService)
      - [notebook/Update-M2M-OAuth-Credentials.py] (the notebook, cells 4-16)

    Python values are modelled as Python has them: JSON decoded by
    [json.loads] is dynamically typed ([json]), a local variable that a loop
    may leave unassigned is an [option], exceptions are values of [exn].
    Everything outside the three files (the Databricks SDK, [requests],
    [dbutils], [json.loads], the credential encryption service) is an oracle
    of the environment [Env]; every call to such an oracle is appended to a
    trace of events, and the oracle answers as a function of the trace so
    far, so collaborators may be stateful.  [print] is not modelled. *)

From Stdlib Require Import String Ascii List ZArith Lia Bool DecimalString.
From Stdlib Require Import Floats.SpecFloat.
Import ListNotations.
Open Scope string_scope.

Set Implicit Arguments.
Set Warnings "-register-all".

(** ** Python values and exceptions *)

(** What [json.loads] returns.  A [JObj] lists the items of the Python dict
    in insertion order; string contents are kept as bytes. *)
Inductive json : Type :=
| JNull
| JBool (b : bool)
| JInt (n : Z)
| JFloat (f : spec_float)
| JStr (s : string)
| JArr (l : list json)
| JObj (kv : list (string * json)).

Inductive exn : Type :=
| ValueError (msg : string)
| UnboundLocalError (var : string)
| KeyError (key : json)
| IndexError
| TypeError
| AttributeError
| JSONDecodeError
| Raised (what : string).   (* an exception raised inside a collaborator *)

Inductive result (A : Type) : Type :=
| Ok (a : A)
| Err (e : exn).
Arguments Ok {A} a.
Arguments Err {A} e.

Definition rbind {A B} (r : result A) (k : A -> result B) : result B :=
  match r with
  | Ok a => k a
  | Err e => Err e
  end.

Declare Scope result_scope.
Delimit Scope result_scope with res.
Notation "x <~ r ; k" := (rbind r (fun x => k))
  (at level 61, r at next level, right associativity) : result_scope.

(** The double-quote and single-quote characters. *)
Definition dq : string := String "034"%char EmptyString.
Definition sq : string := String "039"%char EmptyString.

(** [str(n)] of a Python int. *)
Definition str_int (n : Z) : string := NilZero.string_of_int (Z.to_int n).

(** [str(x)] of an [Optional[str]]. *)
Definition str_opt (x : option string) : string :=
  match x with
  | Some s => s
  | None => "None"
  end.

Fixpoint assoc (k : string) (kv : list (string * json)) : option json :=
  match kv with
  | [] => None
  | (k', v) :: rest => if String.eqb k k' then Some v else assoc k rest
  end.

(** [v[k]] for a string key [k]. *)
Definition getitem (v : json) (k : string) : result json :=
  match v with
  | JObj kv =>
      match assoc k kv with
      | Some x => Ok x
      | None => Err (KeyError (JStr k))
      end
  | _ => Err TypeError
  end.

(** [v[0]]. *)
Definition getitem0 (v : json) : result json :=
  match v with
  | JArr (x :: _) => Ok x
  | JArr [] => Err IndexError
  | JStr (String c _) => Ok (JStr (String c EmptyString))
  | JStr EmptyString => Err IndexError
  | JObj _ => Err (KeyError (JInt 0))
  | _ => Err TypeError
  end.

(** [len(v)]. *)
Definition py_len (v : json) : result nat :=
  match v with
  | JArr l => Ok (List.length l)
  | JObj kv => Ok (List.length kv)
  | JStr s => Ok (String.length s)
  | _ => Err TypeError
  end.

Fixpoint chars (s : string) : list json :=
  match s with
  | EmptyString => []
  | String c rest => JStr (String c EmptyString) :: chars rest
  end.

(** The items [for i in v] visits. *)
Definition py_iter (v : json) : result (list json) :=
  match v with
  | JArr l => Ok l
  | JObj kv => Ok (map (fun p => JStr (fst p)) kv)
  | JStr s => Ok (chars s)
  | _ => Err TypeError
  end.

(** [v == s] for a [str] s. *)
Definition eq_str (v : json) (s : string) : bool :=
  match v with
  | JStr s' => String.eqb s' s
  | _ => false
  end.

(** [d.get(k)]. *)
Definition py_get (v : json) (k : string) : result json :=
  match v with
  | JObj kv =>
      match assoc k kv with
      | Some x => Ok x
      | None => Ok JNull
      end
  | _ => Err AttributeError
  end.

(** [s + v] for a [str] s. *)
Definition str_add (s : string) (v : json) : result string :=
  match v with
  | JStr s' => Ok (s ++ s')
  | _ => Err TypeError
  end.

(** ** Collaborators *)

Record SdkServicePrincipal : Type := {
  application_id : string;
  id : option string
}.

Record SecretInfo : Type := { secret_info_id : string }.

Record CreateServicePrincipalSecretResponse : Type := { secret : string }.

Inductive verb : Type := GET | POST | PATCH.

Inductive payload : Type :=
| NoBody
| Form (data : list (string * string))
| Json (j : json).

Record Request : Type := {
  method : verb;
  url : string;
  headers : list (string * string);
  body : payload
}.

Record Response : Type := {
  status_code : Z;
  text : string
}.

(** The service methods and helpers the notebook calls. *)
Inductive call : Type :=
| cCheckServicePrincipal
| cCheckServicePrincipalSecret
| cGenerateServicePrincipalSecret
| cGrantPermissionsOnWarehouse
| cGetWorkspaceId
| cGetDatasetId
| cTakOverDataset
| cGetDatasetDatasource
| cGetGatewayPublicKey
| cEncodeCredentials
| cUpdateDatasetDatasource
| cRefreshDataset.

Inductive event : Type :=
| Invoked (c : call)                               (* a notebook cell calls [c] *)
| SpList (filter : string)                         (* service_principals.list *)
| SpCreate (display_name : string)                 (* service_principals.create *)
| SecretsList (service_principal_id : option string)
| SecretsCreate (service_principal_id : option string) (lifetime : string)
| SetPermissions (warehouse_id : string) (service_principal_name : string)
| SecretsGet (scope key : string)                  (* dbutils.secrets.get *)
| Http (r : Request)                               (* requests.get/post/patch *)
| Encrypt (public_key : json) (plain : string).    (* EncryptCredentialsService *)

Definition trace : Type := list event.

Record Env : Type := {
  (** [repr] of a decoded JSON value that is not a [str] *)
  repr : json -> string;
  json_loads : string -> option json;
  service_principals_list : trace -> string -> result (list SdkServicePrincipal);
  service_principals_create : trace -> string -> result SdkServicePrincipal;
  secrets_proxy_list : trace -> option string -> result (list SecretInfo);
  secrets_proxy_create :
    trace -> option string -> string -> result CreateServicePrincipalSecretResponse;
  warehouses_set_permissions : trace -> string -> string -> result unit;
  dbutils_secrets_get : trace -> string -> string -> result string;
  requests : trace -> Request -> result Response;
  (** [EncryptCredentialsService(public_key).EncodeCredentials(plain)];
      services/encrypt_credentials_service.py is not part of the sources *)
  encrypt_credentials : trace -> json -> string -> result string
}.

(** ** The monad of service code: environment, trace, exceptions *)

Definition M (A : Type) : Type := Env -> trace -> result A * trace.

Definition ret {A} (a : A) : M A := fun _ t => (Ok a, t).

Definition raise {A} (e : exn) : M A := fun _ t => (Err e, t).

Definition bind {A B} (c : M A) (k : A -> M B) : M B :=
  fun env t =>
    match c env t with
    | (Ok a, t') => k a env t'
    | (Err e, t') => (Err e, t')
    end.

Definition lift {A} (r : result A) : M A := fun _ t => (r, t).

(** One call to a collaborator: the answer depends on the trace so far and
    the call is recorded. *)
Definition ask {A} (e : event) (oracle : Env -> trace -> result A) : M A :=
  fun env t => (oracle env t, (t ++ [e])%list).

Definition emit (e : event) : M unit := fun _ t => (Ok tt, (t ++ [e])%list).

Declare Scope m_scope.
Delimit Scope m_scope with M.
Notation "x <- c ;; k" := (bind c (fun x => k))
  (at level 61, c at next level, right associativity) : m_scope.
Notation "' p <- c ;; k" := (bind c (fun x => let p := x in k))
  (at level 61, p pattern, c at next level, right associativity) : m_scope.
Notation "c ;; k" := (bind c (fun _ => k))
  (at level 61, right associativity) : m_scope.
Open Scope m_scope.

Definition run {A} (c : M A) (env : Env) (t : trace) : result A * trace := c env t.

(** ** services/databricks_service.py *)

Record DatabricksService : Type := { max_secrets : Z }.

(** [CreateClient]: the SDK client is the environment; the cap is 5. *)
Definition CreateClient : DatabricksService := {| max_secrets := 5 |}.

(** The [for sp in service_principals] loop of [CheckServicePrincipal]:
    both locals are overwritten on every iteration. *)
Fixpoint CheckServicePrincipal_loop (sps : list SdkServicePrincipal)
  (service_principal_application_id : option string)
  (service_principal_id : option string) : option string * option string :=
  match sps with
  | [] => (service_principal_application_id, service_principal_id)
  | sp :: rest =>
      CheckServicePrincipal_loop rest (Some (application_id sp)) (id sp)
  end.

Definition CheckServicePrincipal (service_principal_name : string)
  : M (string * option string) :=
  service_principals <-
    ask (SpList ("displayName eq " ++ service_principal_name))
        (fun env t => service_principals_list env t
                        ("displayName eq " ++ service_principal_name)) ;;
  match CheckServicePrincipal_loop service_principals None None with
  | (_, None) =>
      created <- ask (SpCreate service_principal_name)
                     (fun env t => service_principals_create env t
                                     service_principal_name) ;;
      ret (application_id created, id created)
  | (Some app, Some i) => ret (app, Some i)
  | (None, Some _) => raise (UnboundLocalError "service_principal_application_id")
  end.

Definition cap_message (self : DatabricksService)
  (service_principal_id : option string) : string :=
  "Service Principal " ++ str_opt service_principal_id ++ " has already "
  ++ str_int (max_secrets self) ++ " secrets. Creating more than "
  ++ str_int (max_secrets self)
  ++ " secrets is not supported. Please delete some of the secrets to continue.".

Definition CheckServicePrincipalSecret (self : DatabricksService)
  (service_principal_id : option string) : M unit :=
  list_service_principal_secrets <-
    ask (SecretsList service_principal_id)
        (fun env t => secrets_proxy_list env t service_principal_id) ;;
  if (max_secrets self <=? Z.of_nat (List.length list_service_principal_secrets))%Z
  then raise (ValueError (cap_message self service_principal_id))
  else ret tt.

Definition GenerateServicePrincipalSecret (service_principal_id : option string)
  (life_time : string) : M string :=
  service_principal_secrets <-
    ask (SecretsCreate service_principal_id (life_time ++ "s"))
        (fun env t => secrets_proxy_create env t service_principal_id
                        (life_time ++ "s")) ;;
  ret (secret service_principal_secrets).

Definition GrantPermissionsOnWarehouse (service_principal_id : string)
  (warehouse_id : string) : M unit :=
  ask (SetPermissions warehouse_id service_principal_id)
      (fun env t => warehouses_set_permissions env t warehouse_id
                      service_principal_id).

(** ** services/powerbi_service.py *)

Record PowerbiService : Type := {
  base_url : string;
  scope : string;
  client_id : string;
  tenant_id : string;
  client_secret : string
}.

Definition CreateCredential (tenant_id client_id client_secret : string)
  : PowerbiService :=
  {| base_url := "https://api.powerbi.com/v1.0/myorg/";
     scope := "https://analysis.windows.net/powerbi/api/.default";
     client_id := client_id;
     tenant_id := tenant_id;
     client_secret := client_secret |}.

Definition http (r : Request) : M Response :=
  ask (Http r) (fun env t => requests env t r).

(** [json.loads(s)] and [response.json()]. *)
Definition loads (s : string) : M json :=
  fun env t =>
    match json_loads env s with
    | Some j => (Ok j, t)
    | None => (Err JSONDecodeError, t)
    end.

(** [str(v)] of a decoded JSON value: a [str] is itself, anything else is
    rendered by the interpreter. *)
Definition str_of (env : Env) (v : json) : string :=
  match v with
  | JStr s => s
  | _ => repr env v
  end.

(** An f-string field [{v}] for a decoded JSON value. *)
Definition fmt (v : json) : M string := fun env t => (Ok (str_of env v), t).

Definition token_request (self : PowerbiService) : Request :=
  {| method := POST;
     url := "https://login.microsoftonline.com/" ++ tenant_id self
            ++ "/oauth2/v2.0/token";
     headers := [("Content-Type", "application/x-www-form-urlencoded")];
     body := Form [("client_id", client_id self);
                   ("client_secret", client_secret self);
                   ("scope", scope self);
                   ("grant_type", "client_credentials")] |}.

Definition GetAccessToken (self : PowerbiService) : M json :=
  response <- http (token_request self) ;;
  j <- loads (text response) ;;
  lift (py_get j "access_token").

Definition GetRequestHeader (self : PowerbiService) : M (list (string * string)) :=
  accessToken <- GetAccessToken self ;;
  authorization <- lift (str_add "Bearer " accessToken) ;;
  ret [("Content-Type", "application/json"); ("Authorization", authorization)].

Definition GetGatewayPublicKey (self : PowerbiService) (GatewayId : json) : M json :=
  hdrs <- GetRequestHeader self ;;
  g <- fmt GatewayId ;;
  response <- http {| method := GET;
                      url := base_url self ++ "gateways/" ++ g;
                      headers := hdrs; body := NoBody |} ;;
  temp <- loads (text response) ;;
  lift (getitem temp "publicKey").

(** The loop of [GetDatasetId]; [DatasetId] is [None] while the local is
    unassigned. *)
Fixpoint GetDatasetId_loop (dataset_name : string) (items : list json)
  (DatasetId : option json) : result (option json) :=
  match items with
  | [] => Ok DatasetId
  | i :: rest =>
      (n <~ getitem i "name" ;
       if eq_str n dataset_name
       then (v <~ getitem i "id" ; GetDatasetId_loop dataset_name rest (Some v))
       else GetDatasetId_loop dataset_name rest DatasetId)%res
  end.

(** Lines 42-46 of [GetDatasetId], on the decoded response. *)
Definition GetDatasetId_body (temp : json) (dataset_name : string) : result json :=
  (value <~ getitem temp "value" ;
   items <~ py_iter value ;
   DatasetId <~ GetDatasetId_loop dataset_name items None ;
   match DatasetId with
   | Some v => Ok v
   | None => Err (UnboundLocalError "DatasetId")
   end)%res.

Definition GetDatasetId (self : PowerbiService) (WorkspaceId : json)
  (dataset_name : string) : M json :=
  hdrs <- GetRequestHeader self ;;
  w <- fmt WorkspaceId ;;
  response <- http {| method := GET;
                      url := base_url self ++ "groups/" ++ w ++ "/datasets";
                      headers := hdrs; body := NoBody |} ;;
  temp <- loads (text response) ;;
  lift (GetDatasetId_body temp dataset_name).

Definition status_message (what : string) (response : Response) : string :=
  what ++ ", the status code is " ++ str_int (status_code response)
  ++ " and the error message is " ++ text response.

Definition GetWorkspaceId (self : PowerbiService) (workspace_name : string) : M json :=
  hdrs <- GetRequestHeader self ;;
  response <- http {| method := GET;
                      url := base_url self ++ "groups?$filter=name%20eq%20'"
                             ++ workspace_name ++ "'";
                      headers := hdrs; body := NoBody |} ;;
  if negb (status_code response =? 200)%Z
  then raise (ValueError (status_message "Error retrieving the workspace id" response))
  else
    j <- loads (text response) ;;
    value <- lift (getitem j "value") ;;
    n <- lift (py_len value) ;;
    if Nat.eqb n 0
    then raise (ValueError ("Workspace " ++ workspace_name
                  ++ " does not exist or the service principal "
                  ++ client_id self ++ " does not have access to it"))
    else
      temp <- loads (text response) ;;
      value <- lift (getitem temp "value") ;;
      first <- lift (getitem0 value) ;;
      lift (getitem first "id").

(** The loop of [GetDatasetDatasource]; both locals are [None] while
    unassigned. *)
Fixpoint GetDatasetDatasource_loop (items : list json)
  (GatewayId DataSourceId : option json) : result (option json * option json) :=
  match items with
  | [] => Ok (GatewayId, DataSourceId)
  | i :: rest =>
      (details <~ getitem i "connectionDetails" ;
       kind <~ getitem details "kind" ;
       if eq_str kind "Databricks"
       then (g <~ getitem i "gatewayId" ;
             d <~ getitem i "datasourceId" ;
             GetDatasetDatasource_loop rest (Some g) (Some d))
       else GetDatasetDatasource_loop rest GatewayId DataSourceId)%res
  end.

(** Lines 62-67 of [GetDatasetDatasource], on the decoded response. *)
Definition GetDatasetDatasource_body (temp : json) : result (json * json) :=
  (value <~ getitem temp "value" ;
   items <~ py_iter value ;
   locals <~ GetDatasetDatasource_loop items None None ;
   match locals with
   | (Some g, Some d) => Ok (g, d)
   | (None, _) => Err (UnboundLocalError "GatewayId")
   | (Some _, None) => Err (UnboundLocalError "DataSourceId")
   end)%res.

Definition GetDatasetDatasource (self : PowerbiService) (WorkspaceId DatasetId : json)
  : M (json * json) :=
  hdrs <- GetRequestHeader self ;;
  w <- fmt WorkspaceId ;;
  d <- fmt DatasetId ;;
  response <- http {| method := GET;
                      url := base_url self ++ "groups/" ++ w ++ "/datasets/" ++ d
                             ++ "/datasources";
                      headers := hdrs; body := NoBody |} ;;
  temp <- loads (text response) ;;
  lift (GetDatasetDatasource_body temp).

Definition takeover_request (self : PowerbiService) (hdrs : list (string * string))
  (w d : string) : Request :=
  {| method := POST;
     url := base_url self ++ "groups/" ++ w ++ "/datasets/" ++ d
            ++ "/Default.TakeOver";
     headers := hdrs; body := NoBody |}.

Definition TakOverDataset (self : PowerbiService) (WorkspaceId DatasetId : json)
  : M unit :=
  hdrs <- GetRequestHeader self ;;
  w <- fmt WorkspaceId ;;
  d <- fmt DatasetId ;;
  response <- http (takeover_request self hdrs w d) ;;
  if (status_code response =? 200)%Z
  then ret tt
  else raise (ValueError ("Service Principal " ++ client_id self
                ++ " does not have permissions to take over the dataset")).

Definition refresh_request (self : PowerbiService) (hdrs : list (string * string))
  (w d : string) : Request :=
  {| method := POST;
     url := base_url self ++ "groups/" ++ w ++ "/datasets/" ++ d ++ "/refreshes";
     headers := hdrs;
     body := Json (JObj [("notifyOption", JStr "NoNotification")]) |}.

Definition RefreshDataset (self : PowerbiService) (WorkspaceId DatasetId : json)
  : M unit :=
  hdrs <- GetRequestHeader self ;;
  w <- fmt WorkspaceId ;;
  d <- fmt DatasetId ;;
  response <- http (refresh_request self hdrs w d) ;;
  if negb (status_code response =? 202)%Z
  then raise (ValueError (status_message "Error refreshing the dataset" response))
  else ret tt.

Definition update_request (self : PowerbiService) (hdrs : list (string * string))
  (g ds : string) (Credentials EncryptionAlgorithm : string) : Request :=
  {| method := PATCH;
     url := base_url self ++ "gateways/" ++ g ++ "/datasources/" ++ ds;
     headers := hdrs;
     body := Json (JObj [("credentialDetails",
               JObj [("credentialType", JStr "Basic");
                     ("credentials", JStr Credentials);
                     ("encryptedConnection", JStr "Encrypted");
                     ("encryptionAlgorithm", JStr EncryptionAlgorithm);
                     ("privacyLevel", JStr "Organizational");
                     ("useEndUserOAuth2Credentials", JStr "False")])]) |}.

(** The first [print] of the method formats both ids before the token is
    requested; formatting has no effect on the trace. *)
Definition UpdateDatasetDatasource (self : PowerbiService)
  (GatewayId DataSourceId : json) (Credentials EncryptionAlgorithm : string)
  : M unit :=
  g <- fmt GatewayId ;;
  ds <- fmt DataSourceId ;;
  hdrs <- GetRequestHeader self ;;
  response <- http (update_request self hdrs g ds Credentials EncryptionAlgorithm) ;;
  if negb (status_code response =? 200)%Z
  then raise (ValueError (status_message "Error updating the datasource" response))
  else ret tt.

(** ** Update-M2M-OAuth-Credentials.py *)

(** Cell 3: the widget values. *)
Record Params : Type := {
  ServicePrincipal : string;
  WarehouseId : string;
  Workspace : string;
  Dataset : string;
  GatewayType : string;
  Lifetime : string;
  RefreshDatasetFlag : string;      (* the widget named RefreshDataset *)
  SecretScope : string;
  ClientIdSecret : string;
  SecretSecret : string;
  TenantIdSecret : string
}.

(** A cell calling a service method: the call is recorded, then it runs. *)
Definition invoke {A} (c : call) (m : M A) : M A := emit (Invoked c) ;; m.

Definition dquote (s : string) : string := dq ++ s ++ dq.

(** The f-string of the [else] branch of cell 14. *)
Definition plain_credentials (ServicePrincipalApplicationId ServicePrincipalSecret : string)
  : string :=
  "{" ++ dquote "credentialData" ++ ":[{" ++ dquote "name" ++ ":" ++ dquote "username"
  ++ ", " ++ dquote "value" ++ ": " ++ dquote ServicePrincipalApplicationId
  ++ "},{" ++ dquote "name" ++ ":" ++ dquote "password"
  ++ ", " ++ dquote "value" ++ ": " ++ dquote ServicePrincipalSecret ++ "}]}".

(** The argument of [enc.EncodeCredentials] in cell 14. *)
Definition onprem_credentials (ServicePrincipalApplicationId ServicePrincipalSecret : string)
  : string :=
  "{'credentialData':[{'name':'username','value':'"
  ++ ServicePrincipalApplicationId
  ++ "'},{'name':'password','value':'"
  ++ ServicePrincipalSecret
  ++ "'}]}".

Definition EncodeCredentials (public_key : json) (plain : string) : M string :=
  ask (Encrypt public_key plain)
      (fun env t => encrypt_credentials env t public_key plain).

(** Cell 14; returns [(EncryptionAlgorithm, Credentials)]. *)
Definition cell14 (pbi_svc : PowerbiService) (GatewayType : string) (GatewayId : json)
  (ServicePrincipalApplicationId ServicePrincipalSecret : string)
  : M (string * string) :=
  if String.eqb GatewayType "Onpremises"
  then
    public_key <- invoke cGetGatewayPublicKey (GetGatewayPublicKey pbi_svc GatewayId) ;;
    Credentials <- invoke cEncodeCredentials
                     (EncodeCredentials public_key
                        (onprem_credentials ServicePrincipalApplicationId
                           ServicePrincipalSecret)) ;;
    ret ("RSA-OAEP", Credentials)
  else
    ret ("None", plain_credentials ServicePrincipalApplicationId ServicePrincipalSecret).

Definition secrets_get (scope key : string) : M string :=
  ask (SecretsGet scope key) (fun env t => dbutils_secrets_get env t scope key).

(** The notebook's variables that cells 15 and 16 read. *)
Record Globals : Type := {
  pbi_svc : PowerbiService;
  gWorkspaceId : json;
  gDatasetId : json;
  gGatewayId : json;
  gDataSourceId : json;
  gCredentials : string;
  gEncryptionAlgorithm : string
}.

(** Cells 4-14. *)
Definition cells_4_14 (p : Params) : M Globals :=
  let dbx_svc := CreateClient in
  ids <- invoke cCheckServicePrincipal (CheckServicePrincipal (ServicePrincipal p)) ;;
  let ServicePrincipalApplicationId := fst ids in
  let ServicePrincipaId := snd ids in
  invoke cCheckServicePrincipalSecret
    (CheckServicePrincipalSecret dbx_svc ServicePrincipaId) ;;
  ServicePrincipalSecret <-
    invoke cGenerateServicePrincipalSecret
      (GenerateServicePrincipalSecret ServicePrincipaId (Lifetime p)) ;;
  invoke cGrantPermissionsOnWarehouse
    (GrantPermissionsOnWarehouse ServicePrincipalApplicationId (WarehouseId p)) ;;
  PowerBIClientId <- secrets_get (SecretScope p) (ClientIdSecret p) ;;
  PowerBIClientSecret <- secrets_get (SecretScope p) (SecretSecret p) ;;
  PowerBITenantId <- secrets_get (SecretScope p) (TenantIdSecret p) ;;
  let pbi_svc := CreateCredential PowerBITenantId PowerBIClientId PowerBIClientSecret in
  WorkspaceId <- invoke cGetWorkspaceId (GetWorkspaceId pbi_svc (Workspace p)) ;;
  DatasetId <- invoke cGetDatasetId (GetDatasetId pbi_svc WorkspaceId (Dataset p)) ;;
  (if String.eqb (GatewayType p) "NoGateway"
   then invoke cTakOverDataset (TakOverDataset pbi_svc WorkspaceId DatasetId)
   else ret tt) ;;
  gd <- invoke cGetDatasetDatasource
          (GetDatasetDatasource pbi_svc WorkspaceId DatasetId) ;;
  let GatewayId := fst gd in
  let DataSourceId := snd gd in
  ec <- cell14 pbi_svc (GatewayType p) GatewayId
          ServicePrincipalApplicationId ServicePrincipalSecret ;;
  let EncryptionAlgorithm := fst ec in
  let Credentials := snd ec in
  ret {| pbi_svc := pbi_svc; gWorkspaceId := WorkspaceId; gDatasetId := DatasetId;
         gGatewayId := GatewayId; gDataSourceId := DataSourceId;
         gCredentials := Credentials; gEncryptionAlgorithm := EncryptionAlgorithm |}.

(** Cell 15. *)
Definition cell15 (g : Globals) : M unit :=
  invoke cUpdateDatasetDatasource
    (UpdateDatasetDatasource (pbi_svc g) (gGatewayId g) (gDataSourceId g)
       (gCredentials g) (gEncryptionAlgorithm g)).

(** Cell 16. *)
Definition cell16 (p : Params) (g : Globals) : M unit :=
  if String.eqb (RefreshDatasetFlag p) "true"
  then invoke cRefreshDataset
         (RefreshDataset (pbi_svc g) (gWorkspaceId g) (gDatasetId g))
  else ret tt.

(** A run of the notebook: the cells in order, stopping at the first
    exception. *)
Definition Notebook (p : Params) : M unit :=
  g <- cells_4_14 p ;;
  cell15 g ;;
  cell16 p g.

(** The service calls recorded in a trace, in order. *)
Fixpoint invocations (t : trace) : list call :=
  match t with
  | [] => []
  | Invoked c :: rest => c :: invocations rest
  | _ :: rest => invocations rest
  end.

(** The order in which the cells call the services, for given widget values. *)
Definition schedule_4_14 (p : Params) : list call :=
  ([cCheckServicePrincipal; cCheckServicePrincipalSecret;
    cGenerateServicePrincipalSecret; cGrantPermissionsOnWarehouse;
    cGetWorkspaceId; cGetDatasetId]
   ++ (if String.eqb (GatewayType p) "NoGateway" then [cTakOverDataset] else [])
   ++ [cGetDatasetDatasource]
   ++ (if String.eqb (GatewayType p) "Onpremises"
       then [cGetGatewayPublicKey; cEncodeCredentials] else []))%list.

Definition schedule_16 (p : Params) : list call :=
  if String.eqb (RefreshDatasetFlag p) "true" then [cRefreshDataset] else [].

Definition schedule (p : Params) : list call :=
  (schedule_4_14 p ++ [cUpdateDatasetDatasource] ++ schedule_16 p)%list.

(** ** Reading a credential string as JSON text

    The receiving API reads the [credentials] string as JSON.  To compare
    the two strings cell 14 builds, they are cut into JSON tokens: white
    space between tokens is dropped, a string literal runs from one quote
    character [q] to the next one that no backslash protects, any other
    character is a token of its own.  [q] is the double quote for JSON. *)










(** ** Example worlds

    One principal store and one reporting service, used to run the notebook
    on concrete inputs.  The store holds [n_secrets] secrets for the
    principal; the reporting service answers the takeover and the credential
    update with the given status codes. *)

Definition example_params (gateway refresh : string) : Params :=
  {| ServicePrincipal := "svc-bi"; WarehouseId := "wh1"; Workspace := "Sales";
     Dataset := "Revenue"; GatewayType := gateway; Lifetime := "604800";
     RefreshDatasetFlag := refresh; SecretScope := "scope";
     ClientIdSecret := "cid"; SecretSecret := "csec"; TenantIdSecret := "tid" |}.

Definition example_pbi : PowerbiService := CreateCredential "tenant" "client" "pw".

Definition example_datasets : list json :=
  [JObj [("id", JStr "d1"); ("name", JStr "Revenue")];
   JObj [("id", JStr "d2"); ("name", JStr "Costs")];
   JObj [("id", JStr "d3"); ("name", JStr "Revenue")]].

Definition example_datasources : list json :=
  [JObj [("connectionDetails", JObj [("kind", JStr "Databricks")]);
         ("gatewayId", JStr "g1"); ("datasourceId", JStr "s1")];
   JObj [("connectionDetails", JObj [("kind", JStr "Sql")]);
         ("gatewayId", JStr "g2"); ("datasourceId", JStr "s2")];
   JObj [("connectionDetails", JObj [("kind", JStr "Databricks")]);
         ("gatewayId", JStr "g3"); ("datasourceId", JStr "s3")]].

Definition example_loads (s : string) : option json :=
  if String.eqb s "token" then Some (JObj [("access_token", JStr "tok")])
  else if String.eqb s "groups" then
    Some (JObj [("value", JArr [JObj [("id", JStr "w1"); ("name", JStr "Sales")]])])
  else if String.eqb s "nogroups" then Some (JObj [("value", JArr [])])
  else if String.eqb s "datasets" then Some (JObj [("value", JArr example_datasets)])
  else if String.eqb s "datasources" then
    Some (JObj [("value", JArr example_datasources)])
  else if String.eqb s "gateway" then Some (JObj [("publicKey", JStr "key")])
  else if String.eqb s "empty" then Some (JObj [("value", JArr [])])
  else None.

Definition ends_with (suffix s : string) : bool :=
  let n := String.length s - String.length suffix in
  String.eqb (substring n (String.length suffix) s) suffix.

Definition example_respond (takeover_status publish_status : Z) (r : Request)
  : Response :=
  match method r with
  | POST =>
      if ends_with "/token" (url r) then {| status_code := 200; text := "token" |}
      else if ends_with "/Default.TakeOver" (url r)
      then {| status_code := takeover_status; text := "takeover" |}
      else {| status_code := 202; text := "refresh" |}
  | GET =>
      if ends_with "/datasources" (url r)
      then {| status_code := 200; text := "datasources" |}
      else if ends_with "/datasets" (url r)
      then {| status_code := 200; text := "datasets" |}
      else if ends_with "Nowhere'" (url r)
      then {| status_code := 200; text := "nogroups" |}
      else if ends_with "Forbidden'" (url r)
      then {| status_code := 403; text := "denied" |}
      else if ends_with "'" (url r) then {| status_code := 200; text := "groups" |}
      else {| status_code := 200; text := "gateway" |}
  | PATCH => {| status_code := publish_status; text := "update" |}
  end.

Definition example_env (n_secrets : nat) (takeover_status publish_status : Z) : Env :=
  {| repr := fun _ => "?";
     json_loads := example_loads;
     service_principals_list := fun _ _ =>
       Ok [ {| application_id := "app-old"; id := Some "1" |};
            {| application_id := "app-new"; id := Some "2" |} ];
     service_principals_create := fun _ _ =>
       Ok {| application_id := "app-made"; id := Some "3" |};
     secrets_proxy_list := fun _ _ =>
       Ok (repeat {| secret_info_id := "s" |} n_secrets);
     secrets_proxy_create := fun _ _ _ => Ok {| secret := "s3cr3t" |};
     warehouses_set_permissions := fun _ _ _ => Ok tt;
     dbutils_secrets_get := fun _ _ key => Ok key;
     requests := fun _ r => Ok (example_respond takeover_status publish_status r);
     encrypt_credentials := fun _ _ plain => Ok ("enc:" ++ plain) |}.

(** A principal store in which the name matches nothing. *)
Definition empty_store_env : Env :=
  {| repr := fun _ => "?";
     json_loads := example_loads;
     service_principals_list := fun _ _ => Ok [];
     service_principals_create := fun _ _ =>
       Ok {| application_id := "app-made"; id := Some "3" |};
     secrets_proxy_list := fun _ _ => Ok [];
     secrets_proxy_create := fun _ _ _ => Ok {| secret := "s3cr3t" |};
     warehouses_set_permissions := fun _ _ _ => Ok tt;
     dbutils_secrets_get := fun _ _ key => Ok key;
     requests := fun _ r => Ok (example_respond 200 200 r);
     encrypt_credentials := fun _ _ plain => Ok ("enc:" ++ plain) |}.

(** ** Predicates on runs and traces *)

(** Every event [c] appends satisfies [P]. *)
Definition emits {A} (P : event -> Prop) (c : M A) : Prop :=
  forall env t, exists evs, snd (c env t) = (t ++ evs)%list /\ Forall P evs.

(** An event of a collaborator, as opposed to the record of a service call. *)
Definition external (e : event) : Prop :=
  match e with
  | Invoked _ => False
  | _ => True
  end.

(** A run of [c] records the calls of [l] in order; an exception cuts the
    list short. *)
Definition follows {A} (l : list call) (c : M A) : Prop :=
  forall env t, exists l',
    invocations (snd (c env t)) = (invocations t ++ l')%list /\
    match fst (c env t) with
    | Ok _ => l' = l
    | Err _ => exists rest, l = (l' ++ rest)%list
    end.

(** What the store is asked up to and including the capacity check. *)
Definition before_minting (e : event) : Prop :=
  match e with
  | Invoked cCheckServicePrincipal | Invoked cCheckServicePrincipalSecret
  | SpList _ | SpCreate _ | SecretsList _ => True
  | _ => False
  end.

(** Entries of a dataset listing, as the loop of [GetDatasetId] reads them:
    an entry it passes over, and an entry whose name is the requested one. *)
Definition other_dataset (dataset_name : string) (i : json) : Prop :=
  exists n, getitem i "name" = Ok n /\ eq_str n dataset_name = false.

Definition named_dataset (dataset_name : string) (i v : json) : Prop :=
  exists n, getitem i "name" = Ok n /\ eq_str n dataset_name = true
            /\ getitem i "id" = Ok v.

Definition dataset_entry (dataset_name : string) (i : json) : Prop :=
  other_dataset dataset_name i \/ exists v, named_dataset dataset_name i v.

(** Entries of a datasource listing, as the loop of [GetDatasetDatasource]
    reads them. *)
Definition other_datasource (i : json) : Prop :=
  exists details kind,
    getitem i "connectionDetails" = Ok details /\ getitem details "kind" = Ok kind
    /\ eq_str kind "Databricks" = false.

Definition databricks_datasource (i g d : json) : Prop :=
  exists details kind,
    getitem i "connectionDetails" = Ok details /\ getitem details "kind" = Ok kind
    /\ eq_str kind "Databricks" = true
    /\ getitem i "gatewayId" = Ok g /\ getitem i "datasourceId" = Ok d.

Definition datasource_entry (i : json) : Prop :=
  other_datasource i \/ exists g d, databricks_datasource i g d.

(** The requests the resolver sends. *)
Definition datasets_request (self : PowerbiService) (hdrs : list (string * string))
  (w : string) : Request :=
  {| method := GET; url := base_url self ++ "groups/" ++ w ++ "/datasets";
     headers := hdrs; body := NoBody |}.

Definition datasources_request (self : PowerbiService) (hdrs : list (string * string))
  (w d : string) : Request :=
  {| method := GET;
     url := base_url self ++ "groups/" ++ w ++ "/datasets/" ++ d ++ "/datasources";
     headers := hdrs; body := NoBody |}.

Definition groups_request (self : PowerbiService) (hdrs : list (string * string))
  (workspace_name : string) : Request :=
  {| method := GET;
     url := base_url self ++ "groups?$filter=name%20eq%20'" ++ workspace_name ++ "'";
     headers := hdrs; body := NoBody |}.

Definition gateway_request (self : PowerbiService) (hdrs : list (string * string))
  (g : string) : Request :=
  {| method := GET; url := base_url self ++ "gateways/" ++ g;
     headers := hdrs; body := NoBody |}.


Definition example_headers : list (string * string) :=
  [("Content-Type", "application/json"); ("Authorization", "Bearer tok")].

Definition call_eq_dec (a b : call) : {a = b} + {a <> b}.
Proof. decide equality. Defined.

(** The calls of a run that gets as far as resolving the datasource with
    no gateway. *)
Definition calls_up_to_datasource : list call :=
  [cCheckServicePrincipal; cCheckServicePrincipalSecret;
   cGenerateServicePrincipalSecret; cGrantPermissionsOnWarehouse;
   cGetWorkspaceId; cGetDatasetId; cTakOverDataset; cGetDatasetDatasource].







(** ** More predicates and example worlds *)

(** [c] appends [e] first, whatever it appends after. *)
Definition starts_with {A} (e : event) (c : M A) : Prop :=
  forall env t, exists evs, snd (c env t) = (t ++ e :: evs)%list.

(** The requests to create a secret in a trace, and the calls of
    [GenerateServicePrincipalSecret] recorded in it. *)
Fixpoint minted (t : trace) : nat :=
  match t with
  | [] => 0
  | SecretsCreate _ _ :: rest => S (minted rest)
  | _ :: rest => minted rest
  end.

Fixpoint generated (t : trace) : nat :=
  match t with
  | [] => 0
  | Invoked cGenerateServicePrincipalSecret :: rest => S (generated rest)
  | _ :: rest => generated rest
  end.

(** A decoded value that is not a [str]. *)
Definition not_str (v : json) : Prop := forall s, v <> JStr s.

(** A decoded value that is not a [dict]. *)
Definition not_dict (v : json) : Prop := forall kv, v <> JObj kv.

(** An identity provider that rejects the client: status 401 and an error
    object without a token. *)
Definition auth_error_env : Env :=
  {| repr := fun _ => "?";
     json_loads := fun s =>
       if String.eqb s "autherr"
       then Some (JObj [("error", JStr "invalid_client")]) else None;
     service_principals_list := fun _ _ =>
       Ok [ {| application_id := "app-old"; id := Some "1" |};
            {| application_id := "app-none"; id := None |} ];
     service_principals_create := fun _ _ =>
       Ok {| application_id := "app-made"; id := Some "3" |};
     secrets_proxy_list := fun _ _ => Ok [];
     secrets_proxy_create := fun _ _ _ => Ok {| secret := "s3cr3t" |};
     warehouses_set_permissions := fun _ _ _ => Ok tt;
     dbutils_secrets_get := fun _ _ key => Ok key;
     requests := fun _ _ => Ok {| status_code := 401; text := "autherr" |};
     encrypt_credentials := fun _ _ plain => Ok ("enc:" ++ plain) |}.

(** A reporting service that answers every request after the token with
    status 404 and an error object. *)
Definition not_found_env : Env :=
  {| repr := fun _ => "?";
     json_loads := fun s =>
       if String.eqb s "token" then Some (JObj [("access_token", JStr "tok")])
       else if String.eqb s "notfound"
       then Some (JObj [("error", JStr "ItemNotFound")]) else None;
     service_principals_list := fun _ _ => Ok [];
     service_principals_create := fun _ _ =>
       Ok {| application_id := "app-made"; id := Some "3" |};
     secrets_proxy_list := fun _ _ => Ok [];
     secrets_proxy_create := fun _ _ _ => Ok {| secret := "s3cr3t" |};
     warehouses_set_permissions := fun _ _ _ => Ok tt;
     dbutils_secrets_get := fun _ _ key => Ok key;
     requests := fun _ r =>
       Ok (match method r with
           | POST => {| status_code := 200; text := "token" |}
           | _ => {| status_code := 404; text := "notfound" |}
           end);
     encrypt_credentials := fun _ _ plain => Ok ("enc:" ++ plain) |}.

(** A reporting service that lists two workspaces under the name, and
    datasets and datasources with entries the loops cannot read. *)
Definition odd_listing_loads (s : string) : option json :=
  if String.eqb s "token" then Some (JObj [("access_token", JStr "tok")])
  else if String.eqb s "groups2" then
    Some (JObj [("value", JArr [JObj [("id", JStr "w1"); ("name", JStr "Sales")];
                                JObj [("id", JStr "w2"); ("name", JStr "Sales")]])])
  else if String.eqb s "datasets" then
    Some (JObj [("value", JArr [JObj [("id", JStr "d1"); ("name", JStr "Revenue")];
                                JObj [("id", JStr "d2")]])])
  else if String.eqb s "datasources" then
    Some (JObj [("value", JArr [JObj [("gatewayId", JStr "g1");
                                      ("datasourceId", JStr "s1")]])])
  else None.

Definition odd_listing_env : Env :=
  {| repr := fun _ => "?";
     json_loads := odd_listing_loads;
     service_principals_list := fun _ _ => Ok [];
     service_principals_create := fun _ _ =>
       Ok {| application_id := "app-made"; id := Some "3" |};
     secrets_proxy_list := fun _ _ => Ok [];
     secrets_proxy_create := fun _ _ _ => Ok {| secret := "s3cr3t" |};
     warehouses_set_permissions := fun _ _ _ => Ok tt;
     dbutils_secrets_get := fun _ _ key => Ok key;
     requests := fun _ r =>
       Ok (match method r with
           | POST => {| status_code := 200; text := "token" |}
           | _ =>
               if ends_with "/datasources" (url r)
               then {| status_code := 200; text := "datasources" |}
               else if ends_with "/datasets" (url r)
               then {| status_code := 200; text := "datasets" |}
               else {| status_code := 200; text := "groups2" |}
           end);
     encrypt_credentials := fun _ _ plain => Ok ("enc:" ++ plain) |}.

(** An entry on which one pass of the loop of [GetDatasetId] raises [e]:
    it has no readable "name", or it carries the requested name and has no
    readable "id". *)
Definition dataset_step_fails (dataset_name : string) (i : json) (e : exn) : Prop :=
  getitem i "name" = Err e
  \/ exists n, getitem i "name" = Ok n /\ eq_str n dataset_name = true
               /\ getitem i "id" = Err e.

(** An entry on which one pass of the loop of [GetDatasetDatasource] raises
    [e]. *)
Definition datasource_step_fails (i : json) (e : exn) : Prop :=
  getitem i "connectionDetails" = Err e
  \/ (exists details, getitem i "connectionDetails" = Ok details
                      /\ getitem details "kind" = Err e)
  \/ (exists details kind,
        getitem i "connectionDetails" = Ok details /\ getitem details "kind" = Ok kind
        /\ eq_str kind "Databricks" = true
        /\ (getitem i "gatewayId" = Err e
            \/ exists g, getitem i "gatewayId" = Ok g
                         /\ getitem i "datasourceId" = Err e)).

(** An event that is neither a request to create a secret nor the record of
    a call of [GenerateServicePrincipalSecret]. *)
Definition not_minting (e : event) : Prop :=
  match e with
  | SecretsCreate _ _ | Invoked cGenerateServicePrincipalSecret => False
  | _ => True
  end.

(** [c] asks the store for a secret once per recorded call of
    [GenerateServicePrincipalSecret]: [n] times when it returns, at most [n]
    times when it raises. *)
Definition mints {A} (n : nat) (c : M A) : Prop :=
  forall env t, exists evs,
    snd (c env t) = (t ++ evs)%list
    /\ minted evs = generated evs
    /\ match fst (c env t) with
       | Ok _ => minted evs = n
       | Err _ => minted evs <= n
       end.

(** Any event at all. *)
Definition any_event (e : event) : Prop := True.
(** Collaborators that raise: the principal store refuses the listing, and
    the reporting service cannot be reached once the token is had. *)
Definition unreachable_env : Env :=
  {| repr := fun _ => "?";
     json_loads := fun s =>
       if String.eqb s "token" then Some (JObj [("access_token", JStr "tok")])
       else None;
     service_principals_list := fun _ _ => Err (Raised "PermissionDenied");
     service_principals_create := fun _ _ =>
       Ok {| application_id := "app-made"; id := Some "3" |};
     secrets_proxy_list := fun _ _ => Ok [];
     secrets_proxy_create := fun _ _ _ => Ok {| secret := "s3cr3t" |};
     warehouses_set_permissions := fun _ _ _ => Ok tt;
     dbutils_secrets_get := fun _ _ key => Ok key;
     requests := fun _ r =>
       match method r with
       | POST => if ends_with "/token" (url r)
                 then Ok {| status_code := 200; text := "token" |}
                 else Err (Raised "ConnectionError")
       | _ => Err (Raised "ConnectionError")
       end;
     encrypt_credentials := fun _ _ plain => Ok ("enc:" ++ plain) |}.

(** ** Requests recognised in a trace *)

(** The takeover request: a POST without a body to a URL that ends with
    "/Default.TakeOver". *)
Definition is_takeover (e : event) : bool :=
  match e with
  | Http r =>
      match method r, body r with
      | POST, NoBody => ends_with "/Default.TakeOver" (url r)
      | _, _ => false
      end
  | _ => false
  end.

(** The refresh request: a POST of a JSON body to a URL that ends with
    "/refreshes". *)
Definition is_refresh (e : event) : bool :=
  match e with
  | Http r =>
      match method r, body r with
      | POST, Json _ => ends_with "/refreshes" (url r)
      | _, _ => false
      end
  | _ => false
  end.


Definition is_encrypt (e : event) : bool :=
  match e with
  | Encrypt _ _ => true
  | _ => false
  end.

(** The token request: a POST of a form to the identity provider. *)
Definition is_token_request (e : event) : bool :=
  match e with
  | Http r =>
      match method r, body r with
      | POST, Form _ => prefix "https://login.microsoftonline.com/" (url r)
      | _, _ => false
      end
  | _ => false
  end.

(** The events of a trace that [f] recognises. *)
Fixpoint count_events (f : event -> bool) (t : trace) : nat :=
  match t with
  | [] => 0
  | e :: rest => (if f e then 1 else 0) + count_events f rest
  end.

(** [c] appends at most [n] events that [f] recognises. *)
Definition sends_at_most {A} (f : event -> bool) (n : nat) (c : M A) : Prop :=
  forall env t, exists evs,
    snd (c env t) = (t ++ evs)%list /\ count_events f evs <= n.

(** The first event of a method, after the record [Invoked c] of its call:
    the store methods begin with their request to the store, the encryption
    with its request, every method of [PowerbiService] with the token
    request. *)
Definition opens (c : call) (e : event) : bool :=
  match c with
  | cCheckServicePrincipal =>
      match e with SpList _ => true | _ => false end
  | cCheckServicePrincipalSecret =>
      match e with SecretsList _ => true | _ => false end
  | cGenerateServicePrincipalSecret =>
      match e with SecretsCreate _ _ => true | _ => false end
  | cGrantPermissionsOnWarehouse =>
      match e with SetPermissions _ _ => true | _ => false end
  | cEncodeCredentials => is_encrypt e
  | cGetWorkspaceId | cGetDatasetId | cTakOverDataset | cGetDatasetDatasource
  | cGetGatewayPublicKey | cUpdateDatasetDatasource | cRefreshDataset =>
      is_token_request e
  end.

(** Every record [Invoked c] of a trace is followed at once by the first
    event of [c]. *)
Fixpoint well_opened (t : trace) : bool :=
  match t with
  | [] => true
  | Invoked c :: rest =>
      match rest with
      | e :: _ => opens c e && well_opened rest
      | [] => false
      end
  | _ :: rest => well_opened rest
  end.

(** [c] appends one event that satisfies [P], then events of the
    collaborators only. *)
Definition begins {A} (P : event -> Prop) (c : M A) : Prop :=
  forall env t, exists e rest,
    snd (c env t) = (t ++ e :: rest)%list /\ P e /\ Forall external rest.

(** The records and events [c] appends keep [well_opened]. *)
Definition calls_open {A} (c : M A) : Prop :=
  forall env t, exists evs,
    snd (c env t) = (t ++ evs)%list /\ well_opened evs = true.


(** The trace of a run of cells 4 to 7 and of cell 8, after
    [CheckServicePrincipal] returned [ids] with the trace [t1]. *)
Definition trace_after_grant (p : Params) (ids : string * option string)
  (t1 : trace) : trace :=
  (t1 ++ [Invoked cCheckServicePrincipalSecret; SecretsList (snd ids);
          Invoked cGenerateServicePrincipalSecret;
          SecretsCreate (snd ids) (Lifetime p ++ "s");
          Invoked cGrantPermissionsOnWarehouse;
          SetPermissions (WarehouseId p) (fst ids)])%list.

Definition trace_after_secrets (p : Params) (ids : string * option string)
  (t1 : trace) : trace :=
  (trace_after_grant p ids t1
   ++ [SecretsGet (SecretScope p) (ClientIdSecret p);
       SecretsGet (SecretScope p) (SecretSecret p);
       SecretsGet (SecretScope p) (TenantIdSecret p)])%list.


(** * Properties *)

Open Scope list_scope.

(** ** How computations extend the trace *)

Lemma emits_silent {A} (P : event -> Prop) (c : M A) :
  (forall env t, snd (c env t) = t) -> emits P c.
Proof.
  intros H env t. exists []. rewrite H, app_nil_r. split; [reflexivity | constructor].
Qed.

Lemma emits_ret {A} P (a : A) : emits P (ret a).
Proof. apply emits_silent. reflexivity. Qed.

Lemma emits_raise {A} P e : emits P (@raise A e).
Proof. apply emits_silent. reflexivity. Qed.

Lemma emits_lift {A} P (r : result A) : emits P (lift r).
Proof. apply emits_silent. reflexivity. Qed.

Lemma emits_fmt P v : emits P (fmt v).
Proof. apply emits_silent. reflexivity. Qed.

Lemma emits_loads P s : emits P (loads s).
Proof.
  apply emits_silent. intros env t. unfold loads.
  destruct (json_loads env s); reflexivity.
Qed.

Lemma emits_ask {A} (P : event -> Prop) e (o : Env -> trace -> result A) :
  P e -> emits P (ask e o).
Proof.
  intros H env t. exists [e]. split; [reflexivity | repeat constructor; exact H].
Qed.

Lemma emits_emit (P : event -> Prop) e : P e -> emits P (emit e).
Proof.
  intros H env t. exists [e]. split; [reflexivity | repeat constructor; exact H].
Qed.

Lemma emits_bind {A B} P (c : M A) (k : A -> M B) :
  emits P c -> (forall a, emits P (k a)) -> emits P (bind c k).
Proof.
  intros Hc Hk env t. unfold bind.
  destruct (Hc env t) as (e1 & E1 & F1).
  destruct (c env t) as [[a | e] t1]; simpl in E1; subst t1.
  - destruct (Hk a env (t ++ e1)%list) as (e2 & E2 & F2).
    exists (e1 ++ e2)%list. rewrite E2, app_assoc. split; [reflexivity |].
    apply Forall_app; split; assumption.
  - exists e1. split; [reflexivity | assumption].
Qed.

Lemma emits_mono {A} (P Q : event -> Prop) (c : M A) :
  (forall e, P e -> Q e) -> emits P c -> emits Q c.
Proof.
  intros HPQ Hc env t. destruct (Hc env t) as (evs & E & F).
  exists evs. split; [exact E | eapply Forall_impl; eauto].
Qed.

Ltac emits_step :=
  first
    [ apply emits_ret | apply emits_raise | apply emits_lift | apply emits_fmt
    | apply emits_loads
    | apply emits_bind; [ | intros ]
    | match goal with
      | |- emits _ (if ?b then _ else _) => destruct b
      | |- emits _ (match ?x with _ => _ end) => destruct x
      end ].

(** The requests of the reporting service are HTTP calls. *)
Section PowerbiEmits.
Variable P : event -> Prop.
Hypothesis P_http : forall r, P (Http r).

Lemma emits_http r : emits P (http r).
Proof. apply emits_ask, P_http. Qed.

Lemma emits_GetRequestHeader self : emits P (GetRequestHeader self).
Proof.
  unfold GetRequestHeader, GetAccessToken.
  repeat first [ apply emits_http | emits_step ].
Qed.

Lemma emits_GetWorkspaceId self name : emits P (GetWorkspaceId self name).
Proof.
  unfold GetWorkspaceId.
  repeat first [ apply emits_http | apply emits_GetRequestHeader | emits_step ].
Qed.

Lemma emits_GetDatasetId self w name : emits P (GetDatasetId self w name).
Proof.
  unfold GetDatasetId.
  repeat first [ apply emits_http | apply emits_GetRequestHeader | emits_step ].
Qed.

Lemma emits_GetDatasetDatasource self w d : emits P (GetDatasetDatasource self w d).
Proof.
  unfold GetDatasetDatasource.
  repeat first [ apply emits_http | apply emits_GetRequestHeader | emits_step ].
Qed.

Lemma emits_TakOverDataset self w d : emits P (TakOverDataset self w d).
Proof.
  unfold TakOverDataset.
  repeat first [ apply emits_http | apply emits_GetRequestHeader | emits_step ].
Qed.

Lemma emits_RefreshDataset self w d : emits P (RefreshDataset self w d).
Proof.
  unfold RefreshDataset.
  repeat first [ apply emits_http | apply emits_GetRequestHeader | emits_step ].
Qed.

Lemma emits_GetGatewayPublicKey self g : emits P (GetGatewayPublicKey self g).
Proof.
  unfold GetGatewayPublicKey.
  repeat first [ apply emits_http | apply emits_GetRequestHeader | emits_step ].
Qed.

Lemma emits_UpdateDatasetDatasource self g ds c a :
  emits P (UpdateDatasetDatasource self g ds c a).
Proof.
  unfold UpdateDatasetDatasource.
  repeat first [ apply emits_http | apply emits_GetRequestHeader | emits_step ].
Qed.

End PowerbiEmits.

Lemma emits_CheckServicePrincipal (P : event -> Prop) name :
  (forall f, P (SpList f)) -> (forall n, P (SpCreate n)) ->
  emits P (CheckServicePrincipal name).
Proof.
  intros H1 H2. unfold CheckServicePrincipal.
  apply emits_bind; [apply emits_ask, H1 | intros sps].
  destruct (CheckServicePrincipal_loop sps None None) as [[app|] [i|]];
    repeat first [ apply emits_ask, H2 | emits_step ].
Qed.

Lemma emits_CheckServicePrincipalSecret (P : event -> Prop) self i :
  (forall x, P (SecretsList x)) -> emits P (CheckServicePrincipalSecret self i).
Proof.
  intros H. unfold CheckServicePrincipalSecret.
  repeat first [ apply emits_ask, H | emits_step ].
Qed.

Lemma emits_GenerateServicePrincipalSecret (P : event -> Prop) i life :
  (forall x l, P (SecretsCreate x l)) -> emits P (GenerateServicePrincipalSecret i life).
Proof.
  intros H. unfold GenerateServicePrincipalSecret.
  repeat first [ apply emits_ask, H | emits_step ].
Qed.

Lemma emits_GrantPermissionsOnWarehouse (P : event -> Prop) i w :
  (forall x y, P (SetPermissions x y)) -> emits P (GrantPermissionsOnWarehouse i w).
Proof. intros H. apply emits_ask, H. Qed.

Lemma emits_secrets_get (P : event -> Prop) s k :
  (forall x y, P (SecretsGet x y)) -> emits P (secrets_get s k).
Proof. intros H. apply emits_ask, H. Qed.

Lemma emits_EncodeCredentials (P : event -> Prop) k s :
  (forall x y, P (Encrypt x y)) -> emits P (EncodeCredentials k s).
Proof. intros H. apply emits_ask, H. Qed.

(** ** The order of service calls *)

Lemma invocations_app t1 t2 :
  invocations (t1 ++ t2) = (invocations t1 ++ invocations t2)%list.
Proof.
  induction t1 as [| e t1 IH]; simpl; [reflexivity |].
  destruct e; simpl; rewrite IH; reflexivity.
Qed.

Lemma invocations_external evs : Forall external evs -> invocations evs = [].
Proof.
  induction 1 as [| e evs He _ IH]; [reflexivity |].
  destruct e; simpl in *; [contradiction | assumption ..].
Qed.

Lemma follows_quiet {A} (c : M A) : emits external c -> follows [] c.
Proof.
  intros H env t. destruct (H env t) as (evs & E & F). exists [].
  rewrite E, invocations_app, (invocations_external F). split; [reflexivity |].
  destruct (fst (c env t)); [reflexivity | exists []; reflexivity].
Qed.

Lemma follows_ret {A} (a : A) : follows [] (ret a).
Proof. apply follows_quiet, emits_ret. Qed.

Lemma follows_bind {A B} l1 l2 (c : M A) (k : A -> M B) :
  follows l1 c -> (forall a, follows l2 (k a)) -> follows (l1 ++ l2)%list (bind c k).
Proof.
  intros Hc Hk env t. unfold bind.
  destruct (Hc env t) as (l1' & E1 & R1).
  destruct (c env t) as [[a | e] t1]; simpl in E1, R1.
  - subst l1'. destruct (Hk a env t1) as (l2' & E2 & R2).
    exists (l1 ++ l2')%list. rewrite E2, E1, app_assoc. split; [reflexivity |].
    destruct (fst (k a env t1)).
    + subst; reflexivity.
    + destruct R2 as (rest & ->). exists rest. rewrite app_assoc. reflexivity.
  - exists l1'. simpl. split; [exact E1 |].
    destruct R1 as (rest & ->). exists (rest ++ l2)%list.
    rewrite app_assoc. reflexivity.
Qed.

Lemma follows_invoke {A} m (c : M A) : emits external c -> follows [m] (invoke m c).
Proof.
  intros H env t. unfold invoke, bind, emit.
  destruct (H env (t ++ [Invoked m])%list) as (evs & E & F).
  exists [m]. rewrite E, !invocations_app, (invocations_external F), app_nil_r.
  split; [reflexivity |].
  destruct (fst (c env (t ++ [Invoked m])%list)); [reflexivity | exists []; reflexivity].
Qed.

Lemma follows_eq {A} l l' (c : M A) : follows l c -> l = l' -> follows l' c.
Proof. intros H <-. exact H. Qed.

Lemma external_all_but_invoked :
  (forall r, external (Http r)) /\ (forall f, external (SpList f))
  /\ (forall n, external (SpCreate n)) /\ (forall x, external (SecretsList x))
  /\ (forall x l, external (SecretsCreate x l))
  /\ (forall x y, external (SetPermissions x y))
  /\ (forall x y, external (SecretsGet x y)) /\ (forall x y, external (Encrypt x y)).
Proof. repeat split. Qed.

Lemma follows_cell14 svc gateway g app sec :
  follows (if String.eqb gateway "Onpremises"
           then [cGetGatewayPublicKey; cEncodeCredentials] else [])
    (cell14 svc gateway g app sec).
Proof.
  unfold cell14. destruct (String.eqb gateway "Onpremises").
  - change [cGetGatewayPublicKey; cEncodeCredentials]
      with ([cGetGatewayPublicKey] ++ [cEncodeCredentials] ++ [])%list.
    apply follows_bind; [apply follows_invoke, emits_GetGatewayPublicKey; constructor |].
    intros pk.
    apply follows_bind; [apply follows_invoke, emits_EncodeCredentials; constructor |].
    intros c. apply follows_ret.
  - apply follows_ret.
Qed.

Lemma follows_cells_4_14 p : follows (schedule_4_14 p) (cells_4_14 p).
Proof.
  unfold cells_4_14.
  eapply follows_eq.
  - apply follows_bind;
      [apply follows_invoke, emits_CheckServicePrincipal; constructor | intros ids].
    apply follows_bind;
      [apply follows_invoke, emits_CheckServicePrincipalSecret; constructor | intros _].
    apply follows_bind;
      [apply follows_invoke, emits_GenerateServicePrincipalSecret; constructor
      | intros secret].
    apply follows_bind;
      [apply follows_invoke, emits_GrantPermissionsOnWarehouse; constructor | intros _].
    apply follows_bind;
      [apply follows_quiet, emits_secrets_get; constructor | intros cid].
    apply follows_bind;
      [apply follows_quiet, emits_secrets_get; constructor | intros csec].
    apply follows_bind;
      [apply follows_quiet, emits_secrets_get; constructor | intros tid].
    apply follows_bind;
      [apply follows_invoke, emits_GetWorkspaceId; constructor | intros w].
    apply follows_bind;
      [apply follows_invoke, emits_GetDatasetId; constructor | intros d].
    apply follows_bind with
      (l1 := if String.eqb (GatewayType p) "NoGateway" then [cTakOverDataset] else []).
    { destruct (String.eqb (GatewayType p) "NoGateway");
        [apply follows_invoke, emits_TakOverDataset; constructor | apply follows_ret]. }
    intros _.
    apply follows_bind;
      [apply follows_invoke, emits_GetDatasetDatasource; constructor | intros gd].
    apply follows_bind; [apply follows_cell14 | intros ec].
    apply follows_ret.
  - unfold schedule_4_14.
    destruct (String.eqb (GatewayType p) "NoGateway"),
      (String.eqb (GatewayType p) "Onpremises"); reflexivity.
Qed.

Lemma follows_cell15 g : follows [cUpdateDatasetDatasource] (cell15 g).
Proof. apply follows_invoke, emits_UpdateDatasetDatasource. constructor. Qed.

Lemma follows_cell16 p g : follows (schedule_16 p) (cell16 p g).
Proof.
  unfold cell16, schedule_16. destruct (String.eqb (RefreshDatasetFlag p) "true").
  - apply follows_invoke, emits_RefreshDataset. constructor.
  - apply follows_ret.
Qed.

(** The calls of any run of the notebook are an initial part of its
    schedule, and all of it when the run ends without an exception. *)
Lemma follows_Notebook p : follows (schedule p) (Notebook p).
Proof.
  unfold Notebook, schedule.
  apply follows_bind; [apply follows_cells_4_14 | intros g].
  apply follows_bind; [apply follows_cell15 | intros _; apply follows_cell16].
Qed.

(** ** Running computations step by step *)

Lemma run_bind_ok {A B} (c : M A) (k : A -> M B) env t a t' :
  run c env t = (Ok a, t') -> run (bind c k) env t = run (k a) env t'.
Proof. unfold run, bind. intros ->. reflexivity. Qed.

Lemma run_bind_err {A B} (c : M A) (k : A -> M B) env t e t' :
  run c env t = (Err e, t') -> run (bind c k) env t = (Err e, t').
Proof. unfold run, bind. intros ->. reflexivity. Qed.

Lemma run_invoke {A} m (c : M A) env t :
  run (invoke m c) env t = run c env (t ++ [Invoked m]).
Proof. reflexivity. Qed.

Lemma run_ask {A} e (o : Env -> trace -> result A) env t :
  run (ask e o) env t = (o env t, t ++ [e]).
Proof. reflexivity. Qed.

Lemma app_cons_assoc {A} (l : list A) x y : (l ++ [x]) ++ [y] = l ++ [x; y].
Proof. rewrite <- app_assoc. reflexivity. Qed.

(** ** SecretMinter *)

Lemma CheckServicePrincipalSecret_at_cap self env t i secrets :
  secrets_proxy_list env t i = Ok secrets ->
  (max_secrets self <= Z.of_nat (length secrets))%Z ->
  run (CheckServicePrincipalSecret self i) env t
  = (Err (ValueError (cap_message self i)), t ++ [SecretsList i]).
Proof.
  intros Hl Hn. unfold CheckServicePrincipalSecret.
  erewrite run_bind_ok by (rewrite run_ask, Hl; reflexivity).
  apply Z.leb_le in Hn. rewrite Hn. reflexivity.
Qed.

Lemma CheckServicePrincipalSecret_below_cap self env t i secrets :
  secrets_proxy_list env t i = Ok secrets ->
  (Z.of_nat (length secrets) < max_secrets self)%Z ->
  run (CheckServicePrincipalSecret self i) env t = (Ok tt, t ++ [SecretsList i]).
Proof.
  intros Hl Hn. unfold CheckServicePrincipalSecret.
  erewrite run_bind_ok by (rewrite run_ask, Hl; reflexivity).
  apply Z.leb_gt in Hn. rewrite Hn. reflexivity.
Qed.

Lemma Notebook_stops_at_cap env p ids t1 secrets :
  run (invoke cCheckServicePrincipal (CheckServicePrincipal (ServicePrincipal p)))
    env [] = (Ok ids, t1) ->
  secrets_proxy_list env (t1 ++ [Invoked cCheckServicePrincipalSecret]) (snd ids)
  = Ok secrets ->
  (5 <= Z.of_nat (length secrets))%Z ->
  run (Notebook p) env []
  = (Err (ValueError (cap_message CreateClient (snd ids))),
     t1 ++ [Invoked cCheckServicePrincipalSecret; SecretsList (snd ids)]).
Proof.
  intros H1 H2 H3. unfold Notebook.
  apply run_bind_err. unfold cells_4_14.
  erewrite run_bind_ok by exact H1.
  apply run_bind_err. rewrite run_invoke.
  rewrite (CheckServicePrincipalSecret_at_cap CreateClient _ _ _ H2 H3).
  rewrite app_cons_assoc. reflexivity.
Qed.

Lemma CheckServicePrincipal_before_minting env name ids t1 :
  run (invoke cCheckServicePrincipal (CheckServicePrincipal name)) env []
  = (Ok ids, t1) ->
  Forall before_minting t1.
Proof.
  intros H.
  assert (E : emits before_minting
                (invoke cCheckServicePrincipal (CheckServicePrincipal name))).
  { unfold invoke. apply emits_bind; [apply emits_emit; exact I | intros _].
    apply emits_CheckServicePrincipal; intros; exact I. }
  destruct (E env []) as (evs & Et & F).
  unfold run in H. rewrite H in Et. simpl in Et. subst t1. exact F.
Qed.

(** C1. For every principal whose live secret count is at least the cap of
    5, [CheckServicePrincipalSecret] raises the [ValueError] that names the
    cap, and in a run of the notebook that reaches the check with such a
    count, [GenerateServicePrincipalSecret] is never called: the run ends
    with that error, no cell calls the method and the store receives no
    request to create a secret. *)
Theorem C1_cap_exceeded_never_mints :
  (max_secrets CreateClient = 5%Z)
  /\ (forall env t i secrets,
        secrets_proxy_list env t i = Ok secrets ->
        (5 <= Z.of_nat (length secrets))%Z ->
        run (CheckServicePrincipalSecret CreateClient i) env t
        = (Err (ValueError (cap_message CreateClient i)), t ++ [SecretsList i]))
  /\ (forall env p ids t1 secrets,
        run (invoke cCheckServicePrincipal
               (CheckServicePrincipal (ServicePrincipal p))) env [] = (Ok ids, t1) ->
        secrets_proxy_list env (t1 ++ [Invoked cCheckServicePrincipalSecret])
          (snd ids) = Ok secrets ->
        (5 <= Z.of_nat (length secrets))%Z ->
        fst (run (Notebook p) env [])
        = Err (ValueError (cap_message CreateClient (snd ids)))
        /\ ~ In cGenerateServicePrincipalSecret
               (invocations (snd (run (Notebook p) env [])))
        /\ Forall (fun e => forall i l, e <> SecretsCreate i l)
             (snd (run (Notebook p) env []))).
Proof.
  split; [reflexivity |]. split.
  - intros env t i secrets Hl Hn.
    apply (CheckServicePrincipalSecret_at_cap CreateClient _ _ _ Hl Hn).
  - intros env p ids t1 secrets H1 H2 H3.
    rewrite (Notebook_stops_at_cap _ _ H1 H2 H3). simpl fst. simpl snd.
    pose proof (CheckServicePrincipal_before_minting _ _ H1) as F.
    assert (F' : Forall before_minting
                   (t1 ++ [Invoked cCheckServicePrincipalSecret;
                           SecretsList (snd ids)])).
    { apply Forall_app. split; [exact F | repeat constructor]. }
    split; [reflexivity |]. split.
    + intros Hin.
      induction F' as [| e l He _ IH]; [exact Hin |].
      destruct e as [c | | | | | | | |]; simpl in *; try (apply IH; exact Hin).
      destruct Hin as [-> | Hin]; [exact He | apply IH; exact Hin].
    + eapply Forall_impl; [| exact F'].
      intros e He i l ->. exact He.
Qed.

Lemma C1_witness :
  fst (run (Notebook (example_params "NoGateway" "true")) (example_env 5 200 200) [])
  = Err (ValueError (cap_message CreateClient (Some "2")))
  /\ ~ In cGenerateServicePrincipalSecret
         (invocations (snd (run (Notebook (example_params "NoGateway" "true"))
                              (example_env 5 200 200) []))).
Proof.
  destruct C1_cap_exceeded_never_mints as (_ & _ & H).
  destruct (H (example_env 5 200 200) (example_params "NoGateway" "true")
              ("app-new", Some "2")
              [Invoked cCheckServicePrincipal; SpList "displayName eq svc-bi"]
              (repeat {| secret_info_id := "s" |} 5)) as (R & N & _).
  - reflexivity.
  - reflexivity.
  - simpl. lia.
  - split; [exact R | exact N].
Defined.

Lemma CheckServicePrincipal_loop_last init sp a b :
  CheckServicePrincipal_loop (init ++ [sp]) a b = (Some (application_id sp), id sp).
Proof.
  revert a b. induction init as [| x init IH]; intros a b; simpl; [reflexivity |].
  apply IH.
Qed.

Lemma CheckServicePrincipal_found env t name init sp i :
  service_principals_list env t ("displayName eq " ++ name) = Ok (init ++ [sp]) ->
  id sp = Some i ->
  run (CheckServicePrincipal name) env t
  = (Ok (application_id sp, Some i), t ++ [SpList ("displayName eq " ++ name)]).
Proof.
  intros Hl Hi. unfold CheckServicePrincipal.
  erewrite run_bind_ok by (rewrite run_ask, Hl; reflexivity).
  rewrite CheckServicePrincipal_loop_last, Hi. reflexivity.
Qed.

Lemma CheckServicePrincipal_absent env t name created :
  service_principals_list env t ("displayName eq " ++ name) = Ok [] ->
  service_principals_create env (t ++ [SpList ("displayName eq " ++ name)]) name
  = Ok created ->
  run (CheckServicePrincipal name) env t
  = (Ok (application_id created, id created),
     t ++ [SpList ("displayName eq " ++ name); SpCreate name]).
Proof.
  intros Hl Hc. unfold CheckServicePrincipal.
  erewrite run_bind_ok by (rewrite run_ask, Hl; reflexivity).
  simpl CheckServicePrincipal_loop. cbv iota beta.
  erewrite run_bind_ok by (rewrite run_ask, Hc; reflexivity).
  rewrite app_cons_assoc. reflexivity.
Qed.

(** C4, as the code has it.  [CheckServicePrincipal] asks the store for the
    principals whose display name equals the given one (the SCIM filter
    [displayName eq name]).  When the answer is not empty and the LAST
    principal listed has an id, it returns the ids of that last principal
    (each iteration of the loop overwrites the ids of the one before), and
    creates nothing; when the answer is empty, or the last principal listed
    has no id, it creates a principal with that display name and returns the
    created ids. *)
Theorem C4_last_match_or_create :
  (forall env t name init sp i,
      service_principals_list env t ("displayName eq " ++ name) = Ok (init ++ [sp]) ->
      id sp = Some i ->
      run (CheckServicePrincipal name) env t
      = (Ok (application_id sp, Some i), t ++ [SpList ("displayName eq " ++ name)]))
  /\ (forall env t name created,
        service_principals_list env t ("displayName eq " ++ name) = Ok [] ->
        service_principals_create env (t ++ [SpList ("displayName eq " ++ name)]) name
        = Ok created ->
        run (CheckServicePrincipal name) env t
        = (Ok (application_id created, id created),
           t ++ [SpList ("displayName eq " ++ name); SpCreate name]))
  /\ (forall env t name init sp created,
        service_principals_list env t ("displayName eq " ++ name)
        = Ok (init ++ [sp]) ->
        id sp = None ->
        service_principals_create env (t ++ [SpList ("displayName eq " ++ name)]) name
        = Ok created ->
        run (CheckServicePrincipal name) env t
        = (Ok (application_id created, id created),
           t ++ [SpList ("displayName eq " ++ name); SpCreate name])).
Proof.
  split; [| split].
  - intros; eapply CheckServicePrincipal_found; eassumption.
  - intros; eapply CheckServicePrincipal_absent; eassumption.
  - intros env t name init sp created Hl Hi Hc. unfold CheckServicePrincipal.
    erewrite run_bind_ok by (rewrite run_ask, Hl; reflexivity).
    rewrite CheckServicePrincipal_loop_last, Hi.
    erewrite run_bind_ok by (rewrite run_ask, Hc; reflexivity).
    rewrite app_cons_assoc. reflexivity.
Qed.

Lemma C4_witness :
  run (CheckServicePrincipal "svc-bi") (example_env 0 200 200) []
  = (Ok ("app-new", Some "2"), [SpList "displayName eq svc-bi"])
  /\ run (CheckServicePrincipal "svc-bi") empty_store_env []
     = (Ok ("app-made", Some "3"),
        [SpList "displayName eq svc-bi"; SpCreate "svc-bi"])
  /\ run (CheckServicePrincipal "svc-bi") auth_error_env []
     = (Ok ("app-made", Some "3"),
        [SpList "displayName eq svc-bi"; SpCreate "svc-bi"]).
Proof.
  destruct C4_last_match_or_create as (Hfound & Habsent & Hnoid).
  split; [| split].
  - apply (Hfound (example_env 0 200 200) [] "svc-bi"
             [ {| application_id := "app-old"; id := Some "1" |} ]
             {| application_id := "app-new"; id := Some "2" |} "2");
      reflexivity.
  - apply (Habsent empty_store_env [] "svc-bi"
             {| application_id := "app-made"; id := Some "3" |}); reflexivity.
  - apply (Hnoid auth_error_env [] "svc-bi"
             [ {| application_id := "app-old"; id := Some "1" |} ]
             {| application_id := "app-none"; id := None |}
             {| application_id := "app-made"; id := Some "3" |}); reflexivity.
Defined.

(** C4 as stated fails: the store lists two principals under the name, and
    the ids returned are those of the second, not of the first. *)
Lemma C4_counterexample :
  service_principals_list (example_env 0 200 200) [] "displayName eq svc-bi"
  = Ok [ {| application_id := "app-old"; id := Some "1" |};
         {| application_id := "app-new"; id := Some "2" |} ]
  /\ fst (run (CheckServicePrincipal "svc-bi") (example_env 0 200 200) [])
     = Ok ("app-new", Some "2")
  /\ fst (run (CheckServicePrincipal "svc-bi") (example_env 0 200 200) [])
     <> Ok ("app-old", Some "1").
Proof.
  split; [reflexivity |]. split; [reflexivity |]. discriminate.
Qed.

(** ** DatasourceResolver *)






Lemma run_loads env t s j :
  json_loads env s = Some j -> run (loads s) env t = (Ok j, t).
Proof. unfold run, loads. intros ->. reflexivity. Qed.

Lemma run_http env t r response :
  requests env t r = Ok response -> run (http r) env t = (Ok response, t ++ [Http r]).
Proof. unfold http. rewrite run_ask. intros ->. reflexivity. Qed.

(** [GetDatasetId] is its loop applied to the decoded answer. *)
Lemma GetDatasetId_run self env t W name hdrs t1 response temp :
  run (GetRequestHeader self) env t = (Ok hdrs, t1) ->
  requests env t1 (datasets_request self hdrs (str_of env W)) = Ok response ->
  json_loads env (text response) = Some temp ->
  run (GetDatasetId self W name) env t
  = (GetDatasetId_body temp name,
     t1 ++ [Http (datasets_request self hdrs (str_of env W))]).
Proof.
  intros Hh Hr Hj. unfold GetDatasetId.
  erewrite run_bind_ok by exact Hh.
  erewrite run_bind_ok by reflexivity.
  erewrite run_bind_ok by (apply run_http; exact Hr).
  erewrite run_bind_ok by (apply run_loads; exact Hj).
  reflexivity.
Qed.

Lemma GetDatasetDatasource_run self env t W D hdrs t1 response temp :
  run (GetRequestHeader self) env t = (Ok hdrs, t1) ->
  requests env t1 (datasources_request self hdrs (str_of env W) (str_of env D))
  = Ok response ->
  json_loads env (text response) = Some temp ->
  run (GetDatasetDatasource self W D) env t
  = (GetDatasetDatasource_body temp,
     t1 ++ [Http (datasources_request self hdrs (str_of env W) (str_of env D))]).
Proof.
  intros Hh Hr Hj. unfold GetDatasetDatasource.
  erewrite run_bind_ok by exact Hh.
  erewrite run_bind_ok by reflexivity.
  erewrite run_bind_ok by reflexivity.
  erewrite run_bind_ok by (apply run_http; exact Hr).
  erewrite run_bind_ok by (apply run_loads; exact Hj).
  reflexivity.
Qed.







Lemma GetWorkspaceId_run self env t name hdrs t1 response :
  run (GetRequestHeader self) env t = (Ok hdrs, t1) ->
  requests env t1 (groups_request self hdrs name) = Ok response ->
  (status_code response <> 200%Z ->
   run (GetWorkspaceId self name) env t
   = (Err (ValueError (status_message "Error retrieving the workspace id" response)),
      t1 ++ [Http (groups_request self hdrs name)]))
  /\ (forall temp value,
        status_code response = 200%Z ->
        json_loads env (text response) = Some temp ->
        getitem temp "value" = Ok value ->
        (value = JArr [] ->
         run (GetWorkspaceId self name) env t
         = (Err (ValueError ("Workspace " ++ name
                   ++ " does not exist or the service principal "
                   ++ client_id self ++ " does not have access to it")),
            t1 ++ [Http (groups_request self hdrs name)]))
        /\ (forall m v, value = JArr [m] -> getitem m "id" = Ok v ->
            run (GetWorkspaceId self name) env t
            = (Ok v, t1 ++ [Http (groups_request self hdrs name)]))).
Proof.
  intros Hh Hr. split.
  - intros Hs. unfold GetWorkspaceId.
    erewrite run_bind_ok by exact Hh.
    erewrite run_bind_ok by (apply run_http; exact Hr).
    apply Z.eqb_neq in Hs. rewrite Hs. reflexivity.
  - intros temp value Hs Hj Hv. split.
    + intros ->. unfold GetWorkspaceId.
      erewrite run_bind_ok by exact Hh.
      erewrite run_bind_ok by (apply run_http; exact Hr).
      rewrite Hs. simpl negb. cbv iota.
      erewrite run_bind_ok by (apply run_loads; exact Hj).
      erewrite run_bind_ok by (unfold run, lift; rewrite Hv; reflexivity).
      reflexivity.
    + intros m v -> Hid. unfold GetWorkspaceId.
      erewrite run_bind_ok by exact Hh.
      erewrite run_bind_ok by (apply run_http; exact Hr).
      rewrite Hs. simpl negb. cbv iota.
      erewrite run_bind_ok by (apply run_loads; exact Hj).
      erewrite run_bind_ok by (unfold run, lift; rewrite Hv; reflexivity).
      erewrite run_bind_ok by reflexivity. simpl Nat.eqb. cbv iota.
      erewrite run_bind_ok by (apply run_loads; exact Hj).
      erewrite run_bind_ok by (unfold run, lift; rewrite Hv; reflexivity).
      erewrite run_bind_ok by reflexivity.
      unfold run, lift. rewrite Hid. reflexivity.
Qed.

(** C6. [GetWorkspaceId] sends the lookup filtered by name.  A status other
    than 200 raises the [ValueError] whose message carries the status code
    and the response body; status 200 with an empty list of matches raises
    the [ValueError] saying the workspace does not exist or is not
    accessible; status 200 with exactly one match returns the id of that
    match. *)
Theorem C6_workspace_lookup :
  forall self env t name hdrs t1 response,
    run (GetRequestHeader self) env t = (Ok hdrs, t1) ->
    requests env t1 (groups_request self hdrs name) = Ok response ->
    (status_code response <> 200%Z ->
     run (GetWorkspaceId self name) env t
     = (Err (ValueError
               ("Error retrieving the workspace id, the status code is "
                ++ str_int (status_code response)
                ++ " and the error message is " ++ text response)),
        t1 ++ [Http (groups_request self hdrs name)]))
    /\ (forall temp,
          status_code response = 200%Z ->
          json_loads env (text response) = Some temp ->
          getitem temp "value" = Ok (JArr []) ->
          run (GetWorkspaceId self name) env t
          = (Err (ValueError ("Workspace " ++ name
                    ++ " does not exist or the service principal "
                    ++ client_id self ++ " does not have access to it")),
             t1 ++ [Http (groups_request self hdrs name)]))
    /\ (forall temp m v,
          status_code response = 200%Z ->
          json_loads env (text response) = Some temp ->
          getitem temp "value" = Ok (JArr [m]) -> getitem m "id" = Ok v ->
          run (GetWorkspaceId self name) env t
          = (Ok v, t1 ++ [Http (groups_request self hdrs name)])).
Proof.
  intros self env t name hdrs t1 response Hh Hr.
  destruct (@GetWorkspaceId_run self env t name hdrs t1 response Hh Hr)
    as (Hbad & Hgood).
  split; [exact Hbad |]. split.
  - intros temp Hs Hj Hv. destruct (Hgood _ _ Hs Hj Hv) as (H0 & _).
    apply H0. reflexivity.
  - intros temp m v Hs Hj Hv Hid. destruct (Hgood _ _ Hs Hj Hv) as (_ & H1).
    eapply H1; [reflexivity | exact Hid].
Qed.

Lemma C6_witness :
  fst (run (GetWorkspaceId example_pbi "Forbidden") (example_env 0 200 200) [])
  = Err (ValueError
           "Error retrieving the workspace id, the status code is 403 and the error message is denied")
  /\ fst (run (GetWorkspaceId example_pbi "Nowhere") (example_env 0 200 200) [])
     = Err (ValueError
              "Workspace Nowhere does not exist or the service principal client does not have access to it")
  /\ fst (run (GetWorkspaceId example_pbi "Sales") (example_env 0 200 200) [])
     = Ok (JStr "w1").
Proof.
  split; [| split].
  - destruct (@C6_workspace_lookup example_pbi (example_env 0 200 200) [] "Forbidden"
                example_headers [Http (token_request example_pbi)]
                {| status_code := 403; text := "denied" |}) as (H & _);
      [reflexivity | reflexivity |].
    rewrite H; [reflexivity | discriminate].
  - destruct (@C6_workspace_lookup example_pbi (example_env 0 200 200) [] "Nowhere"
                example_headers [Http (token_request example_pbi)]
                {| status_code := 200; text := "nogroups" |}) as (_ & H & _);
      [reflexivity | reflexivity |].
    rewrite (H (JObj [("value", JArr [])])); reflexivity.
  - destruct (@C6_workspace_lookup example_pbi (example_env 0 200 200) [] "Sales"
                example_headers [Http (token_request example_pbi)]
                {| status_code := 200; text := "groups" |}) as (_ & _ & H);
      [reflexivity | reflexivity |].
    rewrite (H (JObj [("value", JArr [JObj [("id", JStr "w1"); ("name", JStr "Sales")]])])
               (JObj [("id", JStr "w1"); ("name", JStr "Sales")]) (JStr "w1"));
      reflexivity.
Defined.

(** ** RotationPipeline: which calls a run makes *)

Lemma follows_prefix {A} l (c : M A) env :
  follows l c -> exists rest, l = invocations (snd (run c env [])) ++ rest.
Proof.
  intros H. destruct (H env []) as (l' & E & R). unfold run. rewrite E. simpl.
  destruct (fst (c env [])); [exists []; subst; symmetry; apply app_nil_r | exact R].
Qed.

Lemma follows_In {A} l (c : M A) env t x :
  follows l c -> In x (invocations (snd (run c env t))) ->
  In x (invocations t) \/ In x l.
Proof.
  intros H Hin. destruct (H env t) as (l' & E & R). unfold run in Hin.
  rewrite E in Hin. apply in_app_or in Hin. destruct Hin as [Hin | Hin]; [left; exact Hin |].
  right. destruct (fst (c env t)); [subst; exact Hin |].
  destruct R as (rest & ->). apply in_or_app. left. exact Hin.
Qed.

Ltac split_prefix H invs :=
  destruct invs as [| ? invs];
  [ | simpl in H;
      first [ discriminate H | injection H as ? H; subst; split_prefix H invs ] ].

Lemma schedule_takeover p invs rest :
  schedule p = invs ++ rest ->
  count_occ call_eq_dec invs cTakOverDataset <= 1
  /\ (In cTakOverDataset invs -> GatewayType p = "NoGateway"%string)
  /\ (GatewayType p = "NoGateway"%string -> In cGetDatasetDatasource invs ->
      count_occ call_eq_dec invs cTakOverDataset = 1
      /\ exists later, invs = calls_up_to_datasource ++ later
                       /\ ~ In cTakOverDataset later).
Proof.
  unfold schedule, schedule_4_14, schedule_16, calls_up_to_datasource.
  destruct (String.eqb_spec (GatewayType p) "NoGateway") as [E | E];
    destruct (String.eqb (GatewayType p) "Onpremises");
    destruct (String.eqb (RefreshDatasetFlag p) "true");
    simpl; intros H; split_prefix H invs;
    (split; [vm_compute; lia |]);
    (split; [first [ intros _; exact E | simpl; intuition discriminate ] |]);
    intros E' Hin;
    first [ contradiction
          | exfalso; simpl in Hin; intuition discriminate
          | split; [reflexivity |];
            eexists; split; [reflexivity | simpl; intuition discriminate] ].
Qed.

Lemma TakOverDataset_run self env t W D hdrs t1 response :
  run (GetRequestHeader self) env t = (Ok hdrs, t1) ->
  requests env t1 (takeover_request self hdrs (str_of env W) (str_of env D))
  = Ok response ->
  run (TakOverDataset self W D) env t
  = (if (status_code response =? 200)%Z then Ok tt
     else Err (ValueError ("Service Principal " ++ client_id self
                 ++ " does not have permissions to take over the dataset")),
     t1 ++ [Http (takeover_request self hdrs (str_of env W) (str_of env D))]).
Proof.
  intros Hh Hr. unfold TakOverDataset.
  erewrite run_bind_ok by exact Hh.
  erewrite run_bind_ok by reflexivity.
  erewrite run_bind_ok by reflexivity.
  erewrite run_bind_ok by (apply run_http; exact Hr).
  destruct (status_code response =? 200)%Z; reflexivity.
Qed.

(** ** CredentialPublisher *)

Lemma UpdateDatasetDatasource_run self env t G DS cred alg hdrs t1 response :
  run (GetRequestHeader self) env t = (Ok hdrs, t1) ->
  requests env t1
    (update_request self hdrs (str_of env G) (str_of env DS) cred alg) = Ok response ->
  run (UpdateDatasetDatasource self G DS cred alg) env t
  = (if negb (status_code response =? 200)%Z
     then Err (ValueError (status_message "Error updating the datasource" response))
     else Ok tt,
     t1 ++ [Http (update_request self hdrs (str_of env G) (str_of env DS) cred alg)]).
Proof.
  intros Hh Hr. unfold UpdateDatasetDatasource.
  erewrite run_bind_ok by reflexivity.
  erewrite run_bind_ok by reflexivity.
  erewrite run_bind_ok by exact Hh.
  erewrite run_bind_ok by (apply run_http; exact Hr).
  destruct (negb (status_code response =? 200)%Z); reflexivity.
Qed.

Lemma no_refresh_before_cell16 p env r t14 :
  run (cells_4_14 p) env [] = (r, t14) ->
  ~ In cRefreshDataset (invocations t14).
Proof.
  intros E Hin.
  destruct (@follows_In Globals (schedule_4_14 p) (cells_4_14 p) env []
              cRefreshDataset (follows_cells_4_14 p)) as [H | H].
  - rewrite E. exact Hin.
  - exact H.
  - unfold schedule_4_14 in H.
    destruct (String.eqb (GatewayType p) "NoGateway"),
      (String.eqb (GatewayType p) "Onpremises"); simpl in H; intuition discriminate.
Qed.

Lemma no_refresh_in_cell15 g env t14 r t15 :
  run (cell15 g) env t14 = (r, t15) ->
  ~ In cRefreshDataset (invocations t14) ->
  ~ In cRefreshDataset (invocations t15).
Proof.
  intros E Hno Hin.
  destruct (@follows_In unit [cUpdateDatasetDatasource] (cell15 g) env t14
              cRefreshDataset (follows_cell15 g)) as [H | H].
  - rewrite E. exact Hin.
  - exact (Hno H).
  - simpl in H. intuition discriminate.
Qed.

Lemma refresh_in_cell16 p g env t15 :
  In cRefreshDataset (invocations (snd (run (cell16 p g) env t15)))
  <-> (RefreshDatasetFlag p = "true"%string \/ In cRefreshDataset (invocations t15)).
Proof.
  unfold cell16.
  destruct (String.eqb_spec (RefreshDatasetFlag p) "true") as [E | E].
  - split; [intros _; left; exact E | intros _].
    destruct (@emits_RefreshDataset external (fun _ => I) (pbi_svc g)
                (gWorkspaceId g) (gDatasetId g) env (t15 ++ [Invoked cRefreshDataset]))
      as (evs & Et & _).
    rewrite run_invoke. unfold run. rewrite Et, !invocations_app. simpl.
    apply in_or_app. left. apply in_or_app. right. left. reflexivity.
  - simpl. split; [intros H; right; exact H | intros [H | H]; [contradiction | exact H]].
Qed.

(** ** CredentialEncoder *)

Lemma cell14_plain svc gateway G app sec env t :
  gateway <> "Onpremises"%string ->
  run (cell14 svc gateway G app sec) env t
  = (Ok ("None"%string, plain_credentials app sec), t).
Proof.
  intros H. unfold cell14.
  destruct (String.eqb_spec gateway "Onpremises"); [contradiction | reflexivity].
Qed.


Lemma string_app_assoc (a b c : string) : ((a ++ b) ++ c = a ++ (b ++ c))%string.
Proof. induction a as [| x a IH]; simpl; [reflexivity | rewrite IH; reflexivity]. Qed.









(** ** The first event of a computation *)

Lemma starts_with_ask {A} e (o : Env -> trace -> result A) : starts_with e (ask e o).
Proof. intros env t. exists []. reflexivity. Qed.

Lemma starts_with_bind {A B} e (c : M A) (k : A -> M B) :
  starts_with e c -> (forall a, emits (fun _ => True) (k a)) ->
  starts_with e (bind c k).
Proof.
  intros Hc Hk env t. unfold bind. destruct (Hc env t) as (e1 & E1).
  destruct (c env t) as [[a | x] t1]; simpl in E1; subst t1.
  - destruct (Hk a env (t ++ e :: e1)) as (e2 & E2 & _).
    exists (e1 ++ e2). rewrite E2, <- app_assoc. reflexivity.
  - exists e1. reflexivity.
Qed.

Lemma starts_with_fmt {A} e v (k : string -> M A) :
  (forall s, starts_with e (k s)) -> starts_with e (bind (fmt v) k).
Proof. intros H env t. exact (H (str_of env v) env t). Qed.

Lemma starts_with_GetRequestHeader self :
  starts_with (Http (token_request self)) (GetRequestHeader self).
Proof.
  unfold GetRequestHeader, GetAccessToken.
  apply starts_with_bind; [| intros; repeat emits_step].
  apply starts_with_bind; [apply starts_with_ask | intros; repeat emits_step].
Qed.

Ltac after_header :=
  apply starts_with_bind;
  [ apply starts_with_GetRequestHeader
  | intros; repeat first [ apply emits_http; exact (fun _ => I) | emits_step ] ].

(** ** Requests recognised in a trace: their lemmas *)

Lemma length_append (a b : string) :
  String.length (a ++ b) = String.length a + String.length b.
Proof. induction a as [| c a IH]; simpl; [reflexivity | rewrite IH; reflexivity]. Qed.

Lemma substring_all (b : string) : substring 0 (String.length b) b = b.
Proof. induction b as [| c b IH]; simpl; [reflexivity | rewrite IH; reflexivity]. Qed.

Lemma substring_append (a b : string) :
  substring (String.length a) (String.length b) (a ++ b) = b.
Proof. induction a as [| c a IH]; simpl; [apply substring_all | exact IH]. Qed.

Lemma ends_with_append (a x : string) : ends_with x (a ++ x) = true.
Proof.
  unfold ends_with. rewrite length_append, Nat.add_sub, substring_append.
  apply String.eqb_refl.
Qed.

Lemma is_takeover_request self hdrs w d :
  is_takeover (Http (takeover_request self hdrs w d)) = true.
Proof.
  unfold is_takeover, takeover_request. cbn [method body url].
  rewrite <- !string_app_assoc. apply ends_with_append.
Qed.

Lemma is_refresh_request self hdrs w d :
  is_refresh (Http (refresh_request self hdrs w d)) = true.
Proof.
  unfold is_refresh, refresh_request. cbn [method body url].
  rewrite <- !string_app_assoc. apply ends_with_append.
Qed.

Lemma count_events_app f t1 t2 :
  count_events f (t1 ++ t2) = count_events f t1 + count_events f t2.
Proof.
  induction t1 as [| e t1 IH]; simpl; [reflexivity |].
  rewrite IH. apply Nat.add_assoc.
Qed.

Lemma count_events_none f evs :
  Forall (fun e => f e = false) evs -> count_events f evs = 0.
Proof.
  induction 1 as [| e evs He _ IH]; simpl; [reflexivity |].
  rewrite He, IH. reflexivity.
Qed.

Lemma count_events_Exists f t :
  Exists (fun e => f e = true) t -> 0 < count_events f t.
Proof.
  induction 1 as [e t He | e t _ IH]; simpl.
  - rewrite He. apply Nat.lt_0_succ.
  - destruct (f e); [apply Nat.lt_0_succ | exact IH].
Qed.

Lemma sends_none {A} f (c : M A) :
  emits (fun e => f e = false) c -> sends_at_most f 0 c.
Proof.
  intros H env t. destruct (H env t) as (evs & E & F).
  exists evs. split; [exact E |]. rewrite (@count_events_none f evs F). apply le_n.
Qed.

Lemma sends_bind {A B} f n m (c : M A) (k : A -> M B) :
  sends_at_most f n c -> (forall a, sends_at_most f m (k a)) ->
  sends_at_most f (n + m) (bind c k).
Proof.
  intros Hc Hk env t. unfold bind.
  destruct (Hc env t) as (e1 & E1 & R1).
  destruct (c env t) as [[a | e] t1]; simpl in E1; subst t1.
  - destruct (Hk a env (t ++ e1)) as (e2 & E2 & R2).
    exists (e1 ++ e2). rewrite E2, count_events_app.
    split; [symmetry; apply app_assoc | lia].
  - exists e1. split; [reflexivity | lia].
Qed.

Lemma sends_after_none {A B} f n (c : M A) (k : A -> M B) :
  emits (fun e => f e = false) c -> (forall a, sends_at_most f n (k a)) ->
  sends_at_most f n (bind c k).
Proof. intros Hc Hk. apply (@sends_bind A B f 0 n c k (@sends_none A f c Hc) Hk). Qed.

Lemma sends_then_none {A B} f n (c : M A) (k : A -> M B) :
  sends_at_most f n c -> (forall a, emits (fun e => f e = false) (k a)) ->
  sends_at_most f n (bind c k).
Proof.
  intros Hc Hk. rewrite <- (Nat.add_0_r n).
  apply sends_bind; [exact Hc | intros a; apply sends_none, Hk].
Qed.

Lemma sends_more {A} f n m (c : M A) :
  n <= m -> sends_at_most f n c -> sends_at_most f m c.
Proof.
  intros Hnm H env t. destruct (H env t) as (evs & E & R).
  exists evs. split; [exact E | lia].
Qed.

Lemma emits_run {A} (P : event -> Prop) (c : M A) env t r t' :
  emits P c -> run c env t = (r, t') -> Forall P t -> Forall P t'.
Proof.
  intros H E F. destruct (H env t) as (evs & Et & Fe).
  unfold run in E. rewrite E in Et. simpl in Et. subst t'.
  apply Forall_app. split; assumption.
Qed.

(** What each method of [PowerbiService] sends: the token request, then
    its own request. *)
Section Sends.
Variable P : event -> Prop.
Variable self : PowerbiService.
Hypothesis P_token : P (Http (token_request self)).

Lemma sends_GetRequestHeader : emits P (GetRequestHeader self).
Proof.
  unfold GetRequestHeader, GetAccessToken, http.
  apply emits_bind; [| intros; repeat emits_step].
  apply emits_bind; [apply emits_ask, P_token | intros; repeat emits_step].
Qed.

Lemma sends_GetWorkspaceId name :
  (forall hdrs, P (Http (groups_request self hdrs name))) ->
  emits P (GetWorkspaceId self name).
Proof.
  intros H. unfold GetWorkspaceId, http.
  apply emits_bind; [apply sends_GetRequestHeader | intros hdrs].
  apply emits_bind; [apply emits_ask, H | intros; repeat emits_step].
Qed.

Lemma sends_GetDatasetId W name :
  (forall hdrs w, P (Http (datasets_request self hdrs w))) ->
  emits P (GetDatasetId self W name).
Proof.
  intros H. unfold GetDatasetId, http.
  apply emits_bind; [apply sends_GetRequestHeader | intros hdrs].
  apply emits_bind; [apply emits_fmt | intros w].
  apply emits_bind; [apply emits_ask, H | intros; repeat emits_step].
Qed.

Lemma sends_GetDatasetDatasource W D :
  (forall hdrs w d, P (Http (datasources_request self hdrs w d))) ->
  emits P (GetDatasetDatasource self W D).
Proof.
  intros H. unfold GetDatasetDatasource, http.
  apply emits_bind; [apply sends_GetRequestHeader | intros hdrs].
  apply emits_bind; [apply emits_fmt | intros w].
  apply emits_bind; [apply emits_fmt | intros d].
  apply emits_bind; [apply emits_ask, H | intros; repeat emits_step].
Qed.

Lemma sends_TakOverDataset W D :
  (forall hdrs w d, P (Http (takeover_request self hdrs w d))) ->
  emits P (TakOverDataset self W D).
Proof.
  intros H. unfold TakOverDataset, http.
  apply emits_bind; [apply sends_GetRequestHeader | intros hdrs].
  apply emits_bind; [apply emits_fmt | intros w].
  apply emits_bind; [apply emits_fmt | intros d].
  apply emits_bind; [apply emits_ask, H | intros; repeat emits_step].
Qed.

Lemma sends_GetGatewayPublicKey G :
  (forall hdrs g, P (Http (gateway_request self hdrs g))) ->
  emits P (GetGatewayPublicKey self G).
Proof.
  intros H. unfold GetGatewayPublicKey, http.
  apply emits_bind; [apply sends_GetRequestHeader | intros hdrs].
  apply emits_bind; [apply emits_fmt | intros g].
  apply emits_bind; [apply emits_ask, H | intros; repeat emits_step].
Qed.

Lemma sends_RefreshDataset W D :
  (forall hdrs w d, P (Http (refresh_request self hdrs w d))) ->
  emits P (RefreshDataset self W D).
Proof.
  intros H. unfold RefreshDataset, http.
  apply emits_bind; [apply sends_GetRequestHeader | intros hdrs].
  apply emits_bind; [apply emits_fmt | intros w].
  apply emits_bind; [apply emits_fmt | intros d].
  apply emits_bind; [apply emits_ask, H | intros; repeat emits_step].
Qed.

Lemma sends_UpdateDatasetDatasource G DS cred alg :
  (forall hdrs g ds, P (Http (update_request self hdrs g ds cred alg))) ->
  emits P (UpdateDatasetDatasource self G DS cred alg).
Proof.
  intros H. unfold UpdateDatasetDatasource, http.
  apply emits_bind; [apply emits_fmt | intros g].
  apply emits_bind; [apply emits_fmt | intros ds].
  apply emits_bind; [apply sends_GetRequestHeader | intros hdrs].
  apply emits_bind; [apply emits_ask, H | intros; repeat emits_step].
Qed.

End Sends.

(** Walks through the cells of the notebook to prove [emits P]; the events
    of the cells are shown to satisfy [P] by computation, and a cell whose
    condition contradicts a hypothesis on the widgets is skipped. *)
Ltac holds_of_event :=
  intros; cbv beta; first [reflexivity | split; reflexivity | exact I].

Ltac walk_call L :=
  unfold invoke;
  apply emits_bind; [apply emits_emit; holds_of_event | intros _; L; holds_of_event].

Ltac walk_cell14 :=
  unfold cell14;
  match goal with
  | |- emits _ (if String.eqb ?g ?s then _ else _) =>
      destruct (String.eqb_spec g s)
  end;
  [ first
      [ contradiction
      | congruence
      | apply emits_bind;
          [walk_call ltac:(apply sends_GetGatewayPublicKey) | intros ?];
        apply emits_bind;
          [walk_call ltac:(apply emits_EncodeCredentials) | intros ?];
        apply emits_ret ]
  | apply emits_ret ].

Ltac walk_cell12 :=
  match goal with
  | |- emits _ (if String.eqb ?g ?s then _ else _) =>
      destruct (String.eqb_spec g s)
  end;
  [ first
      [ contradiction
      | congruence
      | walk_call ltac:(apply sends_TakOverDataset) ]
  | apply emits_ret ].

Ltac walk_cells_13_14 :=
  apply emits_bind;
    [walk_call ltac:(apply sends_GetDatasetDatasource) | intros ?];
  apply emits_bind; [walk_cell14 | intros ?];
  apply emits_ret.

Ltac walk_cells_8_11 :=
  apply emits_bind; [apply emits_secrets_get; holds_of_event | intros ?];
  apply emits_bind; [apply emits_secrets_get; holds_of_event | intros ?];
  apply emits_bind; [apply emits_secrets_get; holds_of_event | intros ?];
  apply emits_bind; [walk_call ltac:(apply sends_GetWorkspaceId) | intros ?];
  apply emits_bind; [walk_call ltac:(apply sends_GetDatasetId) | intros ?].

Ltac walk_cells_4_7 :=
  apply emits_bind;
    [walk_call ltac:(apply emits_CheckServicePrincipal) | intros ?];
  apply emits_bind;
    [walk_call ltac:(apply emits_CheckServicePrincipalSecret) | intros _];
  apply emits_bind;
    [walk_call ltac:(apply emits_GenerateServicePrincipalSecret) | intros ?];
  apply emits_bind;
    [walk_call ltac:(apply emits_GrantPermissionsOnWarehouse) | intros _].

Ltac walk_cells_4_14 :=
  unfold cells_4_14; cbv zeta;
  walk_cells_4_7; walk_cells_8_11;
  apply emits_bind; [walk_cell12 | intros _];
  walk_cells_13_14.

Ltac walk_cell15 :=
  unfold cell15; walk_call ltac:(apply sends_UpdateDatasetDatasource).

Ltac walk_cell16 :=
  unfold cell16;
  match goal with
  | |- emits _ (if String.eqb ?g ?s then _ else _) =>
      destruct (String.eqb_spec g s)
  end;
  [ first
      [ contradiction
      | congruence
      | walk_call ltac:(apply sends_RefreshDataset) ]
  | apply emits_ret ].

Ltac walk_Notebook :=
  unfold Notebook;
  apply emits_bind; [walk_cells_4_14 | intros ?];
  apply emits_bind; [walk_cell15 | intros _; walk_cell16].

(** ** What a method has sent when it returns *)

Lemma run_bind_assoc {A B C} (c : M A) (k : A -> M B) (k' : B -> M C) env t :
  run (bind (bind c k) k') env t = run (bind c (fun a => bind (k a) k')) env t.
Proof. unfold run, bind. destruct (c env t) as [[a | e] t1]; reflexivity. Qed.

Lemma run_bind_inv {A B} (c : M A) (k : A -> M B) env t b t' :
  run (bind c k) env t = (Ok b, t') ->
  exists a t1, run c env t = (Ok a, t1) /\ run (k a) env t1 = (Ok b, t').
Proof.
  unfold run, bind. destruct (c env t) as [[a | e] t1]; intros H;
    [exists a, t1; split; [reflexivity | exact H] | discriminate H].
Qed.

Lemma run_ask_inv {A} e (o : Env -> trace -> result A) env t a t' :
  run (ask e o) env t = (Ok a, t') -> o env t = Ok a /\ t' = t ++ [e].
Proof. unfold run, ask. intros [= H1 H2]. split; [exact H1 | symmetry; exact H2]. Qed.

Lemma run_fmt_inv v env t s t' :
  run (fmt v) env t = (Ok s, t') -> s = str_of env v /\ t' = t.
Proof. unfold run, fmt. intros [= H1 H2]. split; symmetry; assumption. Qed.

Lemma GetRequestHeader_trace self env t :
  snd (run (GetRequestHeader self) env t) = t ++ [Http (token_request self)].
Proof.
  unfold run, GetRequestHeader, GetAccessToken, bind, http, ask, loads, lift, ret.
  destruct (requests env t (token_request self)) as [response | e]; [| reflexivity].
  destruct (json_loads env (text response)) as [j |]; [| reflexivity].
  destruct (py_get j "access_token") as [v | e]; [| reflexivity].
  destruct (str_add "Bearer " v); reflexivity.
Qed.

Lemma GetRequestHeader_end self env t r t1 :
  run (GetRequestHeader self) env t = (r, t1) ->
  t1 = t ++ [Http (token_request self)].
Proof.
  intros H. rewrite <- (GetRequestHeader_trace self env t), H. reflexivity.
Qed.

Lemma TakOverDataset_trace self W D env t hdrs t1 :
  run (GetRequestHeader self) env t = (Ok hdrs, t1) ->
  snd (run (TakOverDataset self W D) env t)
  = t1 ++ [Http (takeover_request self hdrs (str_of env W) (str_of env D))].
Proof.
  intros Hh. unfold TakOverDataset.
  erewrite run_bind_ok by exact Hh.
  erewrite run_bind_ok by reflexivity.
  erewrite run_bind_ok by reflexivity.
  unfold run, bind, http, ask.
  destruct (requests env t1
              (takeover_request self hdrs (str_of env W) (str_of env D)))
    as [response | e]; [| reflexivity].
  destruct (status_code response =? 200)%Z; reflexivity.
Qed.

Lemma RefreshDataset_trace self W D env t hdrs t1 :
  run (GetRequestHeader self) env t = (Ok hdrs, t1) ->
  snd (run (RefreshDataset self W D) env t)
  = t1 ++ [Http (refresh_request self hdrs (str_of env W) (str_of env D))].
Proof.
  intros Hh. unfold RefreshDataset.
  erewrite run_bind_ok by exact Hh.
  erewrite run_bind_ok by reflexivity.
  erewrite run_bind_ok by reflexivity.
  unfold run, bind, http, ask.
  destruct (requests env t1
              (refresh_request self hdrs (str_of env W) (str_of env D)))
    as [response | e]; [| reflexivity].
  destruct (negb (status_code response =? 202)%Z); reflexivity.
Qed.

Lemma UpdateDatasetDatasource_trace self G DS cred alg env t hdrs t1 :
  run (GetRequestHeader self) env t = (Ok hdrs, t1) ->
  snd (run (UpdateDatasetDatasource self G DS cred alg) env t)
  = t1 ++ [Http (update_request self hdrs (str_of env G) (str_of env DS) cred alg)].
Proof.
  intros Hh. unfold UpdateDatasetDatasource.
  erewrite run_bind_ok by reflexivity.
  erewrite run_bind_ok by reflexivity.
  erewrite run_bind_ok by exact Hh.
  unfold run, bind, http, ask.
  destruct (requests env t1
              (update_request self hdrs (str_of env G) (str_of env DS) cred alg))
    as [response | e]; [| reflexivity].
  destruct (negb (status_code response =? 200)%Z); reflexivity.
Qed.

Lemma TakOverDataset_ok_inv self W D env t t' :
  run (TakOverDataset self W D) env t = (Ok tt, t') ->
  exists hdrs response,
    run (GetRequestHeader self) env t = (Ok hdrs, t ++ [Http (token_request self)])
    /\ requests env (t ++ [Http (token_request self)])
         (takeover_request self hdrs (str_of env W) (str_of env D)) = Ok response
    /\ status_code response = 200%Z
    /\ t' = t ++ [Http (token_request self);
                  Http (takeover_request self hdrs (str_of env W) (str_of env D))].
Proof.
  intros H. unfold TakOverDataset in H.
  apply run_bind_inv in H as (hdrs & t1 & Hh & H).
  pose proof (GetRequestHeader_end _ _ _ Hh) as ->.
  apply run_bind_inv in H as (w & t2 & Hw & H).
  apply run_fmt_inv in Hw as (-> & ->).
  apply run_bind_inv in H as (d & t2 & Hd & H).
  apply run_fmt_inv in Hd as (-> & ->).
  apply run_bind_inv in H as (response & t2 & Hr & H).
  unfold http in Hr. apply run_ask_inv in Hr as (Hr & ->).
  exists hdrs, response. split; [exact Hh |]. split; [exact Hr |].
  destruct (Z.eqb_spec (status_code response) 200) as [E | E];
    unfold run, ret, raise in H; [| discriminate H].
  injection H as <-. split; [exact E |]. apply app_cons_assoc.
Qed.

(** ** Reaching a call *)

(** When the record of a call [m] that [c] does not make is in the trace of
    [c] followed by [k], then [c] returned and [k] went on to [m]. *)
Lemma reach_bind {A B} l1 (c : M A) (k : A -> M B) env t m :
  follows l1 c -> ~ In m l1 -> ~ In m (invocations t) ->
  In m (invocations (snd (run (bind c k) env t))) ->
  exists a t1, run c env t = (Ok a, t1) /\ ~ In m (invocations t1)
               /\ In m (invocations (snd (run (k a) env t1))).
Proof.
  intros Hf Hl Ht Hin. destruct (Hf env t) as (l' & E & R).
  unfold run, bind in *. destruct (c env t) as [[a | e] t1]; cbn [fst snd] in *.
  - exists a, t1. split; [reflexivity |]. split; [| exact Hin].
    rewrite E. subst l'. intros H. apply in_app_or in H. tauto.
  - exfalso. rewrite E in Hin. apply in_app_or in Hin.
    destruct Hin as [H | H]; [exact (Ht H) |].
    destruct R as (rest & ->). apply Hl, in_or_app. left. exact H.
Qed.

Lemma starts_with_invoke {A} m (c : M A) :
  emits any_event c -> starts_with (Invoked m) (invoke m c).
Proof.
  intros H env t. unfold invoke, bind, emit.
  destruct (H env (t ++ [Invoked m])) as (evs & E & _).
  exists evs. rewrite E, <- app_assoc. reflexivity.
Qed.

(** Goes past one cell of the notebook in a run known to reach a later
    call: [H] says that the call is recorded, [N] that it is not yet. *)
Ltac past H N l tac :=
  rewrite run_bind_assoc in H; rewrite run_bind_assoc;
  apply (@reach_bind _ _ l) in H;
  [ | tac | simpl; intuition discriminate | exact N ];
  clear N;
  let Hrun := fresh "Hrun" in
  destruct H as (? & ? & Hrun & N & H);
  erewrite run_bind_ok by exact Hrun;
  cbv beta zeta in H; cbv beta zeta.

(** ** Takeover: the request itself *)

Lemma takeover_in_TakOverDataset self W D :
  sends_at_most is_takeover 1 (invoke cTakOverDataset (TakOverDataset self W D)).
Proof.
  intros env t.
  destruct (run (GetRequestHeader self) env (t ++ [Invoked cTakOverDataset]))
    as [[hdrs | e] t1] eqn:Hh;
    pose proof (GetRequestHeader_end _ _ _ Hh) as ->.
  - exists [Invoked cTakOverDataset; Http (token_request self);
            Http (takeover_request self hdrs (str_of env W) (str_of env D))].
    split.
    + change (snd (run (TakOverDataset self W D) env (t ++ [Invoked cTakOverDataset]))
              = t ++ [Invoked cTakOverDataset; Http (token_request self);
                      Http (takeover_request self hdrs (str_of env W)
                              (str_of env D))]).
      erewrite TakOverDataset_trace by exact Hh. rewrite <- !app_assoc. reflexivity.
    + cbn [count_events]. rewrite is_takeover_request. apply le_n.
  - exists [Invoked cTakOverDataset; Http (token_request self)].
    split; [| apply Nat.le_0_l].
    change (snd (run (TakOverDataset self W D) env (t ++ [Invoked cTakOverDataset]))
            = t ++ [Invoked cTakOverDataset; Http (token_request self)]).
    unfold TakOverDataset. erewrite run_bind_err by exact Hh.
    rewrite <- app_assoc. reflexivity.
Qed.

Lemma takeover_at_most_once p : sends_at_most is_takeover 1 (Notebook p).
Proof.
  unfold Notebook.
  apply sends_then_none;
    [| intros g; apply emits_bind; [walk_cell15 | intros _; walk_cell16]].
  unfold cells_4_14. cbv zeta.
  apply sends_after_none;
    [walk_call ltac:(apply emits_CheckServicePrincipal) | intros ids].
  apply sends_after_none;
    [walk_call ltac:(apply emits_CheckServicePrincipalSecret) | intros _].
  apply sends_after_none;
    [walk_call ltac:(apply emits_GenerateServicePrincipalSecret) | intros secret].
  apply sends_after_none;
    [walk_call ltac:(apply emits_GrantPermissionsOnWarehouse) | intros _].
  apply sends_after_none; [apply emits_secrets_get; holds_of_event | intros cid].
  apply sends_after_none; [apply emits_secrets_get; holds_of_event | intros csec].
  apply sends_after_none; [apply emits_secrets_get; holds_of_event | intros tid].
  apply sends_after_none; [walk_call ltac:(apply sends_GetWorkspaceId) | intros W].
  apply sends_after_none; [walk_call ltac:(apply sends_GetDatasetId) | intros D].
  apply sends_then_none; [| intros _; walk_cells_13_14].
  destruct (String.eqb (GatewayType p) "NoGateway").
  - apply takeover_in_TakOverDataset.
  - apply sends_more with (n := 0); [apply Nat.le_0_l |].
    apply sends_none, emits_ret.
Qed.

Lemma no_takeover_without_NoGateway p :
  GatewayType p <> "NoGateway"%string ->
  emits (fun e => is_takeover e = false) (Notebook p).
Proof. intros Hg. walk_Notebook. Qed.

Lemma takeover_before_datasource p env :
  GatewayType p = "NoGateway"%string ->
  In cGetDatasetDatasource (invocations (snd (run (Notebook p) env []))) ->
  exists before pbi hdrs w d later,
    snd (run (Notebook p) env [])
    = before ++ [Invoked cTakOverDataset; Http (token_request pbi);
                 Http (takeover_request pbi hdrs w d);
                 Invoked cGetDatasetDatasource] ++ later.
Proof.
  intros Hg H.
  assert (N : ~ In cGetDatasetDatasource (invocations [])) by (intros []).
  assert (Eb : String.eqb (GatewayType p) "NoGateway" = true)
    by (rewrite Hg; reflexivity).
  unfold Notebook, cells_4_14 in H |- *. cbv zeta in H |- *.
  past H N [cCheckServicePrincipal]
       ltac:(apply follows_invoke, emits_CheckServicePrincipal; constructor).
  past H N [cCheckServicePrincipalSecret]
       ltac:(apply follows_invoke, emits_CheckServicePrincipalSecret; constructor).
  past H N [cGenerateServicePrincipalSecret]
       ltac:(apply follows_invoke, emits_GenerateServicePrincipalSecret; constructor).
  past H N [cGrantPermissionsOnWarehouse]
       ltac:(apply follows_invoke, emits_GrantPermissionsOnWarehouse; constructor).
  past H N (@nil call) ltac:(apply follows_quiet, emits_secrets_get; constructor).
  past H N (@nil call) ltac:(apply follows_quiet, emits_secrets_get; constructor).
  past H N (@nil call) ltac:(apply follows_quiet, emits_secrets_get; constructor).
  past H N [cGetWorkspaceId]
       ltac:(apply follows_invoke, emits_GetWorkspaceId; constructor).
  past H N [cGetDatasetId]
       ltac:(apply follows_invoke, emits_GetDatasetId; constructor).
  rewrite Eb in H |- *.
  past H N [cTakOverDataset]
       ltac:(apply follows_invoke, emits_TakOverDataset; constructor).
  match goal with
  | Hrun : run (invoke cTakOverDataset (TakOverDataset ?pbi ?W ?D)) env ?t11
           = (Ok ?u, _) |- _ =>
      rewrite run_invoke in Hrun;
      destruct u;
      apply TakOverDataset_ok_inv in Hrun as (hdrs & response & _ & _ & _ & ->);
      exists t11, pbi, hdrs, (str_of env W), (str_of env D)
  end.
  match goal with
  | |- exists later, snd (run ?c env ?t) = _ =>
      assert (S : starts_with (Invoked cGetDatasetDatasource) c)
  end.
  { apply starts_with_bind;
      [| intros g; apply emits_bind; [walk_cell15 | intros _; walk_cell16]].
    apply starts_with_bind;
      [| intros gd; apply emits_bind; [walk_cell14 | intros ec; apply emits_ret]].
    apply starts_with_invoke, emits_GetDatasetDatasource. intros r. exact I. }
  match goal with
  | |- exists later, snd (run ?c env ?t) = _ =>
      destruct (S env t) as (later & E)
  end.
  exists later. unfold run. rewrite E, <- !app_assoc. reflexivity.
Qed.

(** ** RotationPipeline: the takeover and its request *)

Lemma count_events_In f e t : In e t -> f e = true -> 1 <= count_events f t.
Proof.
  intros Hin He. apply count_events_Exists, Exists_exists.
  exists e. split; assumption.
Qed.

(** C8. In any run of the notebook [TakOverDataset] is called at most once,
    and only when the gateway type is "NoGateway"; in a run with that gateway
    type that reaches [GetDatasetDatasource] it has been called exactly once,
    just before [GetDatasetDatasource] and never after.  So it is with the
    takeover request itself: a run sends it at most once, never with another
    gateway type, and in a run with "NoGateway" that reaches
    [GetDatasetDatasource] exactly once, after the token request of the call
    and right before [GetDatasetDatasource] is entered.  The method raises
    the [ValueError] about missing permissions when the takeover request is
    answered with a status other than 200, and returns normally on 200. *)
Theorem C8_takeover_once_before_datasource :
  (forall p env,
      count_occ call_eq_dec (invocations (snd (run (Notebook p) env [])))
        cTakOverDataset <= 1
      /\ (In cTakOverDataset (invocations (snd (run (Notebook p) env []))) ->
          GatewayType p = "NoGateway"%string)
      /\ (GatewayType p = "NoGateway"%string ->
          In cGetDatasetDatasource (invocations (snd (run (Notebook p) env []))) ->
          count_occ call_eq_dec (invocations (snd (run (Notebook p) env [])))
            cTakOverDataset = 1
          /\ exists later,
               invocations (snd (run (Notebook p) env []))
               = calls_up_to_datasource ++ later
               /\ ~ In cTakOverDataset later))
  /\ (forall self hdrs w d,
        is_takeover (Http (takeover_request self hdrs w d)) = true)
  /\ (forall p env,
        count_events is_takeover (snd (run (Notebook p) env [])) <= 1
        /\ (GatewayType p <> "NoGateway"%string ->
            count_events is_takeover (snd (run (Notebook p) env [])) = 0)
        /\ (GatewayType p = "NoGateway"%string ->
            In cGetDatasetDatasource (invocations (snd (run (Notebook p) env []))) ->
            count_events is_takeover (snd (run (Notebook p) env [])) = 1
            /\ exists before pbi hdrs w d later,
                 snd (run (Notebook p) env [])
                 = before
                   ++ [Invoked cTakOverDataset; Http (token_request pbi);
                       Http (takeover_request pbi hdrs w d);
                       Invoked cGetDatasetDatasource]
                   ++ later))
  /\ (forall self env t W D hdrs t1 response,
        run (GetRequestHeader self) env t = (Ok hdrs, t1) ->
        requests env t1 (takeover_request self hdrs (str_of env W) (str_of env D))
        = Ok response ->
        (status_code response <> 200%Z ->
         run (TakOverDataset self W D) env t
         = (Err (ValueError ("Service Principal " ++ client_id self
                     ++ " does not have permissions to take over the dataset")),
            t1 ++ [Http (takeover_request self hdrs (str_of env W) (str_of env D))]))
        /\ (status_code response = 200%Z ->
            run (TakOverDataset self W D) env t
            = (Ok tt,
               t1 ++ [Http (takeover_request self hdrs (str_of env W)
                              (str_of env D))]))).
Proof.
  split; [| split; [| split]].
  - intros p env.
    destruct (@follows_prefix unit (schedule p) (Notebook p) env (follows_Notebook p))
      as (rest & Hs).
    eapply schedule_takeover. exact Hs.
  - exact is_takeover_request.
  - intros p env.
    destruct (takeover_at_most_once p env []) as (evs & E & Hle). cbn [app] in E.
    split; [unfold run; rewrite E; exact Hle |]. split.
    + intros Hg.
      destruct (@no_takeover_without_NoGateway p Hg env []) as (evs' & E' & F).
      cbn [app] in E'. unfold run. rewrite E'. apply count_events_none. exact F.
    + intros Hg Hin.
      destruct (@takeover_before_datasource p env Hg Hin)
        as (before & pbi & hdrs & w & d & later & Es).
      split; [| exists before, pbi, hdrs, w, d, later; exact Es].
      apply Nat.le_antisymm; [unfold run; rewrite E; exact Hle |].
      apply count_events_In with (e := Http (takeover_request pbi hdrs w d));
        [| apply is_takeover_request].
      rewrite Es. apply in_or_app. right. right. right. left. reflexivity.
  - intros self env t W D hdrs t1 response Hh Hr.
    rewrite (@TakOverDataset_run self env t W D hdrs t1 response Hh Hr). split.
    + intros Hs. apply Z.eqb_neq in Hs. rewrite Hs. reflexivity.
    + intros Hs. apply Z.eqb_eq in Hs. rewrite Hs. reflexivity.
Qed.

Lemma C8_witness :
  invocations (snd (run (Notebook (example_params "NoGateway" "true"))
                      (example_env 0 200 200) []))
  = calls_up_to_datasource ++ [cUpdateDatasetDatasource; cRefreshDataset]
  /\ count_occ call_eq_dec
       (invocations (snd (run (Notebook (example_params "NoGateway" "true"))
                            (example_env 0 200 200) []))) cTakOverDataset = 1
  /\ count_events is_takeover
       (snd (run (Notebook (example_params "NoGateway" "true"))
               (example_env 0 200 200) [])) = 1
  /\ count_events is_takeover
       (snd (run (Notebook (example_params "VNET" "true"))
               (example_env 0 200 200) [])) = 0
  /\ fst (run (TakOverDataset example_pbi (JStr "w1") (JStr "d3"))
            (example_env 0 403 200) [])
     = Err (ValueError
              "Service Principal client does not have permissions to take over the dataset").
Proof.
  destruct C8_takeover_once_before_datasource as (Hrun & _ & Hreq & Hm).
  split; [reflexivity |]. split; [| split; [| split]].
  - destruct (Hrun (example_params "NoGateway" "true") (example_env 0 200 200))
      as (_ & _ & H).
    destruct H as (H1 & _); [reflexivity | | exact H1].
    vm_compute. tauto.
  - destruct (Hreq (example_params "NoGateway" "true") (example_env 0 200 200))
      as (_ & _ & H).
    destruct H as (H1 & _); [reflexivity | | exact H1].
    vm_compute. tauto.
  - destruct (Hreq (example_params "VNET" "true") (example_env 0 200 200))
      as (_ & H & _).
    apply H. discriminate.
  - destruct (Hm example_pbi (example_env 0 403 200) [] (JStr "w1") (JStr "d3")
                example_headers [Http (token_request example_pbi)]
                {| status_code := 403; text := "takeover" |}) as (H & _);
      [reflexivity | reflexivity |].
    rewrite H; [reflexivity | discriminate].
Defined.

(** ** Refresh: the request itself *)

Lemma refresh_in_RefreshDataset self W D :
  sends_at_most is_refresh 1 (invoke cRefreshDataset (RefreshDataset self W D)).
Proof.
  intros env t.
  destruct (run (GetRequestHeader self) env (t ++ [Invoked cRefreshDataset]))
    as [[hdrs | e] t1] eqn:Hh;
    pose proof (GetRequestHeader_end _ _ _ Hh) as ->.
  - exists [Invoked cRefreshDataset; Http (token_request self);
            Http (refresh_request self hdrs (str_of env W) (str_of env D))].
    split.
    + change (snd (run (RefreshDataset self W D) env (t ++ [Invoked cRefreshDataset]))
              = t ++ [Invoked cRefreshDataset; Http (token_request self);
                      Http (refresh_request self hdrs (str_of env W)
                              (str_of env D))]).
      erewrite RefreshDataset_trace by exact Hh. rewrite <- !app_assoc. reflexivity.
    + cbn [count_events]. rewrite is_refresh_request. apply le_n.
  - exists [Invoked cRefreshDataset; Http (token_request self)].
    split; [| apply Nat.le_0_l].
    change (snd (run (RefreshDataset self W D) env (t ++ [Invoked cRefreshDataset]))
            = t ++ [Invoked cRefreshDataset; Http (token_request self)]).
    unfold RefreshDataset. erewrite run_bind_err by exact Hh.
    rewrite <- app_assoc. reflexivity.
Qed.

Lemma no_refresh_in_cells_4_14 p :
  emits (fun e => is_refresh e = false) (cells_4_14 p).
Proof. walk_cells_4_14. Qed.

Lemma no_refresh_in_cell15_request g :
  emits (fun e => is_refresh e = false) (cell15 g).
Proof. walk_cell15. Qed.

Lemma refresh_at_most_once p : sends_at_most is_refresh 1 (Notebook p).
Proof.
  unfold Notebook.
  apply sends_after_none; [apply no_refresh_in_cells_4_14 | intros g].
  apply sends_after_none; [apply no_refresh_in_cell15_request | intros _].
  unfold cell16. destruct (String.eqb (RefreshDatasetFlag p) "true").
  - apply refresh_in_RefreshDataset.
  - apply sends_more with (n := 0); [apply Nat.le_0_l |].
    apply sends_none, emits_ret.
Qed.

Lemma no_refresh_up_to_cell14 p env r t14 :
  run (cells_4_14 p) env [] = (r, t14) -> count_events is_refresh t14 = 0.
Proof.
  intros E. apply count_events_none.
  eapply emits_run; [apply no_refresh_in_cells_4_14 | exact E | constructor].
Qed.

Lemma no_refresh_up_to_cell15 p env g t14 r t15 :
  run (cells_4_14 p) env [] = (Ok g, t14) -> run (cell15 g) env t14 = (r, t15) ->
  count_events is_refresh t15 = 0.
Proof.
  intros E14 E15. apply count_events_none.
  eapply emits_run; [apply no_refresh_in_cell15_request | exact E15 |].
  eapply emits_run; [apply no_refresh_in_cells_4_14 | exact E14 | constructor].
Qed.

Lemma Notebook_refreshes p env g t14 t15 :
  run (cells_4_14 p) env [] = (Ok g, t14) ->
  run (cell15 g) env t14 = (Ok tt, t15) ->
  RefreshDatasetFlag p = "true"%string ->
  run (Notebook p) env []
  = run (RefreshDataset (pbi_svc g) (gWorkspaceId g) (gDatasetId g)) env
      (t15 ++ [Invoked cRefreshDataset]).
Proof.
  intros E14 E15 Hf. unfold Notebook.
  erewrite run_bind_ok by exact E14. erewrite run_bind_ok by exact E15.
  unfold cell16. rewrite Hf. apply run_invoke.
Qed.

Lemma Notebook_without_refresh p env g t14 t15 :
  run (cells_4_14 p) env [] = (Ok g, t14) ->
  run (cell15 g) env t14 = (Ok tt, t15) ->
  RefreshDatasetFlag p <> "true"%string ->
  run (Notebook p) env [] = (Ok tt, t15).
Proof.
  intros E14 E15 Hf. unfold Notebook.
  erewrite run_bind_ok by exact E14. erewrite run_bind_ok by exact E15.
  unfold cell16.
  destruct (String.eqb_spec (RefreshDatasetFlag p) "true");
    [contradiction | reflexivity].
Qed.

(** C9. [RefreshDataset] is called in a run of the notebook if and only if
    the refresh flag is "true" and the credential update of cell 15 returned
    normally.  When the update request is answered with a status other than
    200, [UpdateDatasetDatasource] raises the [ValueError] whose message
    carries the status code and the response body; the run of the notebook
    ends with that exception and [RefreshDataset] is not called.  The call
    is the real one: with the flag "true" and the update done, the run goes
    on as [RefreshDataset] does for the client, workspace and dataset of the
    run, with its token request and, once the token is had, its refresh
    request; with another flag the run ends after the update.  A run sends
    at most one refresh request, and none unless the flag is "true" and the
    update returned normally. *)
Theorem C9_refresh_iff_flag_and_published :
  (forall p env,
      In cRefreshDataset (invocations (snd (run (Notebook p) env [])))
      <-> (RefreshDatasetFlag p = "true"%string
           /\ exists g t14 t15,
                run (cells_4_14 p) env [] = (Ok g, t14)
                /\ run (cell15 g) env t14 = (Ok tt, t15)))
  /\ (forall p env g t14 e t15,
        run (cells_4_14 p) env [] = (Ok g, t14) ->
        run (cell15 g) env t14 = (Err e, t15) ->
        run (Notebook p) env [] = (Err e, t15)
        /\ ~ In cRefreshDataset (invocations t15)
        /\ count_events is_refresh t15 = 0)
  /\ (forall self env t G DS cred alg hdrs t1 response,
        run (GetRequestHeader self) env t = (Ok hdrs, t1) ->
        requests env t1
          (update_request self hdrs (str_of env G) (str_of env DS) cred alg)
        = Ok response ->
        status_code response <> 200%Z ->
        run (UpdateDatasetDatasource self G DS cred alg) env t
        = (Err (ValueError
                  ("Error updating the datasource, the status code is "
                   ++ str_int (status_code response)
                   ++ " and the error message is " ++ text response)),
           t1 ++ [Http (update_request self hdrs (str_of env G) (str_of env DS)
                          cred alg)]))
  /\ (forall self hdrs w d,
        is_refresh (Http (refresh_request self hdrs w d)) = true)
  /\ (forall p env g t14 t15,
        run (cells_4_14 p) env [] = (Ok g, t14) ->
        run (cell15 g) env t14 = (Ok tt, t15) ->
        (RefreshDatasetFlag p = "true"%string ->
         run (Notebook p) env []
         = run (RefreshDataset (pbi_svc g) (gWorkspaceId g) (gDatasetId g)) env
             (t15 ++ [Invoked cRefreshDataset])
         /\ (exists later,
                snd (run (Notebook p) env [])
                = t15 ++ [Invoked cRefreshDataset; Http (token_request (pbi_svc g))]
                  ++ later)
         /\ (forall hdrs t16,
                run (GetRequestHeader (pbi_svc g)) env
                  (t15 ++ [Invoked cRefreshDataset]) = (Ok hdrs, t16) ->
                snd (run (Notebook p) env [])
                = t15 ++ [Invoked cRefreshDataset; Http (token_request (pbi_svc g));
                          Http (refresh_request (pbi_svc g) hdrs
                                  (str_of env (gWorkspaceId g))
                                  (str_of env (gDatasetId g)))]))
        /\ (RefreshDatasetFlag p <> "true"%string ->
            run (Notebook p) env [] = (Ok tt, t15)
            /\ count_events is_refresh t15 = 0))
  /\ (forall p env,
        count_events is_refresh (snd (run (Notebook p) env [])) <= 1
        /\ (0 < count_events is_refresh (snd (run (Notebook p) env [])) ->
            RefreshDatasetFlag p = "true"%string
            /\ exists g t14 t15,
                 run (cells_4_14 p) env [] = (Ok g, t14)
                 /\ run (cell15 g) env t14 = (Ok tt, t15))).
Proof.
  split; [| split; [| split; [| split; [| split]]]].
  - intros p env. unfold Notebook.
    destruct (run (cells_4_14 p) env []) as [[g | e] t14] eqn:E14.
    + erewrite run_bind_ok by exact E14.
      destruct (run (cell15 g) env t14) as [[[] | e] t15] eqn:E15.
      * erewrite run_bind_ok by exact E15.
        rewrite refresh_in_cell16. split.
        -- intros [H | H].
           ++ split; [exact H |]. exists g, t14, t15.
              split; [reflexivity | exact E15].
           ++ exfalso. eapply no_refresh_in_cell15; [exact E15 | | exact H].
              eapply no_refresh_before_cell16. exact E14.
        -- intros (H & _). left. exact H.
      * erewrite run_bind_err by exact E15. simpl. split.
        -- intros H. exfalso. eapply no_refresh_in_cell15; [exact E15 | | exact H].
           eapply no_refresh_before_cell16. exact E14.
        -- intros (_ & g' & t14' & t15' & Hg & H15).
           injection Hg as <- <-. rewrite E15 in H15. discriminate.
    + erewrite run_bind_err by exact E14. simpl. split.
      * intros H. exfalso. eapply no_refresh_before_cell16; [exact E14 | exact H].
      * intros (_ & g' & t14' & t15' & Hg & _). discriminate.
  - intros p env g t14 e t15 E14 E15. split; [| split].
    + unfold Notebook. erewrite run_bind_ok by exact E14.
      erewrite run_bind_err by exact E15. reflexivity.
    + eapply no_refresh_in_cell15; [exact E15 |].
      eapply no_refresh_before_cell16. exact E14.
    + eapply no_refresh_up_to_cell15; eassumption.
  - intros self env t G DS cred alg hdrs t1 response Hh Hr Hs.
    rewrite (@UpdateDatasetDatasource_run self env t G DS cred alg hdrs t1 response
               Hh Hr).
    apply Z.eqb_neq in Hs. rewrite Hs. reflexivity.
  - exact is_refresh_request.
  - intros p env g t14 t15 E14 E15. split.
    + intros Hf.
      pose proof (@Notebook_refreshes p env g t14 t15 E14 E15 Hf) as R.
      split; [exact R |]. rewrite R. split.
      * destruct (run (GetRequestHeader (pbi_svc g)) env
                    (t15 ++ [Invoked cRefreshDataset])) as [[hdrs | e] t16] eqn:Hh;
          pose proof (GetRequestHeader_end _ _ _ Hh) as ->.
        -- erewrite RefreshDataset_trace by exact Hh.
           exists [Http (refresh_request (pbi_svc g) hdrs
                           (str_of env (gWorkspaceId g))
                           (str_of env (gDatasetId g)))].
           rewrite <- !app_assoc. reflexivity.
        -- unfold RefreshDataset. erewrite run_bind_err by exact Hh.
           exists []. cbn [snd]. rewrite <- app_assoc. reflexivity.
      * intros hdrs t16 Hh. erewrite RefreshDataset_trace by exact Hh.
        pose proof (GetRequestHeader_end _ _ _ Hh) as ->.
        rewrite <- !app_assoc. reflexivity.
    + intros Hf. split.
      * eapply Notebook_without_refresh; eassumption.
      * eapply no_refresh_up_to_cell15; eassumption.
  - intros p env. split.
    + destruct (refresh_at_most_once p env []) as (evs & E & Hle). cbn [app] in E.
      unfold run. rewrite E. exact Hle.
    + intros Hpos.
      destruct (run (cells_4_14 p) env []) as [[g | e] t14] eqn:E14.
      * destruct (run (cell15 g) env t14) as [[[] | e] t15] eqn:E15.
        -- destruct (String.eqb_spec (RefreshDatasetFlag p) "true") as [Hf | Hf].
           ++ split; [exact Hf |]. exists g, t14, t15.
              split; [reflexivity | exact E15].
           ++ exfalso.
              rewrite (@Notebook_without_refresh p env g t14 t15 E14 E15 Hf) in Hpos.
              cbn [snd] in Hpos.
              rewrite (@no_refresh_up_to_cell15 p env g t14 (Ok tt) t15 E14 E15)
                in Hpos.
              exact (Nat.lt_irrefl 0 Hpos).
        -- exfalso. unfold Notebook in Hpos.
           erewrite run_bind_ok in Hpos by exact E14.
           erewrite run_bind_err in Hpos by exact E15. cbn [snd] in Hpos.
           rewrite (@no_refresh_up_to_cell15 p env g t14 (Err e) t15 E14 E15)
             in Hpos.
           exact (Nat.lt_irrefl 0 Hpos).
      * exfalso. unfold Notebook in Hpos.
        erewrite run_bind_err in Hpos by exact E14. cbn [snd] in Hpos.
        rewrite (@no_refresh_up_to_cell14 p env (Err e) t14 E14) in Hpos.
        exact (Nat.lt_irrefl 0 Hpos).
Qed.

Lemma C9_witness :
  fst (run (Notebook (example_params "VNET" "true")) (example_env 0 200 403) [])
  = Err (ValueError
           "Error updating the datasource, the status code is 403 and the error message is update")
  /\ ~ In cRefreshDataset
         (invocations (snd (run (Notebook (example_params "VNET" "true"))
                              (example_env 0 200 403) [])))
  /\ In cRefreshDataset
       (invocations (snd (run (Notebook (example_params "VNET" "true"))
                            (example_env 0 200 200) [])))
  /\ In (Http (refresh_request (CreateCredential "tid" "cid" "csec") example_headers
                 "w1" "d3"))
       (snd (run (Notebook (example_params "VNET" "true")) (example_env 0 200 200) []))
  /\ snd (run (Notebook (example_params "VNET" "false")) (example_env 0 200 200) [])
     = snd (run (bind (cells_4_14 (example_params "VNET" "false")) cell15)
              (example_env 0 200 200) []).
Proof.
  destruct C9_refresh_iff_flag_and_published as (Hiff & Hhalt & _ & _ & Hreal & _).
  assert (H : run (Notebook (example_params "VNET" "true")) (example_env 0 200 403) []
              = (Err (ValueError
                   "Error updating the datasource, the status code is 403 and the error message is update"),
                 snd (run (Notebook (example_params "VNET" "true"))
                        (example_env 0 200 403) []))
              /\ ~ In cRefreshDataset
                     (invocations (snd (run (Notebook (example_params "VNET" "true"))
                                          (example_env 0 200 403) [])))).
  { let r14 := eval vm_compute in
         (run (cells_4_14 (example_params "VNET" "true")) (example_env 0 200 403) []) in
    lazymatch r14 with
    | (Ok ?g, ?t14) =>
        let r15 := eval vm_compute in (run (cell15 g) (example_env 0 200 403) t14) in
        lazymatch r15 with
        | (Err ?e, ?t15) =>
            destruct (Hhalt (example_params "VNET" "true") (example_env 0 200 403)
                        g t14 e t15) as (R & N & _);
            [ vm_compute; reflexivity | vm_compute; reflexivity | ];
            rewrite R; split; [reflexivity | exact N]
        end
    end. }
  destruct H as (R & N). split; [rewrite R; reflexivity |]. split; [exact N |].
  split; [| split].
  - apply (proj2 (Hiff (example_params "VNET" "true") (example_env 0 200 200))).
    split; [reflexivity |].
    let r14 := eval vm_compute in
         (run (cells_4_14 (example_params "VNET" "true")) (example_env 0 200 200) []) in
    lazymatch r14 with
    | (Ok ?g, ?t14) =>
        let r15 := eval vm_compute in (run (cell15 g) (example_env 0 200 200) t14) in
        lazymatch r15 with
        | (Ok tt, ?t15) =>
            exists g, t14, t15; split; vm_compute; reflexivity
        end
    end.
  - let r14 := eval vm_compute in
         (run (cells_4_14 (example_params "VNET" "true")) (example_env 0 200 200) []) in
    lazymatch r14 with
    | (Ok ?g, ?t14) =>
        let r15 := eval vm_compute in (run (cell15 g) (example_env 0 200 200) t14) in
        lazymatch r15 with
        | (Ok tt, ?t15) =>
            destruct (Hreal (example_params "VNET" "true") (example_env 0 200 200)
                        g t14 t15) as (Hon & _);
            [ vm_compute; reflexivity | vm_compute; reflexivity | ];
            destruct Hon as (_ & _ & Hsent); [reflexivity |];
            rewrite (Hsent example_headers
                       (t15 ++ [Invoked cRefreshDataset;
                                Http (token_request (pbi_svc g))]))
              by (vm_compute; reflexivity);
            apply in_or_app; right; right; right; left; reflexivity
        end
    end.
  - let r14 := eval vm_compute in
         (run (cells_4_14 (example_params "VNET" "false")) (example_env 0 200 200) []) in
    lazymatch r14 with
    | (Ok ?g, ?t14) =>
        let r15 := eval vm_compute in (run (cell15 g) (example_env 0 200 200) t14) in
        lazymatch r15 with
        | (Ok tt, ?t15) =>
            destruct (Hreal (example_params "VNET" "false") (example_env 0 200 200)
                        g t14 t15) as (_ & Hoff);
            [ vm_compute; reflexivity | vm_compute; reflexivity | ];
            destruct Hoff as (Hend & _); [discriminate |];
            rewrite Hend; vm_compute; reflexivity
        end
    end.
Defined.

(** ** CredentialEncoder: the plain credentials *)





(** C2, as the code has it.  Cell 14 compares the gateway type with
    "Onpremises" only: for every other value, the three of the widget or
    not, it takes the [else] branch, sets the algorithm to "None" and the
    credentials to the plain string, and raises nothing. *)
Theorem C2_other_modes_take_plain_branch :
  forall svc gateway G app sec env t,
    gateway <> "Onpremises"%string ->
    run (cell14 svc gateway G app sec) env t
    = (Ok ("None"%string, plain_credentials app sec), t).
Proof. intros. apply cell14_plain. assumption. Qed.

Lemma C2_witness :
  run (cell14 example_pbi "Kerberos" (JStr "g3") "app-new" "s3cr3t")
    (example_env 0 200 200) []
  = (Ok ("None"%string, plain_credentials "app-new" "s3cr3t"), []).
Proof.
  apply (@C2_other_modes_take_plain_branch example_pbi "Kerberos" (JStr "g3")
           "app-new" "s3cr3t" (example_env 0 200 200) []).
  discriminate.
Defined.

(** C2 as stated fails: "Kerberos" is none of the three gateway types, and
    cell 14 does not raise on it; it returns the plain credentials. *)
Lemma C2_counterexample :
  ("Kerberos" <> "NoGateway" /\ "Kerberos" <> "Onpremises" /\ "Kerberos" <> "VNET")%string
  /\ fst (run (cell14 example_pbi "Kerberos" (JStr "g3") "app-new" "s3cr3t")
            (example_env 0 200 200) [])
     = Ok ("None"%string, plain_credentials "app-new" "s3cr3t")
  /\ ~ exists e, fst (run (cell14 example_pbi "Kerberos" (JStr "g3") "app-new" "s3cr3t")
                        (example_env 0 200 200) []) = Err e.
Proof.
  split; [repeat split; discriminate |]. split; [reflexivity |].
  intros (e & H). discriminate H.
Qed.




(** * Further properties of the services *)

(** ** Bearer token *)

Lemma GetRequestHeader_run self env t response j :
  requests env t (token_request self) = Ok response ->
  json_loads env (text response) = Some j ->
  run (GetRequestHeader self) env t
  = (rbind (py_get j "access_token") (fun accessToken =>
       rbind (str_add "Bearer " accessToken) (fun authorization =>
         Ok [("Content-Type"%string, "application/json"%string);
             ("Authorization"%string, authorization)])),
     t ++ [Http (token_request self)]).
Proof.
  intros Hr Hj. unfold GetRequestHeader, GetAccessToken.
  unfold run, bind, http, ask, loads, lift, ret. rewrite Hr. simpl. rewrite Hj.
  destruct (py_get j "access_token") as [v | e]; simpl; [| reflexivity].
  destruct (str_add "Bearer " v); reflexivity.
Qed.

(** X1. [GetRequestHeader] posts the client credentials to the tenant's
    token endpoint and never looks at the status code of the answer.  When
    the decoded answer is an object whose "access_token" is a string it
    returns the two headers with "Bearer " before the token; when the key is
    missing or holds something that is not a string (an authentication
    error, for one) it raises [TypeError]; when the answer is JSON but not
    an object it raises [AttributeError]; when it is not JSON it raises
    [JSONDecodeError]. *)
Theorem X1_request_header_outcomes :
  forall self env t response,
    requests env t (token_request self) = Ok response ->
    (forall kv tok,
        json_loads env (text response) = Some (JObj kv) ->
        assoc "access_token" kv = Some (JStr tok) ->
        run (GetRequestHeader self) env t
        = (Ok [("Content-Type"%string, "application/json"%string);
               ("Authorization"%string, ("Bearer " ++ tok)%string)],
           t ++ [Http (token_request self)]))
    /\ (forall kv,
          json_loads env (text response) = Some (JObj kv) ->
          assoc "access_token" kv = None ->
          run (GetRequestHeader self) env t
          = (Err TypeError, t ++ [Http (token_request self)]))
    /\ (forall kv v,
          json_loads env (text response) = Some (JObj kv) ->
          assoc "access_token" kv = Some v -> not_str v ->
          run (GetRequestHeader self) env t
          = (Err TypeError, t ++ [Http (token_request self)]))
    /\ (forall j,
          json_loads env (text response) = Some j -> not_dict j ->
          run (GetRequestHeader self) env t
          = (Err AttributeError, t ++ [Http (token_request self)]))
    /\ (json_loads env (text response) = None ->
        run (GetRequestHeader self) env t
        = (Err JSONDecodeError, t ++ [Http (token_request self)])).
Proof.
  intros self env t response Hr. repeat split.
  - intros kv tok Hj Ha.
    rewrite (@GetRequestHeader_run self env t response (JObj kv) Hr Hj).
    simpl. rewrite Ha. reflexivity.
  - intros kv Hj Ha.
    rewrite (@GetRequestHeader_run self env t response (JObj kv) Hr Hj).
    simpl. rewrite Ha. reflexivity.
  - intros kv v Hj Ha Hv.
    rewrite (@GetRequestHeader_run self env t response (JObj kv) Hr Hj).
    simpl. rewrite Ha. simpl.
    destruct v; try reflexivity. exfalso. eapply Hv. reflexivity.
  - intros j Hj Hd.
    rewrite (@GetRequestHeader_run self env t response j Hr Hj).
    destruct j; try reflexivity. exfalso. eapply Hd. reflexivity.
  - intros Hj. unfold GetRequestHeader, GetAccessToken.
    unfold run, bind, http, ask, loads. rewrite Hr. simpl. rewrite Hj. reflexivity.
Qed.

Lemma X1_witness :
  run (GetRequestHeader example_pbi) (example_env 0 200 200) []
  = (Ok example_headers, [Http (token_request example_pbi)])
  /\ run (GetRequestHeader example_pbi) auth_error_env []
     = (Err TypeError, [Http (token_request example_pbi)]).
Proof.
  split.
  - destruct (@X1_request_header_outcomes example_pbi (example_env 0 200 200) []
                {| status_code := 200; text := "token" |} eq_refl) as (H & _).
    apply (H [("access_token"%string, JStr "tok")] "tok"%string); reflexivity.
  - destruct (@X1_request_header_outcomes example_pbi auth_error_env []
                {| status_code := 401; text := "autherr" |} eq_refl)
      as (_ & H & _).
    apply (H [("error"%string, JStr "invalid_client")]); reflexivity.
Defined.

(** X2. When the bearer token cannot be had, every method of
    [PowerbiService] ends with the exception of [GetRequestHeader] and sends
    no request of its own. *)
Theorem X2_no_token_no_request :
  forall self env t e t1,
    run (GetRequestHeader self) env t = (Err e, t1) ->
    (forall name, run (GetWorkspaceId self name) env t = (Err e, t1))
    /\ (forall W name, run (GetDatasetId self W name) env t = (Err e, t1))
    /\ (forall W D, run (GetDatasetDatasource self W D) env t = (Err e, t1))
    /\ (forall W D, run (TakOverDataset self W D) env t = (Err e, t1))
    /\ (forall G, run (GetGatewayPublicKey self G) env t = (Err e, t1))
    /\ (forall W D, run (RefreshDataset self W D) env t = (Err e, t1))
    /\ (forall G DS c a,
          run (UpdateDatasetDatasource self G DS c a) env t = (Err e, t1)).
Proof.
  intros self env t e t1 H. repeat split; intros.
  - unfold GetWorkspaceId. apply run_bind_err. exact H.
  - unfold GetDatasetId. apply run_bind_err. exact H.
  - unfold GetDatasetDatasource. apply run_bind_err. exact H.
  - unfold TakOverDataset. apply run_bind_err. exact H.
  - unfold GetGatewayPublicKey. apply run_bind_err. exact H.
  - unfold RefreshDataset. apply run_bind_err. exact H.
  - unfold UpdateDatasetDatasource.
    erewrite run_bind_ok by reflexivity. erewrite run_bind_ok by reflexivity.
    apply run_bind_err. exact H.
Qed.

Lemma X2_witness :
  run (GetWorkspaceId example_pbi "Sales") auth_error_env []
  = (Err TypeError, [Http (token_request example_pbi)])
  /\ run (UpdateDatasetDatasource example_pbi (JStr "g3") (JStr "s3") "c" "None")
       auth_error_env []
     = (Err TypeError, [Http (token_request example_pbi)]).
Proof.
  destruct (@X2_no_token_no_request example_pbi auth_error_env [] TypeError
              [Http (token_request example_pbi)] eq_refl)
    as (Hw & _ & _ & _ & _ & _ & Hu).
  split; [apply Hw | apply Hu].
Defined.

(** X3. Every method of [PowerbiService] asks for a new bearer token before
    anything else: the first request it sends is the token request, whatever
    was obtained before. *)
Theorem X3_fresh_token_first :
  forall self,
    (forall name, starts_with (Http (token_request self)) (GetWorkspaceId self name))
    /\ (forall W name,
          starts_with (Http (token_request self)) (GetDatasetId self W name))
    /\ (forall W D,
          starts_with (Http (token_request self)) (GetDatasetDatasource self W D))
    /\ (forall W D, starts_with (Http (token_request self)) (TakOverDataset self W D))
    /\ (forall G, starts_with (Http (token_request self)) (GetGatewayPublicKey self G))
    /\ (forall W D, starts_with (Http (token_request self)) (RefreshDataset self W D))
    /\ (forall G DS c a,
          starts_with (Http (token_request self))
            (UpdateDatasetDatasource self G DS c a)).
Proof.
  intros self. repeat split; intros.
  - unfold GetWorkspaceId. after_header.
  - unfold GetDatasetId. after_header.
  - unfold GetDatasetDatasource. after_header.
  - unfold TakOverDataset. after_header.
  - unfold GetGatewayPublicKey. after_header.
  - unfold RefreshDataset. after_header.
  - unfold UpdateDatasetDatasource.
    apply starts_with_fmt. intros g. apply starts_with_fmt. intros ds. after_header.
Qed.

(** ** Refresh and update *)

Lemma RefreshDataset_run self env t W D hdrs t1 response :
  run (GetRequestHeader self) env t = (Ok hdrs, t1) ->
  requests env t1 (refresh_request self hdrs (str_of env W) (str_of env D))
  = Ok response ->
  run (RefreshDataset self W D) env t
  = (if negb (status_code response =? 202)%Z
     then Err (ValueError (status_message "Error refreshing the dataset" response))
     else Ok tt,
     t1 ++ [Http (refresh_request self hdrs (str_of env W) (str_of env D))]).
Proof.
  intros Hh Hr. unfold RefreshDataset.
  erewrite run_bind_ok by exact Hh.
  erewrite run_bind_ok by reflexivity.
  erewrite run_bind_ok by reflexivity.
  erewrite run_bind_ok by (apply run_http; exact Hr).
  destruct (negb (status_code response =? 202)%Z); reflexivity.
Qed.

(** X4. [RefreshDataset] posts the refresh with
    [{"notifyOption": "NoNotification"}] and accepts status 202 only: on 202
    it returns, on any other status (200 included) it raises the
    [ValueError] whose message carries the status code and the response
    body. *)
Theorem X4_refresh_accepts_202_only :
  forall self env t W D hdrs t1 response,
    run (GetRequestHeader self) env t = (Ok hdrs, t1) ->
    requests env t1 (refresh_request self hdrs (str_of env W) (str_of env D))
    = Ok response ->
    body (refresh_request self hdrs (str_of env W) (str_of env D))
    = Json (JObj [("notifyOption"%string, JStr "NoNotification")])
    /\ (status_code response = 202%Z <->
        fst (run (RefreshDataset self W D) env t) = Ok tt)
    /\ (status_code response <> 202%Z ->
        run (RefreshDataset self W D) env t
        = (Err (ValueError
                  ("Error refreshing the dataset, the status code is "
                   ++ str_int (status_code response)
                   ++ " and the error message is " ++ text response)),
           t1 ++ [Http (refresh_request self hdrs (str_of env W) (str_of env D))])).
Proof.
  intros self env t W D hdrs t1 response Hh Hr.
  rewrite (@RefreshDataset_run self env t W D hdrs t1 response Hh Hr).
  split; [reflexivity |]. split.
  - destruct (Z.eqb_spec (status_code response) 202) as [E | E]; simpl.
    + split; intros; [reflexivity | exact E].
    + split; [intros; contradiction | discriminate].
  - intros Hs. apply Z.eqb_neq in Hs. rewrite Hs. reflexivity.
Qed.

Lemma X4_witness :
  fst (run (RefreshDataset example_pbi (JStr "w1") (JStr "d3"))
         (example_env 0 200 200) []) = Ok tt
  /\ fst (run (RefreshDataset example_pbi (JStr "w1") (JStr "d3")) not_found_env [])
     = Err (ValueError
              "Error refreshing the dataset, the status code is 200 and the error message is token").
Proof.
  split.
  - destruct (@X4_refresh_accepts_202_only example_pbi (example_env 0 200 200) []
                (JStr "w1") (JStr "d3") example_headers
                [Http (token_request example_pbi)]
                {| status_code := 202; text := "refresh" |} eq_refl eq_refl)
      as (_ & H & _).
    apply H. reflexivity.
  - destruct (@X4_refresh_accepts_202_only example_pbi not_found_env []
                (JStr "w1") (JStr "d3") example_headers
                [Http (token_request example_pbi)]
                {| status_code := 200; text := "token" |} eq_refl eq_refl)
      as (_ & _ & H).
    rewrite H; [reflexivity | discriminate].
Defined.

(** X5. [UpdateDatasetDatasource] patches the datasource of the gateway with
    basic credentials: the body carries the given credentials and encryption
    algorithm, marks the connection "Encrypted", the privacy level
    "Organizational" and end-user OAuth off.  It returns normally exactly
    when the answer has status 200. *)
Theorem X5_update_ok_iff_200 :
  forall self env t G DS cred alg hdrs t1 response,
    run (GetRequestHeader self) env t = (Ok hdrs, t1) ->
    requests env t1
      (update_request self hdrs (str_of env G) (str_of env DS) cred alg)
    = Ok response ->
    snd (run (UpdateDatasetDatasource self G DS cred alg) env t)
    = t1 ++ [Http {| method := PATCH;
                     url := (base_url self ++ "gateways/" ++ str_of env G
                             ++ "/datasources/" ++ str_of env DS)%string;
                     headers := hdrs;
                     body := Json (JObj [("credentialDetails"%string,
                       JObj [("credentialType"%string, JStr "Basic");
                             ("credentials"%string, JStr cred);
                             ("encryptedConnection"%string, JStr "Encrypted");
                             ("encryptionAlgorithm"%string, JStr alg);
                             ("privacyLevel"%string, JStr "Organizational");
                             ("useEndUserOAuth2Credentials"%string, JStr "False")])])
                  |}]
    /\ (status_code response = 200%Z <->
        fst (run (UpdateDatasetDatasource self G DS cred alg) env t) = Ok tt).
Proof.
  intros self env t G DS cred alg hdrs t1 response Hh Hr.
  rewrite (@UpdateDatasetDatasource_run self env t G DS cred alg hdrs t1 response
             Hh Hr).
  split; [reflexivity |].
  destruct (Z.eqb_spec (status_code response) 200) as [E | E]; simpl.
  - split; intros; [reflexivity | exact E].
  - split; [intros; contradiction | discriminate].
Qed.

Lemma X5_witness :
  fst (run (UpdateDatasetDatasource example_pbi (JStr "g3") (JStr "s3") "c" "None")
         (example_env 0 200 200) []) = Ok tt.
Proof.
  destruct (@X5_update_ok_iff_200 example_pbi (example_env 0 200 200) []
              (JStr "g3") (JStr "s3") "c"%string "None"%string example_headers
              [Http (token_request example_pbi)]
              {| status_code := 200; text := "update" |} eq_refl eq_refl)
    as (_ & H).
  apply H. reflexivity.
Defined.

(** ** Workspace lookup with several matches *)

(** X6. When the filtered lookup of [GetWorkspaceId] lists several
    workspaces, the first one decides: its id is returned, and when it has
    no "id" the method raises [KeyError], whatever the entries after it
    hold. *)
Theorem X6_workspace_first_match :
  forall self env t name hdrs t1 response temp m others,
    run (GetRequestHeader self) env t = (Ok hdrs, t1) ->
    requests env t1 (groups_request self hdrs name) = Ok response ->
    status_code response = 200%Z ->
    json_loads env (text response) = Some temp ->
    getitem temp "value" = Ok (JArr (m :: others)) ->
    run (GetWorkspaceId self name) env t
    = (getitem m "id", t1 ++ [Http (groups_request self hdrs name)]).
Proof.
  intros self env t name hdrs t1 response temp m others Hh Hr Hs Hj Hv.
  unfold GetWorkspaceId.
  erewrite run_bind_ok by exact Hh.
  erewrite run_bind_ok by (apply run_http; exact Hr).
  rewrite Hs. simpl negb. cbv iota.
  erewrite run_bind_ok by (apply run_loads; exact Hj).
  erewrite run_bind_ok by (unfold run, lift; rewrite Hv; reflexivity).
  erewrite run_bind_ok by reflexivity. simpl Nat.eqb. cbv iota.
  erewrite run_bind_ok by (apply run_loads; exact Hj).
  erewrite run_bind_ok by (unfold run, lift; rewrite Hv; reflexivity).
  erewrite run_bind_ok by reflexivity.
  reflexivity.
Qed.

Lemma X6_witness :
  run (GetWorkspaceId example_pbi "Sales") odd_listing_env []
  = (Ok (JStr "w1"),
     [Http (token_request example_pbi);
      Http (groups_request example_pbi example_headers "Sales")]).
Proof.
  apply (@X6_workspace_first_match example_pbi odd_listing_env [] "Sales"%string
           example_headers [Http (token_request example_pbi)]
           {| status_code := 200; text := "groups2" |}
           (JObj [("value"%string,
                   JArr [JObj [("id"%string, JStr "w1"); ("name"%string, JStr "Sales")];
                         JObj [("id"%string, JStr "w2"); ("name"%string, JStr "Sales")]])])
           (JObj [("id"%string, JStr "w1"); ("name"%string, JStr "Sales")])
           [JObj [("id"%string, JStr "w2"); ("name"%string, JStr "Sales")]]);
    reflexivity.
Defined.

(** ** SecretMinter: the boundary of the cap and principals without id *)

(** X7. With the cap of 5 that [CreateClient] sets, the capacity check
    passes exactly when the store lists fewer than 5 secrets and raises
    exactly when it lists 5 or more; either way it asks the store once. *)
Theorem X7_cap_boundary :
  forall env t i secrets,
    secrets_proxy_list env t i = Ok secrets ->
    snd (run (CheckServicePrincipalSecret CreateClient i) env t) = t ++ [SecretsList i]
    /\ (length secrets < 5 <->
        fst (run (CheckServicePrincipalSecret CreateClient i) env t) = Ok tt)
    /\ (5 <= length secrets <->
        fst (run (CheckServicePrincipalSecret CreateClient i) env t)
        = Err (ValueError (cap_message CreateClient i))).
Proof.
  intros env t i secrets Hl.
  destruct (Nat.lt_ge_cases (length secrets) 5) as [Hn | Hn].
  - rewrite (@CheckServicePrincipalSecret_below_cap CreateClient env t i secrets Hl)
      by (simpl; lia).
    simpl. split; [reflexivity |]. split.
    + split; intros; [reflexivity | exact Hn].
    + split; [intros; lia | discriminate].
  - rewrite (@CheckServicePrincipalSecret_at_cap CreateClient env t i secrets Hl)
      by (simpl; lia).
    simpl. split; [reflexivity |]. split.
    + split; [intros; lia | discriminate].
    + split; intros; [reflexivity | exact Hn].
Qed.

Lemma X7_witness :
  fst (run (CheckServicePrincipalSecret CreateClient (Some "2"))
         (example_env 4 200 200) []) = Ok tt
  /\ fst (run (CheckServicePrincipalSecret CreateClient (Some "2"))
            (example_env 5 200 200) [])
     = Err (ValueError (cap_message CreateClient (Some "2"))).
Proof.
  split.
  - destruct (@X7_cap_boundary (example_env 4 200 200) [] (Some "2"%string)
                (repeat {| secret_info_id := "s" |} 4) eq_refl) as (_ & H & _).
    apply H. simpl. lia.
  - destruct (@X7_cap_boundary (example_env 5 200 200) [] (Some "2"%string)
                (repeat {| secret_info_id := "s" |} 5) eq_refl) as (_ & _ & H).
    apply H. simpl. lia.
Defined.

(** X8. [CheckServicePrincipal] decides on the id of the last principal
    listed: when that principal has no id, the method takes the principal
    for absent although the lookup matched, creates a new one with the
    display name and returns the created ids; when the creation raises, so
    does the method. *)
Theorem X8_last_without_id_is_created :
  forall env t name init sp,
    service_principals_list env t ("displayName eq " ++ name)%string
    = Ok (init ++ [sp]) ->
    id sp = None ->
    (forall created,
        service_principals_create env
          (t ++ [SpList ("displayName eq " ++ name)%string]) name = Ok created ->
        run (CheckServicePrincipal name) env t
        = (Ok (application_id created, id created),
           t ++ [SpList ("displayName eq " ++ name)%string; SpCreate name]))
    /\ (forall e,
          service_principals_create env
            (t ++ [SpList ("displayName eq " ++ name)%string]) name = Err e ->
          run (CheckServicePrincipal name) env t
          = (Err e, t ++ [SpList ("displayName eq " ++ name)%string; SpCreate name])).
Proof.
  intros env t name init sp Hl Hi. split.
  - intros created Hc. unfold CheckServicePrincipal.
    erewrite run_bind_ok by (rewrite run_ask, Hl; reflexivity).
    rewrite CheckServicePrincipal_loop_last, Hi.
    erewrite run_bind_ok by (rewrite run_ask, Hc; reflexivity).
    rewrite app_cons_assoc. reflexivity.
  - intros e Hc. unfold CheckServicePrincipal.
    erewrite run_bind_ok by (rewrite run_ask, Hl; reflexivity).
    rewrite CheckServicePrincipal_loop_last, Hi.
    erewrite run_bind_err by (rewrite run_ask, Hc; reflexivity).
    rewrite app_cons_assoc. reflexivity.
Qed.

Lemma X8_witness :
  run (CheckServicePrincipal "svc-bi") auth_error_env []
  = (Ok ("app-made"%string, Some "3"%string),
     [SpList "displayName eq svc-bi"; SpCreate "svc-bi"]).
Proof.
  destruct (@X8_last_without_id_is_created auth_error_env [] "svc-bi"%string
              [ {| application_id := "app-old"; id := Some "1"%string |} ]
              {| application_id := "app-none"; id := None |} eq_refl eq_refl)
    as (H & _).
  apply (H {| application_id := "app-made"; id := Some "3"%string |}). reflexivity.
Defined.

(** ** Listings the loops cannot read *)

Lemma GetDatasetId_loop_fails name pre bad post acc e :
  Forall (dataset_entry name) pre -> dataset_step_fails name bad e ->
  GetDatasetId_loop name (pre ++ bad :: post) acc = Err e.
Proof.
  intros Hpre Hbad. revert acc.
  induction Hpre as [| i pre Hi _ IH]; intros acc; simpl.
  - destruct Hbad as [Hn | (n & Hn & Hm & Hid)]; rewrite Hn; simpl; [reflexivity |].
    rewrite Hm, Hid. reflexivity.
  - destruct Hi as [(n' & Hn' & Hne) | (v' & n' & Hn' & Hm' & Hv')];
      rewrite Hn'; simpl.
    + rewrite Hne. apply IH.
    + rewrite Hm', Hv'. simpl. apply IH.
Qed.

Lemma GetDatasetDatasource_loop_fails pre bad post g0 d0 e :
  Forall datasource_entry pre -> datasource_step_fails bad e ->
  GetDatasetDatasource_loop (pre ++ bad :: post) g0 d0 = Err e.
Proof.
  intros Hpre Hbad. revert g0 d0.
  induction Hpre as [| j pre Hj _ IH]; intros g0 d0; simpl.
  - destruct Hbad as [Hd | [(det & Hd & Hk) | (det & k & Hd & Hk & Hm & Hrest)]];
      rewrite Hd; simpl; [reflexivity | rewrite Hk; reflexivity |].
    rewrite Hk. simpl. rewrite Hm.
    destruct Hrest as [Hg | (g & Hg & Hds)]; rewrite Hg; simpl; [reflexivity |].
    rewrite Hds. reflexivity.
  - destruct Hj as [(det' & k' & Hd' & Hk' & Hne)
                   | (g' & d' & det' & k' & Hd' & Hk' & Hm' & Hg' & Hds')];
      rewrite Hd'; simpl; rewrite Hk'; simpl.
    + rewrite Hne. apply IH.
    + rewrite Hm', Hg'. simpl. rewrite Hds'. simpl. apply IH.
Qed.

Lemma run_loads_fails {A} env t s (k : json -> M A) :
  json_loads env s = None ->
  run (bind (loads s) k) env t = (Err JSONDecodeError, t).
Proof. intros H. unfold run, bind, loads. rewrite H. reflexivity. Qed.

(** X9. [GetDatasetId] never looks at the status code of the listing.  An
    answer that is not JSON raises [JSONDecodeError]; a JSON object without
    "value" (an error body, for one) raises [KeyError]; and the loop reads
    the name of every entry up to the end, so that an entry without a
    readable "name", or an entry of the requested name without a readable
    "id", raises that entry's exception even when an earlier entry
    matched. *)
Theorem X9_dataset_listing_errors :
  forall self env t W name hdrs t1 response,
    run (GetRequestHeader self) env t = (Ok hdrs, t1) ->
    requests env t1 (datasets_request self hdrs (str_of env W)) = Ok response ->
    (json_loads env (text response) = None ->
     run (GetDatasetId self W name) env t
     = (Err JSONDecodeError,
        t1 ++ [Http (datasets_request self hdrs (str_of env W))]))
    /\ (forall kv,
          json_loads env (text response) = Some (JObj kv) ->
          assoc "value" kv = None ->
          run (GetDatasetId self W name) env t
          = (Err (KeyError (JStr "value")),
             t1 ++ [Http (datasets_request self hdrs (str_of env W))]))
    /\ (forall temp value pre bad post e,
          json_loads env (text response) = Some temp ->
          getitem temp "value" = Ok value ->
          py_iter value = Ok (pre ++ bad :: post) ->
          Forall (dataset_entry name) pre -> dataset_step_fails name bad e ->
          run (GetDatasetId self W name) env t
          = (Err e, t1 ++ [Http (datasets_request self hdrs (str_of env W))])).
Proof.
  intros self env t W name hdrs t1 response Hh Hr. repeat split.
  - intros Hj. unfold GetDatasetId.
    erewrite run_bind_ok by exact Hh.
    erewrite run_bind_ok by reflexivity.
    erewrite run_bind_ok by (apply run_http; exact Hr).
    apply run_loads_fails. exact Hj.
  - intros kv Hj Hv.
    erewrite GetDatasetId_run by eassumption.
    unfold GetDatasetId_body. simpl. rewrite Hv. reflexivity.
  - intros temp value pre bad post e Hj Hv Hi Hpre Hbad.
    erewrite GetDatasetId_run by eassumption.
    unfold GetDatasetId_body. rewrite Hv. simpl. rewrite Hi. simpl.
    erewrite GetDatasetId_loop_fails by eassumption. reflexivity.
Qed.

Lemma X9_witness :
  fst (run (GetDatasetId example_pbi (JStr "w1") "Revenue") not_found_env [])
  = Err (KeyError (JStr "value"))
  /\ fst (run (GetDatasetId example_pbi (JStr "w1") "Revenue") odd_listing_env [])
     = Err (KeyError (JStr "name")).
Proof.
  split.
  - destruct (@X9_dataset_listing_errors example_pbi not_found_env [] (JStr "w1")
                "Revenue"%string example_headers [Http (token_request example_pbi)]
                {| status_code := 404; text := "notfound" |} eq_refl eq_refl)
      as (_ & H & _).
    rewrite (H [("error"%string, JStr "ItemNotFound")]); reflexivity.
  - destruct (@X9_dataset_listing_errors example_pbi odd_listing_env [] (JStr "w1")
                "Revenue"%string example_headers [Http (token_request example_pbi)]
                {| status_code := 200; text := "datasets" |} eq_refl eq_refl)
      as (_ & _ & H).
    rewrite (H (JObj [("value"%string,
                       JArr [JObj [("id"%string, JStr "d1");
                                   ("name"%string, JStr "Revenue")];
                             JObj [("id"%string, JStr "d2")]])])
               (JArr [JObj [("id"%string, JStr "d1"); ("name"%string, JStr "Revenue")];
                      JObj [("id"%string, JStr "d2")]])
               [JObj [("id"%string, JStr "d1"); ("name"%string, JStr "Revenue")]]
               (JObj [("id"%string, JStr "d2")]) [] (KeyError (JStr "name")));
      try reflexivity.
    + apply Forall_cons; [| apply Forall_nil].
      right. exists (JStr "d1"), (JStr "Revenue"). repeat split.
    + left. reflexivity.
Defined.

(** X10. [GetDatasetDatasource] never looks at the status code either.  An
    answer that is not JSON raises [JSONDecodeError]; a JSON object without
    "value" raises [KeyError]; and an entry without readable
    "connectionDetails" or "kind", or a "Databricks" entry without a readable
    "gatewayId" or "datasourceId", raises that entry's exception even when
    an earlier entry matched. *)
Theorem X10_datasource_listing_errors :
  forall self env t W D hdrs t1 response,
    run (GetRequestHeader self) env t = (Ok hdrs, t1) ->
    requests env t1 (datasources_request self hdrs (str_of env W) (str_of env D))
    = Ok response ->
    (json_loads env (text response) = None ->
     run (GetDatasetDatasource self W D) env t
     = (Err JSONDecodeError,
        t1 ++ [Http (datasources_request self hdrs (str_of env W) (str_of env D))]))
    /\ (forall kv,
          json_loads env (text response) = Some (JObj kv) ->
          assoc "value" kv = None ->
          run (GetDatasetDatasource self W D) env t
          = (Err (KeyError (JStr "value")),
             t1 ++ [Http (datasources_request self hdrs (str_of env W)
                            (str_of env D))]))
    /\ (forall temp value pre bad post e,
          json_loads env (text response) = Some temp ->
          getitem temp "value" = Ok value ->
          py_iter value = Ok (pre ++ bad :: post) ->
          Forall datasource_entry pre -> datasource_step_fails bad e ->
          run (GetDatasetDatasource self W D) env t
          = (Err e,
             t1 ++ [Http (datasources_request self hdrs (str_of env W)
                            (str_of env D))])).
Proof.
  intros self env t W D hdrs t1 response Hh Hr. repeat split.
  - intros Hj. unfold GetDatasetDatasource.
    erewrite run_bind_ok by exact Hh.
    erewrite run_bind_ok by reflexivity.
    erewrite run_bind_ok by reflexivity.
    erewrite run_bind_ok by (apply run_http; exact Hr).
    apply run_loads_fails. exact Hj.
  - intros kv Hj Hv.
    erewrite GetDatasetDatasource_run by eassumption.
    unfold GetDatasetDatasource_body. simpl. rewrite Hv. reflexivity.
  - intros temp value pre bad post e Hj Hv Hi Hpre Hbad.
    erewrite GetDatasetDatasource_run by eassumption.
    unfold GetDatasetDatasource_body. rewrite Hv. simpl. rewrite Hi. simpl.
    erewrite GetDatasetDatasource_loop_fails by eassumption. reflexivity.
Qed.

Lemma X10_witness :
  fst (run (GetDatasetDatasource example_pbi (JStr "w1") (JStr "d1")) not_found_env [])
  = Err (KeyError (JStr "value"))
  /\ fst (run (GetDatasetDatasource example_pbi (JStr "w1") (JStr "d1"))
            odd_listing_env [])
     = Err (KeyError (JStr "connectionDetails")).
Proof.
  split.
  - destruct (@X10_datasource_listing_errors example_pbi not_found_env []
                (JStr "w1") (JStr "d1") example_headers
                [Http (token_request example_pbi)]
                {| status_code := 404; text := "notfound" |} eq_refl eq_refl)
      as (_ & H & _).
    rewrite (H [("error"%string, JStr "ItemNotFound")]); reflexivity.
  - destruct (@X10_datasource_listing_errors example_pbi odd_listing_env []
                (JStr "w1") (JStr "d1") example_headers
                [Http (token_request example_pbi)]
                {| status_code := 200; text := "datasources" |} eq_refl eq_refl)
      as (_ & _ & H).
    rewrite (H (JObj [("value"%string,
                       JArr [JObj [("gatewayId"%string, JStr "g1");
                                   ("datasourceId"%string, JStr "s1")]])])
               (JArr [JObj [("gatewayId"%string, JStr "g1");
                            ("datasourceId"%string, JStr "s1")]])
               []
               (JObj [("gatewayId"%string, JStr "g1");
                      ("datasourceId"%string, JStr "s1")]) []
               (KeyError (JStr "connectionDetails")));
      try reflexivity.
    + apply Forall_nil.
    + left. reflexivity.
Defined.

(** ** Gateway public key *)

(** X11. [GetGatewayPublicKey] gets the gateway by its id and returns the
    "publicKey" of the decoded answer, whatever the status code; an answer
    without that key raises [KeyError], an answer that is not JSON raises
    [JSONDecodeError]. *)
Theorem X11_gateway_public_key :
  forall self env t G hdrs t1 response,
    run (GetRequestHeader self) env t = (Ok hdrs, t1) ->
    requests env t1 (gateway_request self hdrs (str_of env G)) = Ok response ->
    (forall kv key,
        json_loads env (text response) = Some (JObj kv) ->
        assoc "publicKey" kv = Some key ->
        run (GetGatewayPublicKey self G) env t
        = (Ok key, t1 ++ [Http (gateway_request self hdrs (str_of env G))]))
    /\ (forall kv,
          json_loads env (text response) = Some (JObj kv) ->
          assoc "publicKey" kv = None ->
          run (GetGatewayPublicKey self G) env t
          = (Err (KeyError (JStr "publicKey")),
             t1 ++ [Http (gateway_request self hdrs (str_of env G))]))
    /\ (json_loads env (text response) = None ->
        run (GetGatewayPublicKey self G) env t
        = (Err JSONDecodeError,
           t1 ++ [Http (gateway_request self hdrs (str_of env G))])).
Proof.
  intros self env t G hdrs t1 response Hh Hr.
  assert (Hrun : forall temp,
             json_loads env (text response) = Some temp ->
             run (GetGatewayPublicKey self G) env t
             = (getitem temp "publicKey",
                t1 ++ [Http (gateway_request self hdrs (str_of env G))])).
  { intros temp Hj. unfold GetGatewayPublicKey.
    erewrite run_bind_ok by exact Hh.
    erewrite run_bind_ok by reflexivity.
    erewrite run_bind_ok by (apply run_http; exact Hr).
    erewrite run_bind_ok by (apply run_loads; exact Hj).
    reflexivity. }
  repeat split.
  - intros kv key Hj Hk. rewrite (Hrun _ Hj). simpl. rewrite Hk. reflexivity.
  - intros kv Hj Hk. rewrite (Hrun _ Hj). simpl. rewrite Hk. reflexivity.
  - intros Hj. unfold GetGatewayPublicKey.
    erewrite run_bind_ok by exact Hh.
    erewrite run_bind_ok by reflexivity.
    erewrite run_bind_ok by (apply run_http; exact Hr).
    apply run_loads_fails. exact Hj.
Qed.

Lemma X11_witness :
  fst (run (GetGatewayPublicKey example_pbi (JStr "g3")) (example_env 0 200 200) [])
  = Ok (JStr "key")
  /\ fst (run (GetGatewayPublicKey example_pbi (JStr "g3")) not_found_env [])
     = Err (KeyError (JStr "publicKey")).
Proof.
  split.
  - destruct (@X11_gateway_public_key example_pbi (example_env 0 200 200) []
                (JStr "g3") example_headers [Http (token_request example_pbi)]
                {| status_code := 200; text := "gateway" |} eq_refl eq_refl)
      as (H & _).
    rewrite (H [("publicKey"%string, JStr "key")] (JStr "key")); reflexivity.
  - destruct (@X11_gateway_public_key example_pbi not_found_env []
                (JStr "g3") example_headers [Http (token_request example_pbi)]
                {| status_code := 404; text := "notfound" |} eq_refl eq_refl)
      as (_ & H & _).
    rewrite (H [("error"%string, JStr "ItemNotFound")]); reflexivity.
Defined.

(** ** The whole run: the order of the calls *)

Lemma NoDup_schedule p : NoDup (schedule p).
Proof.
  unfold schedule, schedule_4_14, schedule_16.
  destruct (String.eqb (GatewayType p) "NoGateway"),
    (String.eqb (GatewayType p) "Onpremises"),
    (String.eqb (RefreshDatasetFlag p) "true"); simpl;
    repeat (constructor; [simpl; intuition discriminate |]); constructor.
Qed.

(** ** Every recorded call is a real one *)

Lemma prefix_append (a b : string) : prefix a (a ++ b) = true.
Proof.
  induction a as [| c a IH]; simpl; [destruct b; reflexivity |].
  destruct (ascii_dec c c) as [_ | H]; [exact IH | contradiction].
Qed.

Lemma is_token_request_token self : is_token_request (Http (token_request self)) = true.
Proof.
  unfold is_token_request, token_request. cbn [method body url].
  apply prefix_append.
Qed.

Lemma opens_external c e : opens c e = true -> external e.
Proof. destruct c, e; simpl; intros H; solve [exact I | discriminate H]. Qed.

Lemma well_opened_external evs : Forall external evs -> well_opened evs = true.
Proof.
  induction 1 as [| e evs He _ IH]; [reflexivity |].
  destruct e; simpl in *; [contradiction | exact IH ..].
Qed.

Lemma well_opened_app a b :
  well_opened a = true -> well_opened b = true -> well_opened (a ++ b) = true.
Proof.
  intros Ha Hb. induction a as [| x a IH]; [exact Hb |].
  destruct x as [c | | | | | | | |];
    try (cbn [app well_opened] in *; apply IH; exact Ha).
  destruct a as [| e a']; [discriminate Ha |].
  cbn [well_opened] in Ha. apply andb_prop in Ha. destruct Ha as (Ho & Ha).
  change ((Invoked c :: e :: a') ++ b) with (Invoked c :: (e :: a') ++ b).
  change ((e :: a') ++ b) with (e :: (a' ++ b)) in *.
  cbn [well_opened]. rewrite Ho. apply IH. exact Ha.
Qed.

Lemma calls_open_quiet {A} (c : M A) : emits external c -> calls_open c.
Proof.
  intros H env t. destruct (H env t) as (evs & E & F).
  exists evs. split; [exact E | apply well_opened_external, F].
Qed.

Lemma calls_open_bind {A B} (c : M A) (k : A -> M B) :
  calls_open c -> (forall a, calls_open (k a)) -> calls_open (bind c k).
Proof.
  intros Hc Hk env t. unfold bind.
  destruct (Hc env t) as (e1 & E1 & W1).
  destruct (c env t) as [[a | e] t1]; simpl in E1; subst t1.
  - destruct (Hk a env (t ++ e1)) as (e2 & E2 & W2).
    exists (e1 ++ e2). rewrite E2.
    split; [symmetry; apply app_assoc | apply well_opened_app; assumption].
  - exists e1. split; [reflexivity | exact W1].
Qed.

Lemma calls_open_invoke {A} c (m : M A) :
  begins (fun e => opens c e = true) m -> calls_open (invoke c m).
Proof.
  intros H env t. unfold invoke, bind, emit.
  destruct (H env (t ++ [Invoked c])) as (e & rest & E & He & F).
  exists (Invoked c :: e :: rest). rewrite E, <- app_assoc.
  split; [reflexivity |].
  cbn [well_opened]. rewrite He.
  apply (well_opened_external (Forall_cons e (opens_external c e He) F)).
Qed.

Lemma begins_ask {A} (P : event -> Prop) e (o : Env -> trace -> result A) :
  P e -> begins P (ask e o).
Proof.
  intros H env t. exists e, []. split; [reflexivity |]. split; [exact H | constructor].
Qed.

Lemma begins_bind {A B} (P : event -> Prop) (c : M A) (k : A -> M B) :
  begins P c -> (forall a, emits external (k a)) -> begins P (bind c k).
Proof.
  intros Hc Hk env t. unfold bind.
  destruct (Hc env t) as (e & rest & E & He & F).
  destruct (c env t) as [[a | x] t1]; simpl in E; subst t1.
  - destruct (Hk a env (t ++ e :: rest)) as (e2 & E2 & F2).
    exists e, (rest ++ e2). rewrite E2, <- app_assoc.
    split; [reflexivity |]. split; [exact He | apply Forall_app; split; assumption].
  - exists e, rest. split; [reflexivity |]. split; assumption.
Qed.

Lemma begins_fmt {A} (P : event -> Prop) v (k : string -> M A) :
  (forall s, begins P (k s)) -> begins P (bind (fmt v) k).
Proof. intros H env t. exact (H (str_of env v) env t). Qed.

Ltac then_external :=
  intros;
  repeat first [ apply emits_http; exact (fun _ => I)
               | apply emits_ask; exact I
               | emits_step ].

Lemma begins_GetRequestHeader self :
  begins (fun e => is_token_request e = true) (GetRequestHeader self).
Proof.
  unfold GetRequestHeader, GetAccessToken, http.
  apply begins_bind; [| then_external].
  apply begins_bind; [| then_external].
  apply begins_ask, is_token_request_token.
Qed.

Ltac begins_with_token :=
  apply begins_bind; [apply begins_GetRequestHeader | then_external].

Lemma calls_open_cells_4_14 p : calls_open (cells_4_14 p).
Proof.
  unfold cells_4_14. cbv zeta.
  apply calls_open_bind; [| intros ids].
  { apply calls_open_invoke. unfold CheckServicePrincipal.
    apply begins_bind; [apply begins_ask; reflexivity | then_external]. }
  apply calls_open_bind; [| intros _].
  { apply calls_open_invoke. unfold CheckServicePrincipalSecret.
    apply begins_bind; [apply begins_ask; reflexivity | then_external]. }
  apply calls_open_bind; [| intros secret].
  { apply calls_open_invoke. unfold GenerateServicePrincipalSecret.
    apply begins_bind; [apply begins_ask; reflexivity | then_external]. }
  apply calls_open_bind; [| intros _].
  { apply calls_open_invoke. unfold GrantPermissionsOnWarehouse.
    apply begins_ask. reflexivity. }
  apply calls_open_bind;
    [apply calls_open_quiet, emits_secrets_get; constructor | intros cid].
  apply calls_open_bind;
    [apply calls_open_quiet, emits_secrets_get; constructor | intros csec].
  apply calls_open_bind;
    [apply calls_open_quiet, emits_secrets_get; constructor | intros tid].
  apply calls_open_bind; [| intros W].
  { apply calls_open_invoke. unfold GetWorkspaceId. begins_with_token. }
  apply calls_open_bind; [| intros D].
  { apply calls_open_invoke. unfold GetDatasetId. begins_with_token. }
  apply calls_open_bind; [| intros _].
  { destruct (String.eqb (GatewayType p) "NoGateway").
    - apply calls_open_invoke. unfold TakOverDataset. begins_with_token.
    - apply calls_open_quiet, emits_ret. }
  apply calls_open_bind; [| intros gd].
  { apply calls_open_invoke. unfold GetDatasetDatasource. begins_with_token. }
  apply calls_open_bind; [| intros ec; apply calls_open_quiet, emits_ret].
  unfold cell14. destruct (String.eqb (GatewayType p) "Onpremises").
  - apply calls_open_bind; [| intros pk].
    { apply calls_open_invoke. unfold GetGatewayPublicKey. begins_with_token. }
    apply calls_open_bind; [| intros c; apply calls_open_quiet, emits_ret].
    apply calls_open_invoke. unfold EncodeCredentials.
    apply begins_ask. reflexivity.
  - apply calls_open_quiet, emits_ret.
Qed.

Lemma calls_open_Notebook p : calls_open (Notebook p).
Proof.
  unfold Notebook.
  apply calls_open_bind; [apply calls_open_cells_4_14 | intros g].
  apply calls_open_bind; [| intros _].
  { unfold cell15. apply calls_open_invoke. unfold UpdateDatasetDatasource.
    apply begins_fmt. intros gw. apply begins_fmt. intros ds. begins_with_token. }
  unfold cell16. destruct (String.eqb (RefreshDatasetFlag p) "true").
  - apply calls_open_invoke. unfold RefreshDataset. begins_with_token.
  - apply calls_open_quiet, emits_ret.
Qed.

(** X12. The calls a run of the notebook makes are an initial part of the
    schedule of its widget values, in that order; no service method is
    called twice; and a run that ends without an exception has made every
    call of the schedule.  The recorded calls are real ones: in the trace
    of any run, the record of a call is followed at once by the first
    request of the method called, which is the request to the store for the
    methods of [DatabricksService], the request to the encryption service
    for [EncodeCredentials], and the token request for every method of
    [PowerbiService]. *)
Theorem X12_calls_follow_schedule :
  forall p env,
    (exists rest,
        schedule p = invocations (snd (run (Notebook p) env [])) ++ rest)
    /\ NoDup (invocations (snd (run (Notebook p) env [])))
    /\ (fst (run (Notebook p) env []) = Ok tt ->
        invocations (snd (run (Notebook p) env [])) = schedule p)
    /\ well_opened (snd (run (Notebook p) env [])) = true
    /\ (forall self, is_token_request (Http (token_request self)) = true).
Proof.
  intros p env.
  destruct (@follows_prefix unit (schedule p) (Notebook p) env (follows_Notebook p))
    as (rest & Hs).
  split; [exists rest; exact Hs |]. split; [| split; [| split]].
  - pose proof (NoDup_schedule p) as N. rewrite Hs in N.
    eapply NoDup_app_remove_r. exact N.
  - intros H. destruct (follows_Notebook p env []) as (l' & E & R).
    unfold run in *. rewrite H in R. rewrite E, R. reflexivity.
  - destruct (calls_open_Notebook p env []) as (evs & E & W).
    cbn [app] in E. unfold run. rewrite E. exact W.
  - exact is_token_request_token.
Qed.

Lemma X12_witness :
  invocations (snd (run (Notebook (example_params "Onpremises" "false"))
                      (example_env 0 200 200) []))
  = [cCheckServicePrincipal; cCheckServicePrincipalSecret;
     cGenerateServicePrincipalSecret; cGrantPermissionsOnWarehouse;
     cGetWorkspaceId; cGetDatasetId; cGetDatasetDatasource;
     cGetGatewayPublicKey; cEncodeCredentials; cUpdateDatasetDatasource].
Proof.
  destruct (X12_calls_follow_schedule (example_params "Onpremises" "false")
              (example_env 0 200 200)) as (_ & _ & H & _).
  rewrite H; [reflexivity | vm_compute; reflexivity].
Defined.

(** ** The whole run: secrets created *)

Lemma minted_app t1 t2 : minted (t1 ++ t2) = minted t1 + minted t2.
Proof.
  induction t1 as [| e t1 IH]; simpl; [reflexivity |].
  destruct e; simpl; rewrite IH; reflexivity.
Qed.

Lemma generated_app t1 t2 : generated (t1 ++ t2) = generated t1 + generated t2.
Proof.
  induction t1 as [| e t1 IH]; simpl; [reflexivity |].
  destruct e as [c | | | | | | | |]; simpl; try (rewrite IH; reflexivity).
  destruct c; simpl; rewrite IH; reflexivity.
Qed.

Lemma quiet_counts evs :
  Forall not_minting evs -> minted evs = 0 /\ generated evs = 0.
Proof.
  induction 1 as [| e evs He _ [IH1 IH2]]; [split; reflexivity |].
  destruct e as [c | | | | | | | |]; simpl in *;
    try contradiction; try (split; assumption).
  destruct c; simpl in *; try contradiction; split; assumption.
Qed.

Lemma mints_quiet {A} (c : M A) : emits not_minting c -> mints 0 c.
Proof.
  intros H env t. destruct (H env t) as (evs & E & F).
  destruct (quiet_counts F) as (Hm & Hg).
  exists evs. rewrite Hm, Hg. split; [exact E |]. split; [reflexivity |].
  destruct (fst (c env t)); [reflexivity | apply le_n].
Qed.

Lemma mints_bind {A B} n m (c : M A) (k : A -> M B) :
  mints n c -> (forall a, mints m (k a)) -> mints (n + m) (bind c k).
Proof.
  intros Hc Hk env t. unfold bind.
  destruct (Hc env t) as (e1 & E1 & B1 & R1).
  destruct (c env t) as [[a | e] t1]; simpl in E1, R1; subst t1.
  - destruct (Hk a env (t ++ e1)) as (e2 & E2 & B2 & R2).
    exists (e1 ++ e2). rewrite E2, minted_app, generated_app.
    split; [symmetry; apply app_assoc |]. split; [lia |].
    destruct (fst (k a env (t ++ e1))); lia.
  - exists e1. simpl. split; [reflexivity |]. split; [exact B1 | lia].
Qed.

Lemma mints_after_quiet {A B} n (c : M A) (k : A -> M B) :
  emits not_minting c -> (forall a, mints n (k a)) -> mints n (bind c k).
Proof. intros Hc Hk. apply (@mints_bind A B 0 n c k (mints_quiet Hc) Hk). Qed.

Lemma mints_then_quiet {A B} n (c : M A) (k : A -> M B) :
  mints n c -> (forall a, emits not_minting (k a)) -> mints n (bind c k).
Proof.
  intros Hc Hk. rewrite <- (Nat.add_0_r n).
  apply mints_bind; [exact Hc | intros a; apply mints_quiet, Hk].
Qed.

Lemma mints_GenerateServicePrincipalSecret i life :
  mints 1 (invoke cGenerateServicePrincipalSecret
             (GenerateServicePrincipalSecret i life)).
Proof.
  intros env t.
  exists [Invoked cGenerateServicePrincipalSecret; SecretsCreate i (life ++ "s")].
  unfold invoke, GenerateServicePrincipalSecret, bind, emit, ask, ret.
  destruct (secrets_proxy_create env (t ++ [Invoked cGenerateServicePrincipalSecret])
              i (life ++ "s"));
    cbn [fst snd]; rewrite app_cons_assoc; repeat split; apply le_n.
Qed.

(** [emits P] for the cells after the secret is created, for a [P] that
    holds of every event but those of [GenerateServicePrincipalSecret]. *)
Ltac quiet_call tac :=
  unfold invoke;
  apply emits_bind; [apply emits_emit; exact I | intros _; tac; intros; exact I].

Ltac quiet_cell14 :=
  unfold cell14;
  match goal with |- emits _ (if ?b then _ else _) => destruct b end;
  [ apply emits_bind;
      [quiet_call ltac:(apply emits_GetGatewayPublicKey) | intros ?];
    apply emits_bind;
      [quiet_call ltac:(apply emits_EncodeCredentials) | intros ?];
    apply emits_ret
  | apply emits_ret ].

Ltac quiet_from_secrets p :=
  apply emits_bind; [apply emits_secrets_get; intros; exact I | intros ?];
  apply emits_bind; [apply emits_secrets_get; intros; exact I | intros ?];
  apply emits_bind; [apply emits_secrets_get; intros; exact I | intros ?];
  apply emits_bind; [quiet_call ltac:(apply emits_GetWorkspaceId) | intros ?];
  apply emits_bind; [quiet_call ltac:(apply emits_GetDatasetId) | intros ?];
  apply emits_bind;
    [ destruct (String.eqb (GatewayType p) "NoGateway");
      [quiet_call ltac:(apply emits_TakOverDataset) | apply emits_ret]
    | intros _ ];
  apply emits_bind; [quiet_call ltac:(apply emits_GetDatasetDatasource) | intros ?];
  apply emits_bind; [quiet_cell14 | intros ?];
  apply emits_ret.

Ltac quiet_cells_15_16 :=
  apply emits_bind;
    [ unfold cell15; quiet_call ltac:(apply emits_UpdateDatasetDatasource)
    | intros _; unfold cell16;
      match goal with |- emits _ (if ?b then _ else _) => destruct b end;
      [quiet_call ltac:(apply emits_RefreshDataset) | apply emits_ret] ].

Lemma mints_cells_4_14 p : mints 1 (cells_4_14 p).
Proof.
  unfold cells_4_14. cbv zeta.
  apply mints_after_quiet;
    [quiet_call ltac:(apply emits_CheckServicePrincipal) | intros ids].
  apply mints_after_quiet;
    [quiet_call ltac:(apply emits_CheckServicePrincipalSecret) | intros _].
  apply mints_then_quiet;
    [apply mints_GenerateServicePrincipalSecret | intros secret].
  apply emits_bind;
    [quiet_call ltac:(apply emits_GrantPermissionsOnWarehouse) | intros _].
  quiet_from_secrets p.
Qed.

Lemma mints_Notebook p : mints 1 (Notebook p).
Proof.
  unfold Notebook.
  apply mints_then_quiet; [apply mints_cells_4_14 | intros g; quiet_cells_15_16].
Qed.

(** X13. In any run of the notebook the store is asked to create a secret
    exactly as many times as [GenerateServicePrincipalSecret] is called, and
    that is at most once: no other method creates a secret and the creation
    is never repeated.  A run that ends without an exception has created
    exactly one secret. *)
Theorem X13_one_secret_per_run :
  forall p env,
    minted (snd (run (Notebook p) env []))
    = generated (snd (run (Notebook p) env []))
    /\ minted (snd (run (Notebook p) env [])) <= 1
    /\ (fst (run (Notebook p) env []) = Ok tt ->
        minted (snd (run (Notebook p) env [])) = 1).
Proof.
  intros p env. destruct (mints_Notebook p env []) as (evs & E & B & R).
  cbn [app] in E. unfold run. rewrite E. split; [exact B |]. split.
  - destruct (fst (Notebook p env [])); [rewrite R; apply le_n | exact R].
  - intros H. rewrite H in R. exact R.
Qed.

Lemma X13_witness :
  minted (snd (run (Notebook (example_params "VNET" "true"))
                 (example_env 0 200 200) [])) = 1.
Proof.
  destruct (X13_one_secret_per_run (example_params "VNET" "true")
              (example_env 0 200 200)) as (_ & _ & H).
  apply H. vm_compute. reflexivity.
Defined.

(** ** The whole run: what the cells pass on *)

Lemma CheckServicePrincipalSecret_trace self i env t r t' :
  run (CheckServicePrincipalSecret self i) env t = (r, t') ->
  t' = t ++ [SecretsList i].
Proof.
  unfold run, CheckServicePrincipalSecret, bind, ask.
  destruct (secrets_proxy_list env t i) as [l | e];
    [| intros [= _ <-]; reflexivity].
  destruct (max_secrets self <=? Z.of_nat (length l))%Z;
    intros [= _ <-]; reflexivity.
Qed.

Lemma GenerateServicePrincipalSecret_run env t i life :
  run (invoke cGenerateServicePrincipalSecret
         (GenerateServicePrincipalSecret i life)) env t
  = (match secrets_proxy_create env (t ++ [Invoked cGenerateServicePrincipalSecret])
             i (life ++ "s") with
     | Ok r => Ok (secret r)
     | Err e => Err e
     end,
     t ++ [Invoked cGenerateServicePrincipalSecret; SecretsCreate i (life ++ "s")]).
Proof.
  unfold run, invoke, GenerateServicePrincipalSecret, bind, emit, ask, ret.
  destruct (secrets_proxy_create env (t ++ [Invoked cGenerateServicePrincipalSecret])
              i (life ++ "s"));
    rewrite app_cons_assoc; reflexivity.
Qed.

Lemma GrantPermissionsOnWarehouse_run env t a w :
  run (invoke cGrantPermissionsOnWarehouse (GrantPermissionsOnWarehouse a w)) env t
  = (warehouses_set_permissions env (t ++ [Invoked cGrantPermissionsOnWarehouse]) w a,
     t ++ [Invoked cGrantPermissionsOnWarehouse; SetPermissions w a]).
Proof.
  unfold run, invoke, GrantPermissionsOnWarehouse, bind, emit, ask.
  rewrite app_cons_assoc. reflexivity.
Qed.

Lemma Notebook_extends p env :
  exists evs,
    snd (run (Notebook p) env []) = snd (run (cells_4_14 p) env []) ++ evs.
Proof.
  unfold Notebook.
  destruct (run (cells_4_14 p) env []) as [[g | e] t14] eqn:E14.
  - erewrite run_bind_ok by exact E14.
    assert (E : emits any_event (bind (cell15 g) (fun _ => cell16 p g)))
      by quiet_cells_15_16.
    destruct (E env t14) as (evs & Et & _). exists evs. exact Et.
  - erewrite run_bind_err by exact E14. exists []. symmetry. apply app_nil_r.
Qed.

Ltac norm_trace := rewrite <- ?app_assoc; cbn [app].

(** Runs cells 4 to 6 of [cells_4_14] in the goal. *)
Ltac run_to_mint H1 H2 H3 Hc :=
  unfold cells_4_14; cbv zeta;
  erewrite run_bind_ok by exact H1; cbv beta zeta;
  erewrite run_bind_ok
    by (rewrite run_invoke;
        eapply CheckServicePrincipalSecret_below_cap; [exact H2 | exact H3]);
  cbv beta zeta.

(** X14. The ids [CheckServicePrincipal] returns go to the later cells as
    follows: the secrets are listed and the new secret is created for the
    principal id, with the lifetime widget followed by "s"; the warehouse
    permission is then set for the application id on the warehouse of the
    widget.  When the creation fails the run ends there with its exception;
    when the grant fails the run ends there, after the secret has been
    created. *)
Theorem X14_ids_flow_to_store_calls :
  forall p env ids t1 secrets,
    run (invoke cCheckServicePrincipal
           (CheckServicePrincipal (ServicePrincipal p))) env [] = (Ok ids, t1) ->
    secrets_proxy_list env (t1 ++ [Invoked cCheckServicePrincipalSecret]) (snd ids)
    = Ok secrets ->
    (Z.of_nat (length secrets) < 5)%Z ->
    (forall e,
        secrets_proxy_create env
          (t1 ++ [Invoked cCheckServicePrincipalSecret; SecretsList (snd ids);
                  Invoked cGenerateServicePrincipalSecret])
          (snd ids) (Lifetime p ++ "s") = Err e ->
        run (Notebook p) env []
        = (Err e,
           t1 ++ [Invoked cCheckServicePrincipalSecret; SecretsList (snd ids);
                  Invoked cGenerateServicePrincipalSecret;
                  SecretsCreate (snd ids) (Lifetime p ++ "s")]))
    /\ (forall resp,
          secrets_proxy_create env
            (t1 ++ [Invoked cCheckServicePrincipalSecret; SecretsList (snd ids);
                    Invoked cGenerateServicePrincipalSecret])
            (snd ids) (Lifetime p ++ "s") = Ok resp ->
          (exists later,
              snd (run (Notebook p) env [])
              = t1 ++ [Invoked cCheckServicePrincipalSecret; SecretsList (snd ids);
                       Invoked cGenerateServicePrincipalSecret;
                       SecretsCreate (snd ids) (Lifetime p ++ "s");
                       Invoked cGrantPermissionsOnWarehouse;
                       SetPermissions (WarehouseId p) (fst ids)] ++ later)
          /\ (forall e,
                warehouses_set_permissions env
                  (t1 ++ [Invoked cCheckServicePrincipalSecret;
                          SecretsList (snd ids);
                          Invoked cGenerateServicePrincipalSecret;
                          SecretsCreate (snd ids) (Lifetime p ++ "s");
                          Invoked cGrantPermissionsOnWarehouse])
                  (WarehouseId p) (fst ids) = Err e ->
                run (Notebook p) env []
                = (Err e,
                   t1 ++ [Invoked cCheckServicePrincipalSecret;
                          SecretsList (snd ids);
                          Invoked cGenerateServicePrincipalSecret;
                          SecretsCreate (snd ids) (Lifetime p ++ "s");
                          Invoked cGrantPermissionsOnWarehouse;
                          SetPermissions (WarehouseId p) (fst ids)]))).
Proof.
  intros p env ids t1 secrets H1 H2 H3. split.
  - intros e Hc. unfold Notebook. apply run_bind_err.
    run_to_mint H1 H2 H3 Hc.
    apply run_bind_err. rewrite GenerateServicePrincipalSecret_run.
    norm_trace. rewrite Hc. reflexivity.
  - intros resp Hc. split.
    + destruct (Notebook_extends p env) as (evs & ->).
      run_to_mint H1 H2 H3 Hc.
      erewrite run_bind_ok
        by (rewrite GenerateServicePrincipalSecret_run; norm_trace; rewrite Hc;
            reflexivity).
      cbv beta zeta.
      destruct (warehouses_set_permissions env
                  (t1 ++ [Invoked cCheckServicePrincipalSecret;
                          SecretsList (snd ids);
                          Invoked cGenerateServicePrincipalSecret;
                          SecretsCreate (snd ids) (Lifetime p ++ "s");
                          Invoked cGrantPermissionsOnWarehouse])
                  (WarehouseId p) (fst ids)) as [[] | e] eqn:Hg.
      * erewrite run_bind_ok
          by (rewrite GrantPermissionsOnWarehouse_run; norm_trace; rewrite Hg;
              reflexivity).
        cbv beta zeta.
        match goal with
        | |- context [run ?c env ?t] =>
            assert (E : emits any_event c) by quiet_from_secrets p;
            destruct (E env t) as (evs' & Et & _)
        end.
        unfold run. rewrite Et. exists (evs' ++ evs).
        rewrite <- !app_assoc. reflexivity.
      * erewrite run_bind_err
          by (rewrite GrantPermissionsOnWarehouse_run; norm_trace; rewrite Hg;
              reflexivity).
        exists evs. cbn [snd]. rewrite <- app_assoc. reflexivity.
    + intros e Hg. unfold Notebook. apply run_bind_err.
      run_to_mint H1 H2 H3 Hc.
      erewrite run_bind_ok
        by (rewrite GenerateServicePrincipalSecret_run; norm_trace; rewrite Hc;
            reflexivity).
      cbv beta zeta.
      apply run_bind_err. rewrite GrantPermissionsOnWarehouse_run.
      norm_trace. rewrite Hg. reflexivity.
Qed.

Lemma X14_witness :
  exists later,
    snd (run (Notebook (example_params "VNET" "false")) (example_env 4 200 200) [])
    = [Invoked cCheckServicePrincipal; SpList "displayName eq svc-bi";
       Invoked cCheckServicePrincipalSecret; SecretsList (Some "2");
       Invoked cGenerateServicePrincipalSecret;
       SecretsCreate (Some "2") "604800s";
       Invoked cGrantPermissionsOnWarehouse; SetPermissions "wh1" "app-new"]
      ++ later.
Proof.
  destruct (@X14_ids_flow_to_store_calls (example_params "VNET" "false")
              (example_env 4 200 200) ("app-new"%string, Some "2"%string)
              [Invoked cCheckServicePrincipal; SpList "displayName eq svc-bi"]
              (repeat {| secret_info_id := "s" |} 4))
    as (_ & H).
  - reflexivity.
  - reflexivity.
  - simpl. lia.
  - destruct (H {| secret := "s3cr3t" |}) as ((later & E) & _); [reflexivity |].
    exists later. exact E.
Defined.

(** ** Cells 4 to 14: where the published values come from *)

Lemma GetGatewayPublicKey_ok_end self G env t pk t' :
  run (GetGatewayPublicKey self G) env t = (Ok pk, t') ->
  exists hdrs response temp,
    requests env (t ++ [Http (token_request self)])
      (gateway_request self hdrs (str_of env G)) = Ok response
    /\ json_loads env (text response) = Some temp
    /\ getitem temp "publicKey" = Ok pk
    /\ t' = t ++ [Http (token_request self);
                  Http (gateway_request self hdrs (str_of env G))].
Proof.
  intros H. unfold GetGatewayPublicKey in H.
  apply run_bind_inv in H as (hdrs & t1 & Hh & H).
  pose proof (GetRequestHeader_end _ _ _ Hh) as ->.
  apply run_bind_inv in H as (g & t2 & Hg & H).
  apply run_fmt_inv in Hg as (-> & ->).
  apply run_bind_inv in H as (response & t2 & Hr & H).
  unfold http in Hr. apply run_ask_inv in Hr as (Hr & ->).
  apply run_bind_inv in H as (temp & t3 & Hl & H).
  exists hdrs, response, temp. split; [exact Hr |].
  unfold run, loads in Hl.
  destruct (json_loads env (text response)) as [j |]; [| discriminate Hl].
  injection Hl as -> <-.
  unfold run, lift in H. injection H as Hk <-.
  split; [reflexivity |]. split; [exact Hk | apply app_cons_assoc].
Qed.

(** A run of cells 4 to 14 that returns, taken apart cell by cell: every
    cell starts from the trace the one before it left. *)
Lemma cells_4_14_inv p env g t14 :
  run (cells_4_14 p) env [] = (Ok g, t14) ->
  exists ids t1 resp cid csec tid W t10 D t11 t12 GD t13 ec,
    run (invoke cCheckServicePrincipal
           (CheckServicePrincipal (ServicePrincipal p))) env [] = (Ok ids, t1)
    /\ secrets_proxy_create env
         (t1 ++ [Invoked cCheckServicePrincipalSecret; SecretsList (snd ids);
                 Invoked cGenerateServicePrincipalSecret])
         (snd ids) (Lifetime p ++ "s") = Ok resp
    /\ dbutils_secrets_get env (trace_after_grant p ids t1)
         (SecretScope p) (ClientIdSecret p) = Ok cid
    /\ dbutils_secrets_get env
         (trace_after_grant p ids t1
          ++ [SecretsGet (SecretScope p) (ClientIdSecret p)])
         (SecretScope p) (SecretSecret p) = Ok csec
    /\ dbutils_secrets_get env
         (trace_after_grant p ids t1
          ++ [SecretsGet (SecretScope p) (ClientIdSecret p);
              SecretsGet (SecretScope p) (SecretSecret p)])
         (SecretScope p) (TenantIdSecret p) = Ok tid
    /\ run (invoke cGetWorkspaceId
              (GetWorkspaceId (CreateCredential tid cid csec) (Workspace p)))
         env (trace_after_secrets p ids t1) = (Ok W, t10)
    /\ run (invoke cGetDatasetId
              (GetDatasetId (CreateCredential tid cid csec) W (Dataset p))) env t10
       = (Ok D, t11)
    /\ run (if String.eqb (GatewayType p) "NoGateway"
            then invoke cTakOverDataset
                   (TakOverDataset (CreateCredential tid cid csec) W D)
            else ret tt) env t11 = (Ok tt, t12)
    /\ run (invoke cGetDatasetDatasource
              (GetDatasetDatasource (CreateCredential tid cid csec) W D)) env t12
       = (Ok GD, t13)
    /\ run (cell14 (CreateCredential tid cid csec) (GatewayType p) (fst GD)
              (fst ids) (secret resp)) env t13 = (Ok ec, t14)
    /\ g = {| pbi_svc := CreateCredential tid cid csec;
              gWorkspaceId := W; gDatasetId := D;
              gGatewayId := fst GD; gDataSourceId := snd GD;
              gCredentials := snd ec; gEncryptionAlgorithm := fst ec |}.
Proof.
  intros H. unfold cells_4_14 in H. cbv zeta in H.
  apply run_bind_inv in H as (ids & t1 & H1 & H). cbv beta zeta in H.
  apply run_bind_inv in H as ([] & t2 & H2 & H). cbv beta zeta in H.
  rewrite run_invoke in H2. apply CheckServicePrincipalSecret_trace in H2. subst t2.
  apply run_bind_inv in H as (s & t3 & H3 & H). cbv beta zeta in H.
  rewrite GenerateServicePrincipalSecret_run in H3. revert H3. norm_trace.
  destruct (secrets_proxy_create env
              (t1 ++ [Invoked cCheckServicePrincipalSecret; SecretsList (snd ids);
                      Invoked cGenerateServicePrincipalSecret])
              (snd ids) (Lifetime p ++ "s")) as [resp | e] eqn:Hc;
    intros [= <- <-].
  apply run_bind_inv in H as ([] & t4 & Hg & H). cbv beta zeta in H.
  rewrite GrantPermissionsOnWarehouse_run in Hg. revert Hg. norm_trace.
  intros [= _ <-].
  fold (trace_after_grant p ids t1) in H.
  apply run_bind_inv in H as (cid & t5 & Hcid & H). cbv beta zeta in H.
  apply run_ask_inv in Hcid as (Hcid & ->).
  apply run_bind_inv in H as (csec & t6 & Hcsec & H). cbv beta zeta in H.
  apply run_ask_inv in Hcsec as (Hcsec & ->).
  apply run_bind_inv in H as (tid & t7 & Htid & H). cbv beta zeta in H.
  apply run_ask_inv in Htid as (Htid & ->).
  replace (((trace_after_grant p ids t1
             ++ [SecretsGet (SecretScope p) (ClientIdSecret p)])
            ++ [SecretsGet (SecretScope p) (SecretSecret p)])
           ++ [SecretsGet (SecretScope p) (TenantIdSecret p)])
    with (trace_after_secrets p ids t1) in H
    by (unfold trace_after_secrets; rewrite <- !app_assoc; reflexivity).
  rewrite app_cons_assoc in Htid.
  apply run_bind_inv in H as (W & t10 & HW & H). cbv beta zeta in H.
  apply run_bind_inv in H as (D & t11 & HD & H). cbv beta zeta in H.
  apply run_bind_inv in H as ([] & t12 & HT & H). cbv beta zeta in H.
  apply run_bind_inv in H as (GD & t13 & HGD & H). cbv beta zeta in H.
  apply run_bind_inv in H as (ec & t14' & Hec & H). cbv beta zeta in H.
  unfold run, ret in H. injection H as <- <-.
  exists ids, t1, resp, cid, csec, tid, W, t10, D, t11, t12, GD, t13, ec.
  split; [exact H1 |]. split; [exact Hc |].
  split; [exact Hcid |]. split; [exact Hcsec |]. split; [exact Htid |].
  split; [exact HW |]. split; [exact HD |]. split; [exact HT |].
  split; [exact HGD |]. split; [exact Hec | reflexivity].
Qed.

Lemma Notebook_after_cells p env g t14 :
  run (cells_4_14 p) env [] = (Ok g, t14) ->
  exists evs,
    snd (run (Notebook p) env [])
    = snd (run (UpdateDatasetDatasource (pbi_svc g) (gGatewayId g) (gDataSourceId g)
                  (gCredentials g) (gEncryptionAlgorithm g)) env
             (t14 ++ [Invoked cUpdateDatasetDatasource])) ++ evs.
Proof.
  intros E14. unfold Notebook. erewrite run_bind_ok by exact E14.
  unfold run at 1, bind.
  change (cell15 g env t14)
    with (run (UpdateDatasetDatasource (pbi_svc g) (gGatewayId g) (gDataSourceId g)
                 (gCredentials g) (gEncryptionAlgorithm g)) env
            (t14 ++ [Invoked cUpdateDatasetDatasource])).
  destruct (run (UpdateDatasetDatasource (pbi_svc g) (gGatewayId g) (gDataSourceId g)
                   (gCredentials g) (gEncryptionAlgorithm g)) env
              (t14 ++ [Invoked cUpdateDatasetDatasource])) as [[u | e] t15].
  - assert (E : emits any_event (cell16 p g)) by walk_cell16.
    destruct (E env t15) as (evs & Et & _). exists evs. exact Et.
  - exists []. symmetry. apply app_nil_r.
Qed.

Lemma Notebook_update_request p env g t14 hdrs t15 :
  run (cells_4_14 p) env [] = (Ok g, t14) ->
  run (GetRequestHeader (pbi_svc g)) env (t14 ++ [Invoked cUpdateDatasetDatasource])
  = (Ok hdrs, t15) ->
  exists later,
    snd (run (Notebook p) env [])
    = t14 ++ [Invoked cUpdateDatasetDatasource; Http (token_request (pbi_svc g));
              Http (update_request (pbi_svc g) hdrs (str_of env (gGatewayId g))
                      (str_of env (gDataSourceId g)) (gCredentials g)
                      (gEncryptionAlgorithm g))] ++ later.
Proof.
  intros E14 Hh. destruct (@Notebook_after_cells p env g t14 E14) as (evs & E).
  exists evs. rewrite E. erewrite UpdateDatasetDatasource_trace by exact Hh.
  pose proof (GetRequestHeader_end _ _ _ Hh) as ->.
  rewrite <- !app_assoc. reflexivity.
Qed.

(** X15. When cells 4 to 14 complete, the credentials sent with the update
    are built from the application id that [CheckServicePrincipal] returned
    and the secret the store created in this run.  With a gateway type other
    than "Onpremises" they are the plain string of those two, with the
    algorithm "None"; with "Onpremises" they are what the encryption service
    returned, at the end of cell 14, for the single-quoted string of those
    two under the "publicKey" of the answer to the gateway request of this
    client for the gateway kept, with the algorithm "RSA-OAEP".  Cell 15 then asks for a
    token and, once it is had, sends the PATCH for the gateway and
    datasource kept, with these credentials and this algorithm. *)
Theorem X15_published_secret_is_the_created_one :
  forall p env g t14,
    run (cells_4_14 p) env [] = (Ok g, t14) ->
    exists ids t1 resp,
      run (invoke cCheckServicePrincipal
             (CheckServicePrincipal (ServicePrincipal p))) env [] = (Ok ids, t1)
      /\ secrets_proxy_create env
           (t1 ++ [Invoked cCheckServicePrincipalSecret; SecretsList (snd ids);
                   Invoked cGenerateServicePrincipalSecret])
           (snd ids) (Lifetime p ++ "s") = Ok resp
      /\ (GatewayType p <> "Onpremises"%string ->
          gEncryptionAlgorithm g = "None"%string
          /\ gCredentials g = plain_credentials (fst ids) (secret resp))
      /\ (GatewayType p = "Onpremises"%string ->
          gEncryptionAlgorithm g = "RSA-OAEP"%string
          /\ exists t13 hdrs response temp public_key,
               t14 = t13 ++ [Invoked cGetGatewayPublicKey;
                             Http (token_request (pbi_svc g));
                             Http (gateway_request (pbi_svc g) hdrs
                                     (str_of env (gGatewayId g)));
                             Invoked cEncodeCredentials;
                             Encrypt public_key
                               (onprem_credentials (fst ids) (secret resp))]
               /\ requests env
                    (t13 ++ [Invoked cGetGatewayPublicKey;
                             Http (token_request (pbi_svc g))])
                    (gateway_request (pbi_svc g) hdrs (str_of env (gGatewayId g)))
                  = Ok response
               /\ json_loads env (text response) = Some temp
               /\ getitem temp "publicKey" = Ok public_key
               /\ encrypt_credentials env
                    (t13 ++ [Invoked cGetGatewayPublicKey;
                             Http (token_request (pbi_svc g));
                             Http (gateway_request (pbi_svc g) hdrs
                                     (str_of env (gGatewayId g)));
                             Invoked cEncodeCredentials])
                    public_key (onprem_credentials (fst ids) (secret resp))
                  = Ok (gCredentials g))
      /\ (forall hdrs t15,
            run (GetRequestHeader (pbi_svc g)) env
              (t14 ++ [Invoked cUpdateDatasetDatasource]) = (Ok hdrs, t15) ->
            exists later,
              snd (run (Notebook p) env [])
              = t14 ++ [Invoked cUpdateDatasetDatasource;
                        Http (token_request (pbi_svc g));
                        Http (update_request (pbi_svc g) hdrs
                                (str_of env (gGatewayId g))
                                (str_of env (gDataSourceId g))
                                (gCredentials g) (gEncryptionAlgorithm g))]
                ++ later).
Proof.
  intros p env g t14 H.
  pose proof (fun hdrs t15 => @Notebook_update_request p env g t14 hdrs t15 H) as Hu.
  destruct (@cells_4_14_inv p env g t14 H)
    as (ids & t1 & resp & cid & csec & tid & W & t10 & D & t11 & t12 & GD & t13
        & ec & H1 & Hc & _ & _ & _ & _ & _ & _ & _ & Hec & ->).
  exists ids, t1, resp. split; [exact H1 |]. split; [exact Hc |].
  cbn [gEncryptionAlgorithm gCredentials pbi_svc gGatewayId gDataSourceId] in *.
  split; [| split; [| exact Hu]].
  - intros Hg. rewrite (@cell14_plain _ _ _ _ _ _ _ Hg) in Hec.
    injection Hec as <- _. split; reflexivity.
  - intros Hg. rewrite Hg in Hec. unfold cell14 in Hec.
    change (String.eqb "Onpremises" "Onpremises") with true in Hec. cbv iota in Hec.
    apply run_bind_inv in Hec as (pk & t13' & Hk & Hec). cbv beta in Hec.
    apply run_bind_inv in Hec as (c & t13'' & He & Hec). cbv beta in Hec.
    rewrite run_invoke in Hk.
    apply GetGatewayPublicKey_ok_end in Hk
      as (hdrs & response & temp & Hr & Hj & Hpk & ->).
    rewrite run_invoke in He. apply run_ask_inv in He as (He & ->).
    unfold run, ret in Hec. injection Hec as <- <-. cbn [fst snd].
    split; [reflexivity |]. exists t13, hdrs, response, temp, pk.
    revert He Hr. norm_trace. intros He Hr.
    split; [reflexivity |]. split; [exact Hr |]. split; [exact Hj |].
    split; [exact Hpk | exact He].
Qed.

Lemma X15_witness :
  exists later,
    snd (run (Notebook (example_params "VNET" "true")) (example_env 0 200 200) [])
    = snd (run (cells_4_14 (example_params "VNET" "true")) (example_env 0 200 200) [])
      ++ [Invoked cUpdateDatasetDatasource;
          Http (token_request (CreateCredential "tid" "cid" "csec"));
          Http (update_request (CreateCredential "tid" "cid" "csec") example_headers
                  "g3" "s3" (plain_credentials "app-new" "s3cr3t") "None")]
      ++ later.
Proof.
  let r14 := eval vm_compute in
       (run (cells_4_14 (example_params "VNET" "true")) (example_env 0 200 200) []) in
  lazymatch r14 with
  | (Ok ?g, ?t14) =>
      assert (H : run (cells_4_14 (example_params "VNET" "true"))
                    (example_env 0 200 200) [] = (Ok g, t14))
        by (vm_compute; reflexivity);
      destruct (@X15_published_secret_is_the_created_one _ _ _ _ H)
        as (ids & t1 & resp & H1 & Hc & Hplain & _ & Hsent);
      destruct (Hsent example_headers
                  (t14 ++ [Invoked cUpdateDatasetDatasource;
                           Http (token_request (pbi_svc g))]))
        as (later & E); [vm_compute; reflexivity |];
      exists later; rewrite E, H
  end.
  reflexivity.
Defined.

(** X16. When cells 4 to 14 complete, the values the later cells use come
    from the lookups of this run, each made from the trace the cell before
    it left: the client is the one made of the three values read from the
    secret scope of the widgets, the tenant under [TenantIdSecret], the
    client id under [ClientIdSecret] and the client secret under
    [SecretSecret]; the workspace id is what [GetWorkspaceId] returned for
    the workspace widget, the dataset id what [GetDatasetId] returned for
    that workspace and the dataset widget, and the gateway and datasource
    ids what [GetDatasetDatasource] returned for that workspace and dataset.
    Cell 15 sends its PATCH, once the token is had, as this client to this
    gateway and datasource; when it returns and the flag is "true", the run
    goes on as [RefreshDataset] does for this client, workspace and
    dataset. *)
Theorem X16_lookups_feed_the_update :
  forall p env g t14,
    run (cells_4_14 p) env [] = (Ok g, t14) ->
    exists ids t1 cid csec tid t10 t11 t12 t13,
      run (invoke cCheckServicePrincipal
             (CheckServicePrincipal (ServicePrincipal p))) env [] = (Ok ids, t1)
      /\ dbutils_secrets_get env (trace_after_grant p ids t1)
           (SecretScope p) (ClientIdSecret p) = Ok cid
      /\ dbutils_secrets_get env
           (trace_after_grant p ids t1
            ++ [SecretsGet (SecretScope p) (ClientIdSecret p)])
           (SecretScope p) (SecretSecret p) = Ok csec
      /\ dbutils_secrets_get env
           (trace_after_grant p ids t1
            ++ [SecretsGet (SecretScope p) (ClientIdSecret p);
                SecretsGet (SecretScope p) (SecretSecret p)])
           (SecretScope p) (TenantIdSecret p) = Ok tid
      /\ pbi_svc g = CreateCredential tid cid csec
      /\ run (invoke cGetWorkspaceId
                (GetWorkspaceId (pbi_svc g) (Workspace p)))
           env (trace_after_secrets p ids t1) = (Ok (gWorkspaceId g), t10)
      /\ run (invoke cGetDatasetId
                (GetDatasetId (pbi_svc g) (gWorkspaceId g) (Dataset p))) env t10
         = (Ok (gDatasetId g), t11)
      /\ run (if String.eqb (GatewayType p) "NoGateway"
              then invoke cTakOverDataset
                     (TakOverDataset (pbi_svc g) (gWorkspaceId g) (gDatasetId g))
              else ret tt) env t11 = (Ok tt, t12)
      /\ run (invoke cGetDatasetDatasource
                (GetDatasetDatasource (pbi_svc g) (gWorkspaceId g) (gDatasetId g)))
           env t12
         = (Ok (gGatewayId g, gDataSourceId g), t13)
      /\ (exists evs, t14 = t13 ++ evs)
      /\ (forall hdrs t15,
            run (GetRequestHeader (pbi_svc g)) env
              (t14 ++ [Invoked cUpdateDatasetDatasource]) = (Ok hdrs, t15) ->
            exists later,
              snd (run (Notebook p) env [])
              = t14 ++ [Invoked cUpdateDatasetDatasource;
                        Http (token_request (CreateCredential tid cid csec));
                        Http (update_request (CreateCredential tid cid csec) hdrs
                                (str_of env (gGatewayId g))
                                (str_of env (gDataSourceId g))
                                (gCredentials g) (gEncryptionAlgorithm g))]
                ++ later)
      /\ (forall t15,
            run (cell15 g) env t14 = (Ok tt, t15) ->
            RefreshDatasetFlag p = "true"%string ->
            run (Notebook p) env []
            = run (RefreshDataset (CreateCredential tid cid csec) (gWorkspaceId g)
                     (gDatasetId g)) env (t15 ++ [Invoked cRefreshDataset])).
Proof.
  intros p env g t14 H.
  pose proof (fun hdrs t15 => @Notebook_update_request p env g t14 hdrs t15 H) as Hu.
  pose proof (fun t15 => @Notebook_refreshes p env g t14 t15 H) as Hr.
  destruct (@cells_4_14_inv p env g t14 H)
    as (ids & t1 & resp & cid & csec & tid & W & t10 & D & t11 & t12 & GD & t13
        & ec & H1 & _ & Hcid & Hcsec & Htid & HW & HD & HT & HGD & Hec & ->).
  exists ids, t1, cid, csec, tid, t10, t11, t12, t13.
  cbn [gEncryptionAlgorithm gCredentials pbi_svc gGatewayId gDataSourceId
       gWorkspaceId gDatasetId] in *.
  split; [exact H1 |].
  split; [exact Hcid |]. split; [exact Hcsec |]. split; [exact Htid |].
  split; [reflexivity |]. split; [exact HW |]. split; [exact HD |].
  split; [exact HT |]. split; [destruct GD; exact HGD |].
  split; [| split; [exact Hu | exact Hr]].
  assert (E : emits any_event
                (cell14 (CreateCredential tid cid csec) (GatewayType p) (fst GD)
                   (fst ids) (secret resp))) by walk_cell14.
  destruct (E env t13) as (evs & Et & _). unfold run in Hec. rewrite Hec in Et.
  exists evs. exact Et.
Qed.

Lemma X16_witness :
  exists later,
    snd (run (Notebook (example_params "NoGateway" "false"))
           (example_env 0 200 200) [])
    = snd (run (cells_4_14 (example_params "NoGateway" "false"))
             (example_env 0 200 200) [])
      ++ [Invoked cUpdateDatasetDatasource;
          Http (token_request (CreateCredential "tid" "cid" "csec"));
          Http (update_request (CreateCredential "tid" "cid" "csec") example_headers
                  "g3" "s3" (plain_credentials "app-new" "s3cr3t") "None")]
      ++ later.
Proof.
  let r14 := eval vm_compute in
       (run (cells_4_14 (example_params "NoGateway" "false"))
          (example_env 0 200 200) []) in
  lazymatch r14 with
  | (Ok ?g, ?t14) =>
      assert (H : run (cells_4_14 (example_params "NoGateway" "false"))
                    (example_env 0 200 200) [] = (Ok g, t14))
        by (vm_compute; reflexivity);
      destruct (@X16_lookups_feed_the_update _ _ _ _ H)
        as (ids & t1 & cid & csec & tid & t10 & t11 & t12 & t13
            & _ & Hcid & Hcsec & Htid & _ & _ & _ & _ & _ & _ & Hsent & _);
      vm_compute in Hcid; injection Hcid as <-;
      vm_compute in Hcsec; injection Hcsec as <-;
      vm_compute in Htid; injection Htid as <-;
      destruct (Hsent example_headers
                  (t14 ++ [Invoked cUpdateDatasetDatasource;
                           Http (token_request (pbi_svc g))]))
        as (later & E); [vm_compute; reflexivity |];
      exists later; rewrite E, H
  end.
  reflexivity.
Defined.

(** ** Exceptions of the collaborators *)

Lemma CheckServicePrincipal_loop_bound sps :
  forall a b, (b <> None -> a <> None) ->
  snd (CheckServicePrincipal_loop sps a b) <> None ->
  fst (CheckServicePrincipal_loop sps a b) <> None.
Proof.
  induction sps as [| sp rest IH]; intros a b Hab; simpl; [exact Hab |].
  apply IH. intros _. discriminate.
Qed.

(** X17. [CheckServicePrincipal] raises only what the store raises: when
    the listing raises, the method ends with that exception and creates
    nothing; and whenever the method ends with an exception, it is the one
    of the listing or of the creation.  In particular the application id is
    always bound when the id is. *)
Theorem X17_principal_lookup_fails_only_with_the_store :
  forall env t name,
    (forall e,
        service_principals_list env t ("displayName eq " ++ name)%string = Err e ->
        run (CheckServicePrincipal name) env t
        = (Err e, t ++ [SpList ("displayName eq " ++ name)%string]))
    /\ (forall e,
          fst (run (CheckServicePrincipal name) env t) = Err e ->
          service_principals_list env t ("displayName eq " ++ name)%string = Err e
          \/ service_principals_create env
               (t ++ [SpList ("displayName eq " ++ name)%string]) name = Err e).
Proof.
  intros env t name. split.
  - intros e Hl. unfold CheckServicePrincipal.
    apply run_bind_err. rewrite run_ask, Hl. reflexivity.
  - intros e. unfold CheckServicePrincipal, run, bind, ask.
    destruct (service_principals_list env t ("displayName eq " ++ name)%string)
      as [sps | e'].
    + pose proof (@CheckServicePrincipal_loop_bound sps None None (fun H => H)) as Hb.
      destruct (CheckServicePrincipal_loop sps None None) as [[app |] [i |]];
        cbn [fst snd] in *.
      * discriminate.
      * destruct (service_principals_create env
                    (t ++ [SpList ("displayName eq " ++ name)%string]) name);
          cbn [fst]; [discriminate | intros [= <-]; right; reflexivity].
      * exfalso. apply Hb; [discriminate | reflexivity].
      * destruct (service_principals_create env
                    (t ++ [SpList ("displayName eq " ++ name)%string]) name);
          cbn [fst]; [discriminate | intros [= <-]; right; reflexivity].
    + cbn [fst]. intros [= <-]. left. reflexivity.
Qed.

Lemma X17_witness :
  run (CheckServicePrincipal "svc-bi") unreachable_env []
  = (Err (Raised "PermissionDenied"), [SpList "displayName eq svc-bi"]).
Proof.
  destruct (X17_principal_lookup_fails_only_with_the_store unreachable_env []
              "svc-bi"%string) as (H & _).
  apply H. reflexivity.
Defined.

(** X18. No method of [PowerbiService] catches an exception of the HTTP
    library: when the request of a method raises, after the token has been
    had, the method ends with that exception, right after the request. *)
Theorem X18_transport_errors_propagate :
  forall self env t hdrs t1 e,
    run (GetRequestHeader self) env t = (Ok hdrs, t1) ->
    (forall name,
        requests env t1 (groups_request self hdrs name) = Err e ->
        run (GetWorkspaceId self name) env t
        = (Err e, t1 ++ [Http (groups_request self hdrs name)]))
    /\ (forall W name,
          requests env t1 (datasets_request self hdrs (str_of env W)) = Err e ->
          run (GetDatasetId self W name) env t
          = (Err e, t1 ++ [Http (datasets_request self hdrs (str_of env W))]))
    /\ (forall W D,
          requests env t1
            (datasources_request self hdrs (str_of env W) (str_of env D)) = Err e ->
          run (GetDatasetDatasource self W D) env t
          = (Err e,
             t1 ++ [Http (datasources_request self hdrs (str_of env W)
                            (str_of env D))]))
    /\ (forall W D,
          requests env t1
            (takeover_request self hdrs (str_of env W) (str_of env D)) = Err e ->
          run (TakOverDataset self W D) env t
          = (Err e,
             t1 ++ [Http (takeover_request self hdrs (str_of env W) (str_of env D))]))
    /\ (forall G,
          requests env t1 (gateway_request self hdrs (str_of env G)) = Err e ->
          run (GetGatewayPublicKey self G) env t
          = (Err e, t1 ++ [Http (gateway_request self hdrs (str_of env G))]))
    /\ (forall W D,
          requests env t1
            (refresh_request self hdrs (str_of env W) (str_of env D)) = Err e ->
          run (RefreshDataset self W D) env t
          = (Err e,
             t1 ++ [Http (refresh_request self hdrs (str_of env W) (str_of env D))]))
    /\ (forall G DS cred alg,
          requests env t1
            (update_request self hdrs (str_of env G) (str_of env DS) cred alg)
          = Err e ->
          run (UpdateDatasetDatasource self G DS cred alg) env t
          = (Err e,
             t1 ++ [Http (update_request self hdrs (str_of env G) (str_of env DS)
                            cred alg)])).
Proof.
  intros self env t hdrs t1 e Hh.
  assert (Hhttp : forall r, requests env t1 r = Err e ->
                            run (http r) env t1 = (Err e, t1 ++ [Http r])).
  { intros r Hr. unfold http. rewrite run_ask, Hr. reflexivity. }
  repeat split; intros.
  - unfold GetWorkspaceId. erewrite run_bind_ok by exact Hh.
    apply run_bind_err. apply Hhttp. assumption.
  - unfold GetDatasetId. erewrite run_bind_ok by exact Hh.
    erewrite run_bind_ok by reflexivity.
    apply run_bind_err. apply Hhttp. assumption.
  - unfold GetDatasetDatasource. erewrite run_bind_ok by exact Hh.
    erewrite run_bind_ok by reflexivity. erewrite run_bind_ok by reflexivity.
    apply run_bind_err. apply Hhttp. assumption.
  - unfold TakOverDataset. erewrite run_bind_ok by exact Hh.
    erewrite run_bind_ok by reflexivity. erewrite run_bind_ok by reflexivity.
    apply run_bind_err. apply Hhttp. assumption.
  - unfold GetGatewayPublicKey. erewrite run_bind_ok by exact Hh.
    erewrite run_bind_ok by reflexivity.
    apply run_bind_err. apply Hhttp. assumption.
  - unfold RefreshDataset. erewrite run_bind_ok by exact Hh.
    erewrite run_bind_ok by reflexivity. erewrite run_bind_ok by reflexivity.
    apply run_bind_err. apply Hhttp. assumption.
  - unfold UpdateDatasetDatasource.
    erewrite run_bind_ok by reflexivity. erewrite run_bind_ok by reflexivity.
    erewrite run_bind_ok by exact Hh.
    apply run_bind_err. apply Hhttp. assumption.
Qed.

Lemma X18_witness :
  fst (run (GetWorkspaceId example_pbi "Sales") unreachable_env [])
  = Err (Raised "ConnectionError")
  /\ fst (run (RefreshDataset example_pbi (JStr "w1") (JStr "d3")) unreachable_env [])
     = Err (Raised "ConnectionError").
Proof.
  destruct (@X18_transport_errors_propagate example_pbi unreachable_env []
              example_headers [Http (token_request example_pbi)]
              (Raised "ConnectionError") eq_refl)
    as (Hw & _ & _ & _ & _ & Hr & _).
  split.
  - rewrite (Hw "Sales"%string); reflexivity.
  - rewrite (Hr (JStr "w1") (JStr "d3")); reflexivity.
Defined.
